(** * Banana Vision 4K: the editor core of [App.tsx]

    A shallow embedding of the state, the event handlers and the asynchronous
    service calls of the React component [App], of its loading message and
    of the requests and responses of [GeminiService], followed by the
    properties of the crop engine, the undo history, the zoom controller,
    the batch queue, the mode coordinator and the service.

    Modelling conventions.
    - A JavaScript [number] is an element of a type with the operations of
      the class [JsNum].  The general theorems are proved at the instance of
      exact rationals ([Q]); the concrete scenarios are also evaluated at the
      instance of binary64 floats, which is what the browser computes with.
    - A [useState] cell is a field of the record [State].  An event handler
      is a function of the state captured by the render that created it; it
      produces a [Proc]: a sequence of state updates ([setX(v)] and
      [setX(prev => ...)]) and of registered asynchronous calls together with
      their continuations.
    - [Math.random], [Date.now], [window.aistudio] and the canvas encoder are
      inputs of the environment ([Env]), given afresh to every handler run. *)

From Stdlib Require Import ZArith QArith Qminmax Lia Lqa Floats Uint63.
From Stdlib Require Import Ascii DecimalString.
From stdpp Require Import base list strings.

Set Default Goal Selector "1".

(* ================================================================== *)
(** * JavaScript numbers                                               *)
(* ================================================================== *)

Class JsNum (N : Type) := {
  num : Z -> N;                 (* an integer literal *)
  nadd : N -> N -> N;
  nsub : N -> N -> N;
  nmul : N -> N -> N;
  ndiv : N -> N -> N;
  nltb : N -> N -> bool;        (* a < b *)
  Math_max : N -> N -> N;
  Math_min : N -> N -> N
}.

Declare Scope js_scope.
Delimit Scope js_scope with js.
Infix "+" := nadd : js_scope.
Infix "-" := nsub : js_scope.
Infix "*" := nmul : js_scope.
Infix "/" := ndiv : js_scope.
Infix "<?" := nltb : js_scope.
Notation "a >? b" := (nltb b a) : js_scope.

(** A decimal literal [a.bc] is the quotient of two integer literals; at
    binary64 the correctly rounded quotient is the literal's value. *)
Definition dec {N} `{JsNum N} (a b : Z) : N := ndiv (num a) (num b).

#[export] Instance JsNum_Q : JsNum Q := {
  num := inject_Z;
  nadd := Qplus;
  nsub := Qminus;
  nmul := Qmult;
  ndiv := Qdiv;
  nltb := fun a b => negb (Qle_bool b a);
  Math_max := Qmax;
  Math_min := Qmin
}.

Definition float_of_Z (z : Z) : float :=
  if (z <? 0)%Z then PrimFloat.opp (PrimFloat.of_uint63 (Uint63.of_Z (- z)))
  else PrimFloat.of_uint63 (Uint63.of_Z z).

(** [Math.max] and [Math.min] on floats that are numbers (no NaN reaches
    them in the scenarios evaluated below). *)
#[export] Instance JsNum_float : JsNum float := {
  num := float_of_Z;
  nadd := PrimFloat.add;
  nsub := PrimFloat.sub;
  nmul := PrimFloat.mul;
  ndiv := PrimFloat.div;
  nltb := PrimFloat.ltb;
  Math_max := fun a b => if PrimFloat.ltb a b then b else a;
  Math_min := fun a b => if PrimFloat.ltb b a then b else a
}.

(* ================================================================== *)
(** * Crop geometry (percentage space)                                 *)
(* ================================================================== *)

Module Point.
Record t (N : Type) := mk { x : N; y : N }.
Arguments mk {N} _ _.
Arguments x {N} _.
Arguments y {N} _.
End Point.

Module Size.
Record t (N : Type) := mk { w : N; h : N }.
Arguments mk {N} _ _.
Arguments w {N} _.
Arguments h {N} _.
End Size.

(** [cropRatio : '1:1' | '16:9' | '9:16' | 'Free'] *)
Inductive CropRatio := R1_1 | R16_9 | R9_16 | RFree.

(** The values [setActiveHandle] is ever called with. *)
Inductive Handle := center | tl | tr | bl | br.

(** The source rectangle and destination size of
    [ctx.drawImage(img, x, y, width, height, 0, 0, width, height)] on a
    canvas whose [width] and [height] were set to [width] and [height]. *)
Module PixelRect.
Record t (N : Type) := mk { x : N; y : N; width : N; height : N }.
Arguments mk {N} _ _ _ _.
Arguments x {N} _.
Arguments y {N} _.
Arguments width {N} _.
Arguments height {N} _.
End PixelRect.

(** The four edges of the box while a corner is dragged (the locals [left],
    [top], [right], [bottom] of [handleCropMouseMove]). *)
Module Edges.
Record t (N : Type) := mk { left : N; top : N; right : N; bottom : N }.
Arguments mk {N} _ _ _ _.
Arguments left {N} _.
Arguments top {N} _.
Arguments right {N} _.
Arguments bottom {N} _.
End Edges.

Section Geometry.
Context {N : Type} `{JsNum N}.
Import Edges.
Local Open Scope js_scope.

(** [executeCrop], the arithmetic of [img.onload] (lines 440-448). *)
Definition mapPercentToPixelRect
    (cropPos : Point.t N) (cropSize : Size.t N) (realW realH : N)
    : PixelRect.t N :=
  let width := (Size.w cropSize / num 100) * realW in
  let height := (Size.h cropSize / num 100) * realH in
  let x := (Point.x cropPos / num 100) * realW - (width / num 2) in
  let y := (Point.y cropPos / num 100) * realH - (height / num 2) in
  PixelRect.mk x y width height.

Definition targetRatio (cropRatio : CropRatio) : N :=
  match cropRatio with
  | R1_1 => num 1
  | R16_9 => num 16 / num 9
  | _ => num 9 / num 16
  end.

(** [handleCropMouseMove], the branch [activeHandle === 'center']
    (lines 475-480): the new [cropPos]. *)
Definition moveCropBox (cropSize : Size.t N) (mouseX mouseY : N) : Point.t N :=
  let halfW := Size.w cropSize / num 2 in
  let halfH := Size.h cropSize / num 2 in
  let x := Math_max halfW (Math_min (num 100 - halfW) mouseX) in
  let y := Math_max halfH (Math_min (num 100 - halfH) mouseY) in
  Point.mk x y.

(** Lines 487-490: the dragged corner follows the pointer, at least 5
    units away from the pinned corner. *)
Definition dragCorner (activeHandle : Handle) (e : Edges.t N) (mouseX mouseY : N)
    : Edges.t N :=
  match activeHandle with
  | tl => Edges.mk (Math_min (right e - num 5) (Math_max (num 0) mouseX))
                  (Math_min (bottom e - num 5) (Math_max (num 0) mouseY))
                  (right e) (bottom e)
  | tr => Edges.mk (left e)
                  (Math_min (bottom e - num 5) (Math_max (num 0) mouseY))
                  (Math_max (left e + num 5) (Math_min (num 100) mouseX))
                  (bottom e)
  | bl => Edges.mk (Math_min (right e - num 5) (Math_max (num 0) mouseX))
                  (top e) (right e)
                  (Math_max (top e + num 5) (Math_min (num 100) mouseY))
  | br => Edges.mk (left e) (top e)
                  (Math_max (left e + num 5) (Math_min (num 100) mouseX))
                  (Math_max (top e + num 5) (Math_min (num 100) mouseY))
  | center => e
  end.

(** [handleCropMouseMove], the branch of the corner handles
    (lines 481-512): the new [cropSize] and [cropPos]. *)
Definition resizeCropBox (activeHandle : Handle) (cropRatio : CropRatio)
    (cropPos : Point.t N) (cropSize : Size.t N) (mouseX mouseY : N)
    : Size.t N * Point.t N :=
  let e0 := Edges.mk (Point.x cropPos - Size.w cropSize / num 2)
                    (Point.y cropPos - Size.h cropSize / num 2)
                    (Point.x cropPos + Size.w cropSize / num 2)
                    (Point.y cropPos + Size.h cropSize / num 2) in
  let e := dragCorner activeHandle e0 mouseX mouseY in
  let newW := right e - left e in
  let newH := bottom e - top e in
  match cropRatio with
  | RFree =>
      (Size.mk newW newH,
       Point.mk (left e + newW / num 2) (top e + newH / num 2))
  | _ =>
      let r := targetRatio cropRatio in
      let newH := newW / r in
      (* tl, tr: top = bottom - newH;  bl, br: bottom = top + newH *)
      let top1 := match activeHandle with
                  | tr | tl => bottom e - newH
                  | _ => top e
                  end in
      let bottom1 := match activeHandle with
                     | tr | tl => bottom e
                     | br | bl => top1 + newH
                     | center => bottom e
                     end in
      (* if (bottom > 100) { bottom = 100; newH = bottom - top; newW = newH * targetRatio; } *)
      let '(bottom2, newH2, newW2) :=
        if bottom1 >? num 100
        then (num 100, num 100 - top1, (num 100 - top1) * r)
        else (bottom1, newH, newW) in
      (* if (top < 0) { top = 0; newH = bottom - top; newW = newH * targetRatio; } *)
      let '(top3, newH3, newW3) :=
        if top1 <? num 0
        then (num 0, bottom2 - num 0, (bottom2 - num 0) * r)
        else (top1, newH2, newW2) in
      (Size.mk newW3 newH3,
       Point.mk (left e + newW3 / num 2) (top3 + newH3 / num 2))
  end.

(** The bottom-right corner of a centred box. *)
Definition brCorner (cropPos : Point.t N) (cropSize : Size.t N) : N * N :=
  (Point.x cropPos + Size.w cropSize / num 2,
   Point.y cropPos + Size.h cropSize / num 2).

(** [handleZoomWheel] (line 355-356), the new scale. *)
Definition zoomWheel (deltaY prev : N) : N :=
  let delta := if deltaY >? num 0 then num 0 - dec 1 10 else dec 1 10 in
  Math_max (dec 5 10) (Math_min (num 10) (prev + delta)).

(** The "-" and "+" buttons of the zoom viewer (lines 831, 833). *)
Definition zoomOutStep (prev : N) : N := Math_max (dec 5 10) (prev - dec 5 10).
Definition zoomInStep (prev : N) : N := Math_min (num 10) (prev + dec 5 10).

(** [handleComparisonMove] (lines 341-342). *)
Definition comparisonPosition (clientX rectLeft rectWidth : N) : N :=
  let position := ((clientX - rectLeft) / rectWidth) * num 100 in
  Math_max (num 0) (Math_min (num 100) position).
End Geometry.


(* ================================================================== *)
(** * Strings and JavaScript truthiness                                *)
(* ================================================================== *)

Local Open Scope string_scope.

(** A [string] holds the UTF-8 encoding of the JavaScript string, as the
    string literals of this file do.  [code_points] reads it back; a byte
    that is not part of a well-formed sequence stands for the code point of
    its own value. *)
Definition continuation (c : ascii) : bool :=
  ((128 <=? N_of_ascii c) && (N_of_ascii c <? 192))%N.

Fixpoint code_points (s : string) : list N :=
  match s with
  | EmptyString => []
  | String c0 s1 =>
      let b0 := N_of_ascii c0 in
      let single := b0 :: code_points s1 in
      if (b0 <? 194)%N then single
      else if (b0 <? 224)%N then
        match s1 with
        | String c1 s2 =>
            if continuation c1
            then ((b0 - 192) * 64 + (N_of_ascii c1 - 128))%N :: code_points s2
            else single
        | EmptyString => single
        end
      else if (b0 <? 240)%N then
        match s1 with
        | String c1 (String c2 s3) =>
            let cp := ((b0 - 224) * 4096 + (N_of_ascii c1 - 128) * 64
                       + (N_of_ascii c2 - 128))%N in
            if continuation c1 && continuation c2 && (2048 <=? cp)%N
               && negb ((55296 <=? cp) && (cp <=? 57343))%N
            then cp :: code_points s3
            else single
        | _ => single
        end
      else
        match s1 with
        | String c1 (String c2 (String c3 s4)) =>
            let cp := ((b0 - 240) * 262144 + (N_of_ascii c1 - 128) * 4096
                       + (N_of_ascii c2 - 128) * 64 + (N_of_ascii c3 - 128))%N in
            if continuation c1 && continuation c2 && continuation c3
               && (65536 <=? cp)%N && (cp <=? 1114111)%N
            then cp :: code_points s4
            else single
        | _ => single
        end
  end.

(** White space as [String.prototype.trim] sees it: the WhiteSpace and
    LineTerminator code points of ECMAScript, that is, U+0009 to U+000D,
    U+0020, U+00A0, U+1680, U+2000 to U+200A, U+2028, U+2029, U+202F, U+205F,
    U+3000 and U+FEFF. *)
Definition is_space (cp : N) : bool :=
  (((9 <=? cp) && (cp <=? 13))
   || (cp =? 32) || (cp =? 160) || (cp =? 5760)
   || ((8192 <=? cp) && (cp <=? 8202))
   || (cp =? 8232) || (cp =? 8233) || (cp =? 8239) || (cp =? 8287)
   || (cp =? 12288) || (cp =? 65279))%N.

(** [!s.trim()]: the string is empty once trimmed, that is, it holds only
    white space. *)
Definition blank (s : string) : bool := forallb is_space (code_points s).

(** [s.includes(sub)] *)
Fixpoint includes (sub s : string) : bool :=
  String.prefix sub s ||
  match s with
  | EmptyString => false
  | String _ s' => includes sub s'
  end.

(** A value of type [string | null] (or [string | undefined]) used as a
    condition: [null] and the empty string are falsy. *)
Definition truthy (o : option string) : bool :=
  match o with
  | Some s => negb (s =? "")
  | None => false
  end.

(** [a || b] on strings, [a] possibly [undefined]. *)
Definition or_else (a : option string) (b : string) : string :=
  match a with
  | Some s => if s =? "" then b else s
  | None => b
  end.

(** [Date.now().toString()] *)
Definition toString (n : Z) : string := NilZero.string_of_int (Z.to_int n).

(* ================================================================== *)
(** * The types of [types.ts] and the state of [App]                   *)
(* ================================================================== *)

Inductive AppMode :=
  | IDLE | GENERATING | EDITING | UPSCALING | UPSCALING_FREE
  | BATCH_PROCESSING | CROPPING | ZOOMING | REMOVING_WATERMARK
  | MAGIC_HAND | ERROR.

#[export] Instance AppMode_eq_dec : EqDecision AppMode.
Proof. solve_decision. Defined.

(** ['idle' | 'processing' | 'done' | 'error'] *)
Inductive BatchStatus := st_idle | st_processing | st_done | st_error.

#[export] Instance BatchStatus_eq_dec : EqDecision BatchStatus.
Proof. solve_decision. Defined.

(** ['Free' | 'Pro 4K'] *)
Inductive UpscaleType := Free | Pro_4K.

Module BatchImage.
Record t := mk {
  id : string;
  url : string;
  base64 : string;
  status : BatchStatus;
  resolution : string;
  upscaleType : option UpscaleType;
  error : option string;       (* [err.message], possibly undefined *)
  isCropping : option bool
}.
End BatchImage.

Module ResultItem.
Record t := mk {
  id : string;
  url : string;
  base64 : string;
  resolution : string;
  upscaleType : string;
  timestamp : Z
}.
End ResultItem.

(** [beforeUrl] is written by every object literal of the component, so its
    being optional is not modelled apart from [null]. *)
Module ImageState.
Record t := mk {
  url : option string;
  base64 : option string;
  beforeUrl : option string;
  resolution : string;
  isUpscaled : bool;
  upscaleType : option UpscaleType
}.
End ImageState.

Module HistoryItem.
Record t := mk {
  id : string;
  url : string;
  prompt : string;
  timestamp : Z
}.
End HistoryItem.

(** [interface CropState] of [App.tsx] *)
Module CropState.
Record t := mk {
  pos : Point.t Q;
  size : Size.t Q;
  ratio : CropRatio
}.
End CropState.

(** The value of [cropData]: [{ id: string; base64: string }]. *)
Module CropData.
Record t := mk { id : string; base64 : string }.
End CropData.

(** The [useState] cells of [App] (lines 23-64).  The copyboard, the two
    drawer flags and the loading message are presentation only and are left
    out: no handler modelled below reads them. *)
Record State := mkState {
  mode : AppMode;
  prompt : string;
  currentImage : ImageState.t;
  batchQueue : list BatchImage.t;
  results : list ResultItem.t;
  history : list HistoryItem.t;
  error : option string;
  isComparing : bool;
  comparePosition : Q;
  brushSize : Z;
  isDrawing : bool;
  cropData : option CropData.t;
  cropRatio : CropRatio;
  cropPos : Point.t Q;
  cropSize : Size.t Q;
  activeHandle : option Handle;
  zoomScale : Q;
  zoomTranslate : Point.t Q;
  isPanning : bool;
  cropHistory : list CropState.t;
  cropHistoryIndex : Z
}.

(** The setters returned by [useState], applied to a value. *)
Definition setMode (v : AppMode) (s : State) : State :=
  mkState v (prompt s) (currentImage s) (batchQueue s) (results s)
    (history s) (error s) (isComparing s) (comparePosition s) (brushSize s)
    (isDrawing s) (cropData s) (cropRatio s) (cropPos s) (cropSize s)
    (activeHandle s) (zoomScale s) (zoomTranslate s) (isPanning s)
    (cropHistory s) (cropHistoryIndex s).
Definition setPrompt (v : string) (s : State) : State :=
  mkState (mode s) v (currentImage s) (batchQueue s) (results s) (history s)
    (error s) (isComparing s) (comparePosition s) (brushSize s)
    (isDrawing s) (cropData s) (cropRatio s) (cropPos s) (cropSize s)
    (activeHandle s) (zoomScale s) (zoomTranslate s) (isPanning s)
    (cropHistory s) (cropHistoryIndex s).
Definition setCurrentImage (v : ImageState.t) (s : State) : State :=
  mkState (mode s) (prompt s) v (batchQueue s) (results s) (history s)
    (error s) (isComparing s) (comparePosition s) (brushSize s)
    (isDrawing s) (cropData s) (cropRatio s) (cropPos s) (cropSize s)
    (activeHandle s) (zoomScale s) (zoomTranslate s) (isPanning s)
    (cropHistory s) (cropHistoryIndex s).
Definition setBatchQueue (v : list BatchImage.t) (s : State) : State :=
  mkState (mode s) (prompt s) (currentImage s) v (results s) (history s)
    (error s) (isComparing s) (comparePosition s) (brushSize s)
    (isDrawing s) (cropData s) (cropRatio s) (cropPos s) (cropSize s)
    (activeHandle s) (zoomScale s) (zoomTranslate s) (isPanning s)
    (cropHistory s) (cropHistoryIndex s).
Definition setResults (v : list ResultItem.t) (s : State) : State :=
  mkState (mode s) (prompt s) (currentImage s) (batchQueue s) v (history s)
    (error s) (isComparing s) (comparePosition s) (brushSize s)
    (isDrawing s) (cropData s) (cropRatio s) (cropPos s) (cropSize s)
    (activeHandle s) (zoomScale s) (zoomTranslate s) (isPanning s)
    (cropHistory s) (cropHistoryIndex s).
Definition setHistory (v : list HistoryItem.t) (s : State) : State :=
  mkState (mode s) (prompt s) (currentImage s) (batchQueue s) (results s) v
    (error s) (isComparing s) (comparePosition s) (brushSize s)
    (isDrawing s) (cropData s) (cropRatio s) (cropPos s) (cropSize s)
    (activeHandle s) (zoomScale s) (zoomTranslate s) (isPanning s)
    (cropHistory s) (cropHistoryIndex s).
Definition setError (v : option string) (s : State) : State :=
  mkState (mode s) (prompt s) (currentImage s) (batchQueue s) (results s)
    (history s) v (isComparing s) (comparePosition s) (brushSize s)
    (isDrawing s) (cropData s) (cropRatio s) (cropPos s) (cropSize s)
    (activeHandle s) (zoomScale s) (zoomTranslate s) (isPanning s)
    (cropHistory s) (cropHistoryIndex s).
Definition setIsComparing (v : bool) (s : State) : State :=
  mkState (mode s) (prompt s) (currentImage s) (batchQueue s) (results s)
    (history s) (error s) v (comparePosition s) (brushSize s) (isDrawing s)
    (cropData s) (cropRatio s) (cropPos s) (cropSize s) (activeHandle s)
    (zoomScale s) (zoomTranslate s) (isPanning s) (cropHistory s)
    (cropHistoryIndex s).
Definition setComparePosition (v : Q) (s : State) : State :=
  mkState (mode s) (prompt s) (currentImage s) (batchQueue s) (results s)
    (history s) (error s) (isComparing s) v (brushSize s) (isDrawing s)
    (cropData s) (cropRatio s) (cropPos s) (cropSize s) (activeHandle s)
    (zoomScale s) (zoomTranslate s) (isPanning s) (cropHistory s)
    (cropHistoryIndex s).
Definition setBrushSize (v : Z) (s : State) : State :=
  mkState (mode s) (prompt s) (currentImage s) (batchQueue s) (results s)
    (history s) (error s) (isComparing s) (comparePosition s) v
    (isDrawing s) (cropData s) (cropRatio s) (cropPos s) (cropSize s)
    (activeHandle s) (zoomScale s) (zoomTranslate s) (isPanning s)
    (cropHistory s) (cropHistoryIndex s).
Definition setIsDrawing (v : bool) (s : State) : State :=
  mkState (mode s) (prompt s) (currentImage s) (batchQueue s) (results s)
    (history s) (error s) (isComparing s) (comparePosition s) (brushSize s)
    v (cropData s) (cropRatio s) (cropPos s) (cropSize s) (activeHandle s)
    (zoomScale s) (zoomTranslate s) (isPanning s) (cropHistory s)
    (cropHistoryIndex s).
Definition setCropData (v : option CropData.t) (s : State) : State :=
  mkState (mode s) (prompt s) (currentImage s) (batchQueue s) (results s)
    (history s) (error s) (isComparing s) (comparePosition s) (brushSize s)
    (isDrawing s) v (cropRatio s) (cropPos s) (cropSize s) (activeHandle s)
    (zoomScale s) (zoomTranslate s) (isPanning s) (cropHistory s)
    (cropHistoryIndex s).
Definition setCropRatio (v : CropRatio) (s : State) : State :=
  mkState (mode s) (prompt s) (currentImage s) (batchQueue s) (results s)
    (history s) (error s) (isComparing s) (comparePosition s) (brushSize s)
    (isDrawing s) (cropData s) v (cropPos s) (cropSize s) (activeHandle s)
    (zoomScale s) (zoomTranslate s) (isPanning s) (cropHistory s)
    (cropHistoryIndex s).
Definition setCropPos (v : Point.t Q) (s : State) : State :=
  mkState (mode s) (prompt s) (currentImage s) (batchQueue s) (results s)
    (history s) (error s) (isComparing s) (comparePosition s) (brushSize s)
    (isDrawing s) (cropData s) (cropRatio s) v (cropSize s) (activeHandle s)
    (zoomScale s) (zoomTranslate s) (isPanning s) (cropHistory s)
    (cropHistoryIndex s).
Definition setCropSize (v : Size.t Q) (s : State) : State :=
  mkState (mode s) (prompt s) (currentImage s) (batchQueue s) (results s)
    (history s) (error s) (isComparing s) (comparePosition s) (brushSize s)
    (isDrawing s) (cropData s) (cropRatio s) (cropPos s) v (activeHandle s)
    (zoomScale s) (zoomTranslate s) (isPanning s) (cropHistory s)
    (cropHistoryIndex s).
Definition setActiveHandle (v : option Handle) (s : State) : State :=
  mkState (mode s) (prompt s) (currentImage s) (batchQueue s) (results s)
    (history s) (error s) (isComparing s) (comparePosition s) (brushSize s)
    (isDrawing s) (cropData s) (cropRatio s) (cropPos s) (cropSize s) v
    (zoomScale s) (zoomTranslate s) (isPanning s) (cropHistory s)
    (cropHistoryIndex s).
Definition setZoomScale (v : Q) (s : State) : State :=
  mkState (mode s) (prompt s) (currentImage s) (batchQueue s) (results s)
    (history s) (error s) (isComparing s) (comparePosition s) (brushSize s)
    (isDrawing s) (cropData s) (cropRatio s) (cropPos s) (cropSize s)
    (activeHandle s) v (zoomTranslate s) (isPanning s) (cropHistory s)
    (cropHistoryIndex s).
Definition setZoomTranslate (v : Point.t Q) (s : State) : State :=
  mkState (mode s) (prompt s) (currentImage s) (batchQueue s) (results s)
    (history s) (error s) (isComparing s) (comparePosition s) (brushSize s)
    (isDrawing s) (cropData s) (cropRatio s) (cropPos s) (cropSize s)
    (activeHandle s) (zoomScale s) v (isPanning s) (cropHistory s)
    (cropHistoryIndex s).
Definition setIsPanning (v : bool) (s : State) : State :=
  mkState (mode s) (prompt s) (currentImage s) (batchQueue s) (results s)
    (history s) (error s) (isComparing s) (comparePosition s) (brushSize s)
    (isDrawing s) (cropData s) (cropRatio s) (cropPos s) (cropSize s)
    (activeHandle s) (zoomScale s) (zoomTranslate s) v (cropHistory s)
    (cropHistoryIndex s).
Definition setCropHistory (v : list CropState.t) (s : State) : State :=
  mkState (mode s) (prompt s) (currentImage s) (batchQueue s) (results s)
    (history s) (error s) (isComparing s) (comparePosition s) (brushSize s)
    (isDrawing s) (cropData s) (cropRatio s) (cropPos s) (cropSize s)
    (activeHandle s) (zoomScale s) (zoomTranslate s) (isPanning s) v
    (cropHistoryIndex s).
Definition setCropHistoryIndex (v : Z) (s : State) : State :=
  mkState (mode s) (prompt s) (currentImage s) (batchQueue s) (results s)
    (history s) (error s) (isComparing s) (comparePosition s) (brushSize s)
    (isDrawing s) (cropData s) (cropRatio s) (cropPos s) (cropSize s)
    (activeHandle s) (zoomScale s) (zoomTranslate s) (isPanning s)
    (cropHistory s) v.

(** The initial values of the [useState] cells. *)
Definition initialState : State := {|
  mode := IDLE;
  prompt := "";
  currentImage := ImageState.mk None None None "1K" false None;
  batchQueue := [];
  results := [];
  history := [];
  error := None;
  isComparing := false;
  comparePosition := 50%Q;
  brushSize := 40%Z;
  isDrawing := false;
  cropData := None;
  cropRatio := R1_1;
  cropPos := Point.mk 50%Q 50%Q;
  cropSize := Size.mk 40%Q 40%Q;
  activeHandle := None;
  zoomScale := 1%Q;
  zoomTranslate := Point.mk 0%Q 0%Q;
  isPanning := false;
  cropHistory := [];
  cropHistoryIndex := (-1)%Z
|}.

(* ================================================================== *)
(** * Environment, asynchronous calls and handler programs             *)
(* ================================================================== *)

(** What the hidden canvas of the crop modal is asked to encode: the image
    drawn and the source rectangle, which is also the canvas size. *)
Module CanvasDraw.
Record t := mk { src : string; rect : PixelRect.t Q }.
End CanvasDraw.

Record Env := mkEnv {
  random_id : string;                     (* Math.random().toString(36).substr(2, 9) *)
  now : Z;                                (* Date.now() *)
  aistudio : bool;                        (* window.aistudio is defined *)
  toDataURL : CanvasDraw.t -> string      (* canvas.toDataURL('image/png') *)
}.

(** The calls whose completion the component waits for. *)
Inductive Request :=
  | generateImage (prompt : string)
  | editImage (base64Image prompt : string)
  | editWithMask (base64Image base64Mask prompt : string)
  | upscaleFree (base64Image : string)
  | upscaleTo4K (base64Image : string)
  | hasSelectedApiKey
  | openSelectKey
  | loadImage (src : string)              (* img.src = ...; img.onload *)
  | readAsDataURL (file : string).        (* FileReader, reader.onloadend *)

(** The calls to the external image service ([GeminiService]). *)
Definition isServiceCall (r : Request) : bool :=
  match r with
  | generateImage _ | editImage _ _ | editWithMask _ _ _
  | upscaleFree _ | upscaleTo4K _ => true
  | _ => false
  end.

(** The value caught by [catch (err: any)]; [err.message] may be undefined. *)
Record JsError := mkError { message : option string }.

Inductive Response :=
  | Fulfilled (value : string)
  | FulfilledBool (value : bool)
  | FulfilledVoid
  | Loaded (naturalWidth naturalHeight : Q)
  | Rejected (err : JsError).

(** The responses a call can be answered with.  An image that fails to load
    never calls [onload]. *)
Definition answers (r : Request) (a : Response) : bool :=
  match r, a with
  | (generateImage _ | editImage _ _ | editWithMask _ _ _
     | upscaleFree _ | upscaleTo4K _), (Fulfilled _ | Rejected _) => true
  | hasSelectedApiKey, (FulfilledBool _ | Rejected _) => true
  | openSelectKey, (FulfilledVoid | Rejected _) => true
  | loadImage _, Loaded _ _ => true
  | readAsDataURL _, Fulfilled _ => true
  | _, _ => false
  end.

(** A handler run: state updates in program order, and calls registered
    with the code that runs when they complete.  [Call r k rest] registers
    [k] and goes on with [rest]; an [await] is a call with nothing after it. *)
Inductive Proc :=
  | Ret
  | Upd (f : State -> State) (k : Proc)
  | Call (r : Request) (k : Env -> Response -> Proc) (rest : Proc).

Definition Await (r : Request) (k : Env -> Response -> Proc) : Proc :=
  Call r k Ret.

(** [if (b) { ... }] in the middle of a sequence. *)
Definition when (b : bool) (body : Proc -> Proc) (k : Proc) : Proc :=
  if b then body k else k.

Declare Scope proc_scope.
Delimit Scope proc_scope with proc.
Bind Scope proc_scope with Proc.
Notation "f ;; k" := (Upd f k)
  (at level 100, k at level 200, right associativity) : proc_scope.
Local Open Scope proc_scope.

(* ================================================================== *)
(** * The handlers of [App]                                            *)
(* ================================================================== *)

(** Each handler takes the environment and the state [s] its closure
    captured; updates written [setX(prev => ...)] in the source read the
    state [c] current when they are applied. *)

(** [addResult] (lines 125-135) *)
Definition addResult (env : Env) (url base64 resolution upscaleType : string)
    (k : Proc) : Proc :=
  let newResult :=
    ResultItem.mk (random_id env) url base64 resolution upscaleType (now env) in
  (fun c => setResults (newResult :: results c) c) ;; k.

(** [addToHistory] (lines 332-334) *)
Definition addToHistory (env : Env) (url promptText : string) (k : Proc) : Proc :=
  (fun c => setHistory
     (take 20 (HistoryItem.mk (toString (now env)) url promptText (now env)
               :: history c)) c) ;; k.

(** [handleGenerate] (lines 137-152) *)
Definition handleGenerate (env : Env) (s : State) : Proc :=
  if blank (prompt s) then Ret else
  setMode GENERATING ;;
  setError None ;;
  setIsComparing false ;;
  Await (generateImage (prompt s)) (fun env a =>
    match a with
    | Fulfilled imageUrl =>
        setCurrentImage (ImageState.mk (Some imageUrl) (Some imageUrl) None
                           "1K" false None) ;;
        addToHistory env imageUrl (prompt s) (
        setMode IDLE ;; Ret)
    | Rejected err =>
        setError (Some (or_else (message err) "Failed to generate image")) ;;
        setMode ERROR ;;
        setMode IDLE ;; Ret
    | _ => Ret
    end).

(** [handleEdit] (lines 154-168) *)
Definition handleEdit (env : Env) (s : State) : Proc :=
  match ImageState.base64 (currentImage s) with
  | Some base64 =>
      if blank (prompt s) || (base64 =? "") then Ret else
      let previousUrl := ImageState.url (currentImage s) in
      setMode EDITING ;;
      Await (editImage base64 (prompt s)) (fun env a =>
        match a with
        | Fulfilled imageUrl =>
            setCurrentImage
              (ImageState.mk (Some imageUrl) (Some imageUrl) previousUrl "1K"
                 false (ImageState.upscaleType (currentImage s))) ;;
            addToHistory env imageUrl ("Edit: " +:+ prompt s) (
            setIsComparing true ;;
            setMode IDLE ;; Ret)
        | Rejected err =>
            setError (Some (or_else (message err) "Failed to edit")) ;;
            setMode IDLE ;; Ret
        | _ => Ret
        end)
  | None => Ret
  end.

Definition watermarkPrompt : string :=
  "SURGICAL WATERMARK REMOVAL: Detect and surgically erase all watermarks, digital signatures, and logos. 100% accurate reconstruction of the underlying texture and detail. The finish must be pixel-perfect and mathematically seamless with no blurring or distortion.".

(** [handleRemoveWatermark] (lines 170-187) *)
Definition handleRemoveWatermark (env : Env) (s : State) : Proc :=
  match ImageState.base64 (currentImage s) with
  | Some base64 =>
      if base64 =? "" then Ret else
      let previousUrl := ImageState.url (currentImage s) in
      setMode REMOVING_WATERMARK ;;
      setError None ;;
      Await (editImage base64 watermarkPrompt) (fun env a =>
        match a with
        | Fulfilled result =>
            setCurrentImage
              (ImageState.mk (Some result) (Some result) previousUrl
                 (ImageState.resolution (currentImage s))
                 (ImageState.isUpscaled (currentImage s))
                 (ImageState.upscaleType (currentImage s))) ;;
            addToHistory env result "Auto Watermark Removal" (
            setIsComparing true ;;
            setMode IDLE ;; Ret)
        | Rejected err =>
            setError (Some (or_else (message err) "Failed to remove watermark")) ;;
            setMode ERROR ;;
            setMode IDLE ;; Ret
        | _ => Ret
        end)
  | None => Ret
  end.

(** [magicCanvasRef.current]: the mask canvas is mounted exactly when the
    render shows it (lines 643, 668, 712). *)
Definition magicCanvasRef_current (s : State) : bool :=
  truthy (ImageState.url (currentImage s)) && bool_decide (mode s = MAGIC_HAND).

(** [startMagicHand] (lines 190-203); the pixels of the mask canvas are not
    part of the state. *)
Definition startMagicHand (env : Env) (s : State) : Proc :=
  if negb (truthy (ImageState.url (currentImage s))) then Ret else
  setMode MAGIC_HAND ;; Ret.

Definition magicHandPrompt : string :=
  "PRECISION ERASE: Using the provided white mask as a guide, surgically remove the watermark or object. Perform a 100% accurate reconstruction of the background pixels. Zero traces of the original mark should remain. The result must be seamless, high-definition, and consistent with the surrounding environment.".

(** [castMagicHand] (lines 242-262); [maskData] is what the mask canvas
    encodes to. *)
Definition castMagicHand (maskData : string) (env : Env) (s : State) : Proc :=
  match ImageState.base64 (currentImage s) with
  | Some base64 =>
      if (base64 =? "") || negb (magicCanvasRef_current s) then Ret else
      let previousUrl := ImageState.url (currentImage s) in
      setMode REMOVING_WATERMARK ;;
      Await (editWithMask base64 maskData magicHandPrompt) (fun env a =>
        match a with
        | Fulfilled result =>
            setCurrentImage
              (ImageState.mk (Some result) (Some result) previousUrl
                 (ImageState.resolution (currentImage s))
                 (ImageState.isUpscaled (currentImage s))
                 (ImageState.upscaleType (currentImage s))) ;;
            addToHistory env result "Magic Hand Removal" (
            setIsComparing true ;;
            setMode IDLE ;; Ret)
        | Rejected err =>
            setError (Some (or_else (message err) "Magic Hand failed")) ;;
            setMode ERROR ;; Ret
        | _ => Ret
        end)
  | None => Ret
  end.

(** [handleUpscale4K] (lines 264-286).  The key dialogue of [window.aistudio]
    comes first and its failure is only logged; in the [catch] block a
    rejected [openSelectKey] leaves the block before [setError], and the
    [finally] block still runs. *)
Definition upscale4K_call (base64 : string) (previousUrl : option string) : Proc :=
  setMode UPSCALING ;;
  setError None ;;
  Await (upscaleTo4K base64) (fun env a =>
    match a with
    | Fulfilled result =>
        setCurrentImage (ImageState.mk (Some result) (Some result) previousUrl
                           "4K" true (Some Pro_4K)) ;;
        addResult env result result "4K" "Pro 4K" (
        addToHistory env result "Pro 4K Enhancement" (
        setIsComparing true ;;
        setMode IDLE ;; Ret))
    | Rejected err =>
        let record :=
          setError (Some (or_else (message err) "Failed to upscale to 4K")) ;;
          setMode ERROR ;;
          setMode IDLE ;; Ret in
        if match message err with
           | Some m => includes "Requested entity was not found" m
           | None => false
           end && aistudio env
        then Await openSelectKey (fun env a' =>
               match a' with
               | FulfilledVoid => record
               | Rejected _ => setMode IDLE ;; Ret
               | _ => Ret
               end)
        else record
    | _ => Ret
    end).

Definition handleUpscale4K (env : Env) (s : State) : Proc :=
  match ImageState.base64 (currentImage s) with
  | Some base64 =>
      if base64 =? "" then Ret else
      let previousUrl := ImageState.url (currentImage s) in
      let call := upscale4K_call base64 previousUrl in
      if aistudio env then
        Await hasSelectedApiKey (fun env a =>
          match a with
          | FulfilledBool true => call
          | FulfilledBool false => Await openSelectKey (fun _ _ => call)
          | Rejected _ => call
          | _ => Ret
          end)
      else call
  | None => Ret
  end.

(** The assignments to [updatedQueue[i]] in [handleBatchUpscale]. *)
Definition markProcessing (item : BatchImage.t) : BatchImage.t :=
  BatchImage.mk (BatchImage.id item) (BatchImage.url item)
    (BatchImage.base64 item) st_processing (BatchImage.resolution item)
    (BatchImage.upscaleType item) (BatchImage.error item)
    (BatchImage.isCropping item).

Definition markDone (result : string) (item : BatchImage.t) : BatchImage.t :=
  BatchImage.mk (BatchImage.id item) result result st_done "Enhanced HD"
    (Some Free) (BatchImage.error item) (BatchImage.isCropping item).

Definition markError (err : JsError) (item : BatchImage.t) : BatchImage.t :=
  BatchImage.mk (BatchImage.id item) (BatchImage.url item)
    (BatchImage.base64 item) st_error (BatchImage.resolution item)
    (BatchImage.upscaleType item) (message err) (BatchImage.isCropping item).

(** The [for] loop of [handleBatchUpscale] (lines 292-309), from index [i]
    with [remaining = updatedQueue.length - i] iterations left.  The array
    [updatedQueue] is local to the handler; every assignment to one of its
    elements is followed, before the handler next gives up control, by
    [setBatchQueue([...updatedQueue])], so the queue in the state and the
    local array agree whenever another handler can observe them.

    The elements of the array are the objects of the queue it was copied
    from, and the source assigns to them in place.  No other handler
    assigns to an item (they build new objects), so the values threaded
    here are those of the source as long as one run of the loop works on
    these objects.  Once a second run has been started on the same queue
    while the first is still waiting, each run would see the other's
    assignments, which this definition does not show: the properties below
    that follow a run to its end take a run that is alone, and the run with
    two loops is followed only up to the call of the second loop. *)
Fixpoint batchLoop (remaining i : nat) (updatedQueue : list BatchImage.t) : Proc :=
  match remaining with
  | O => setMode IDLE ;; Ret
  | S remaining' =>
      match updatedQueue !! i with
      | None => setMode IDLE ;; Ret
      | Some item =>
          if bool_decide (BatchImage.status item = st_done)
          then batchLoop remaining' (S i) updatedQueue
          else
            let q1 := <[i := markProcessing item]> updatedQueue in
            setBatchQueue q1 ;;
            Await (upscaleFree (BatchImage.base64 item)) (fun env a =>
              match a with
              | Fulfilled result =>
                  let q2 := <[i := markDone result (markProcessing item)]> q1 in
                  addResult env result result "Enhanced HD" "Free Batch" (
                  setBatchQueue q2 ;;
                  batchLoop remaining' (S i) q2)
              | Rejected err =>
                  let q2 := <[i := markError err (markProcessing item)]> q1 in
                  setBatchQueue q2 ;;
                  batchLoop remaining' (S i) q2
              | _ => Ret
              end)
      end
  end.

(** [handleBatchUpscale] (lines 288-311) *)
Definition handleBatchUpscale (env : Env) (s : State) : Proc :=
  match batchQueue s with
  | [] => Ret
  | updatedQueue =>
      setMode BATCH_PROCESSING ;;
      batchLoop (length updatedQueue) 0 updatedQueue
  end.

(** [handleFileUpload] (lines 313-326): one reader per file; every
    [onloadend] tests the [currentImage] of the render in which the files
    were chosen. *)
Fixpoint handleFileUpload (files : list string) (env : Env) (s : State) : Proc :=
  match files with
  | [] => Ret
  | file :: files' =>
      Call (readAsDataURL file) (fun env a =>
        match a with
        | Fulfilled base64 =>
            let newBatchItem :=
              BatchImage.mk (random_id env) base64 base64 st_idle "Original"
                None None None in
            (fun c => setBatchQueue (batchQueue c ++ [newBatchItem])%list c) ;;
            when (negb (truthy (ImageState.url (currentImage s))))
              (Upd (setCurrentImage
                      (ImageState.mk (Some base64) (Some base64) None
                         "Original" false None)))
              Ret
        | _ => Ret
        end)
        (handleFileUpload files' env s)
  end.

(** [removeFromBatch] (lines 328-330) *)
Definition removeFromBatch (id : string) (env : Env) (s : State) : Proc :=
  (fun c => setBatchQueue
     (List.filter (fun item => negb (BatchImage.id item =? id)) (batchQueue c)) c) ;;
  Ret.

(** [removeResult] (lines 522-524) *)
Definition removeResult (id : string) (env : Env) (s : State) : Proc :=
  (fun c => setResults
     (List.filter (fun r => negb (ResultItem.id r =? id)) (results c)) c) ;;
  Ret.

(** [handleComparisonMove] (lines 337-343); the slider is mounted in the
    comparison view only (line 668). *)
Definition sliderRef_current (s : State) : bool :=
  truthy (ImageState.url (currentImage s)) && isComparing s
  && truthy (ImageState.beforeUrl (currentImage s))
  && bool_decide (mode s = IDLE).

Definition handleComparisonMove (clientX rectLeft rectWidth : Q)
    (env : Env) (s : State) : Proc :=
  if negb (sliderRef_current s) then Ret else
  setComparePosition (comparisonPosition clientX rectLeft rectWidth) ;; Ret.

(** ** Zoom viewer *)

(** [startZoom] (lines 346-351) *)
Definition startZoom (env : Env) (s : State) : Proc :=
  if negb (truthy (ImageState.url (currentImage s))) then Ret else
  setZoomScale 1%Q ;;
  setZoomTranslate (Point.mk 0%Q 0%Q) ;;
  setMode ZOOMING ;; Ret.

(** [handleZoomWheel] (lines 353-357) *)
Definition handleZoomWheel (deltaY : Q) (env : Env) (s : State) : Proc :=
  (fun c => setZoomScale (zoomWheel deltaY (zoomScale c)) c) ;; Ret.

(** The buttons "-", "Reset" and "+" (lines 831-833) *)
Definition zoomOutClick (env : Env) (s : State) : Proc :=
  (fun c => setZoomScale (zoomOutStep (zoomScale c)) c) ;; Ret.

Definition zoomResetClick (env : Env) (s : State) : Proc :=
  setZoomScale 1%Q ;; Ret.

Definition zoomInClick (env : Env) (s : State) : Proc :=
  (fun c => setZoomScale (zoomInStep (zoomScale c)) c) ;; Ret.

(** [handleZoomMouseDown] (lines 359-363) *)
Definition handleZoomMouseDown (env : Env) (s : State) : Proc :=
  if nltb 1%Q (zoomScale s) then setIsPanning true ;; Ret else Ret.

(** [handleZoomMouseMove] (lines 365-372) *)
Definition handleZoomMouseMove (movementX movementY : Q)
    (env : Env) (s : State) : Proc :=
  if isPanning s then
    (fun c => setZoomTranslate
       (Point.mk (Point.x (zoomTranslate c) + movementX)%Q
                 (Point.y (zoomTranslate c) + movementY)%Q) c) ;; Ret
  else Ret.

(** [handleZoomMouseUp] (lines 374-376) *)
Definition handleZoomMouseUp (env : Env) (s : State) : Proc :=
  setIsPanning false ;; Ret.

(** ** Crop engine *)

(** [arr.slice(0, end)] *)
Definition slice0 {A} (l : list A) (end_ : Z) : list A :=
  if (end_ <? 0)%Z
  then take (Z.to_nat (Z.max 0 (Z.of_nat (length l) + end_))) l
  else take (Z.to_nat end_) l.

(** [arr[i]] for a number [i]: [undefined] outside of the array. *)
Definition at_index {A} (l : list A) (i : Z) : option A :=
  if (i <? 0)%Z then None else l !! Z.to_nat i.

(** [pushCropHistory] (lines 379-385) *)
Definition pushCropHistory (pos : Point.t Q) (size : Size.t Q)
    (ratio : CropRatio) (s : State) (k : Proc) : Proc :=
  let newState := CropState.mk pos size ratio in
  let newHistory :=
    (slice0 (cropHistory s) (cropHistoryIndex s + 1) ++ [newState])%list in
  setCropHistory newHistory ;;
  setCropHistoryIndex (Z.of_nat (length newHistory) - 1)%Z ;;
  k.

(** [undoCrop] (lines 387-395).  Reading [prev.pos] of an entry that does
    not exist throws before any setter is called. *)
Definition undoCrop (env : Env) (s : State) : Proc :=
  if (0 <? cropHistoryIndex s)%Z then
    match at_index (cropHistory s) (cropHistoryIndex s - 1) with
    | Some prev =>
        setCropPos (CropState.pos prev) ;;
        setCropSize (CropState.size prev) ;;
        setCropRatio (CropState.ratio prev) ;;
        setCropHistoryIndex (cropHistoryIndex s - 1)%Z ;; Ret
    | None => Ret
    end
  else Ret.

(** [redoCrop] (lines 397-405) *)
Definition redoCrop (env : Env) (s : State) : Proc :=
  if (cropHistoryIndex s <? Z.of_nat (length (cropHistory s)) - 1)%Z then
    match at_index (cropHistory s) (cropHistoryIndex s + 1) with
    | Some next =>
        setCropPos (CropState.pos next) ;;
        setCropSize (CropState.size next) ;;
        setCropRatio (CropState.ratio next) ;;
        setCropHistoryIndex (cropHistoryIndex s + 1)%Z ;; Ret
    | None => Ret
    end
  else Ret.

(** [startCrop] (lines 407-418); [item] is the current image (no [id]) or
    an entry of the result library. *)
Definition startCrop (item_id item_base64 : option string)
    (env : Env) (s : State) : Proc :=
  match item_base64 with
  | Some base64 =>
      if base64 =? "" then Ret else
      let initialPos := Point.mk 50%Q 50%Q in
      let initialSize := Size.mk 40%Q 40%Q in
      setCropData (Some (CropData.mk (or_else item_id "current") base64)) ;;
      setMode CROPPING ;;
      setCropRatio R1_1 ;;
      setCropPos initialPos ;;
      setCropSize initialSize ;;
      setCropHistory [CropState.mk initialPos initialSize R1_1] ;;
      setCropHistoryIndex 0%Z ;; Ret
  | None => Ret
  end.

(** [updateCropBox] (lines 420-431) *)
Definition updateCropBox (ratio : CropRatio) (env : Env) (s : State) : Proc :=
  let newSize :=
    match ratio with
    | R1_1 => Size.mk 40%Q 40%Q
    | R16_9 => Size.mk 60%Q 33.75%Q
    | R9_16 => Size.mk 25%Q 44.44%Q
    | RFree => cropSize s
    end in
  setCropRatio ratio ;;
  setCropSize newSize ;;
  setCropPos (Point.mk 50%Q 50%Q) ;;
  pushCropHistory (Point.mk 50%Q 50%Q) newSize ratio s Ret.

(** The hidden canvas and the crop container are mounted with the crop
    modal (lines 872, 902, 956). *)
Definition canvasRef_current (s : State) : bool := bool_decide (mode s = CROPPING).
Definition cropContainerRef_current (s : State) : bool :=
  bool_decide (mode s = CROPPING).

(** The object literals of [executeCrop]. *)
Definition cropCurrent (croppedBase64 : string) (previousUrl : option string)
    (prev : ImageState.t) : ImageState.t :=
  ImageState.mk (Some croppedBase64) (Some croppedBase64) previousUrl "Cropped"
    (ImageState.isUpscaled prev) (ImageState.upscaleType prev).

Definition cropBatchItem (croppedBase64 : string) (item : BatchImage.t)
    : BatchImage.t :=
  BatchImage.mk (BatchImage.id item) croppedBase64 croppedBase64
    (BatchImage.status item) "Cropped" (BatchImage.upscaleType item)
    (BatchImage.error item) (BatchImage.isCropping item).

(** [executeCrop] (lines 433-464): the image is decoded first; [onload]
    computes the pixel rectangle, draws and encodes it, and stores the
    result. *)
Definition executeCrop (env : Env) (s : State) : Proc :=
  match cropData s with
  | Some cd =>
      if negb (canvasRef_current s) then Ret else
      Await (loadImage (CropData.base64 cd)) (fun env a =>
        match a with
        | Loaded realW realH =>
            let rect := mapPercentToPixelRect (cropPos s) (cropSize s) realW realH in
            let croppedBase64 :=
              toDataURL env (CanvasDraw.mk (CropData.base64 cd) rect) in
            let previousUrl := ImageState.url (currentImage s) in
            let finish := setMode IDLE ;; setCropData None ;; Ret in
            if CropData.id cd =? "current" then
              (fun c => setCurrentImage
                 (cropCurrent croppedBase64 previousUrl (currentImage c)) c) ;;
              finish
            else
              when (existsb (fun r => ResultItem.id r =? CropData.id cd) (results s))
                (addResult env croppedBase64 croppedBase64 "Cropped" "Manual Edit") (
              (fun c => setBatchQueue
                 (map (fun item =>
                         if BatchImage.id item =? CropData.id cd
                         then cropBatchItem croppedBase64 item else item)
                      (batchQueue c)) c) ;;
              finish)
        | _ => Ret
        end)
  | None => Ret
  end.

(** [handleCropMouseMove] (lines 466-513); [mouseX] and [mouseY] are the
    pointer position in percent of the crop container. *)
Definition handleCropMouseMove (mouseX mouseY : Q) (env : Env) (s : State) : Proc :=
  if negb (cropContainerRef_current s) then Ret else
  match activeHandle s with
  | Some center =>
      setCropPos (moveCropBox (cropSize s) mouseX mouseY) ;; Ret
  | Some handle =>
      let '(newSize, newPos) :=
        resizeCropBox handle (cropRatio s) (cropPos s) (cropSize s) mouseX mouseY in
      setCropSize newSize ;;
      setCropPos newPos ;; Ret
  | None => Ret
  end.

(** [handleHandleUp] (lines 515-520).  No element of the render refers to
    it. *)
Definition handleHandleUp (env : Env) (s : State) : Proc :=
  match activeHandle s with
  | Some _ =>
      pushCropHistory (cropPos s) (cropSize s) (cropRatio s) s (
      setActiveHandle None ;; Ret)
  | None => Ret
  end.

(* ================================================================== *)
(** * The render: which control runs which handler, and when          *)
(* ================================================================== *)

(** The user's actions on the controls of the render (lines 537-1019).
    Actions on the copyboard, the history drawer flags, the downloads and
    the strokes painted on the mask canvas change none of the cells of
    [State] otherwise than [transferImage] and [changePrompt] do. *)
Inductive UIEvent :=
  | changePrompt (text : string)                 (* textarea onChange, and copyboard "Transfer" of a text *)
  | clickGenerate
  | chooseFiles (files : list string)
  | clickClearQueue
  | clickQueueItem (i : nat)
  | clickRemoveFromBatch (i : nat)
  | clickBatchUpscale
  | clickMagicHand
  | clickRemoveWatermark
  | changeBrushSize (value : Z)
  | maskPointerDown
  | maskPointerUp
  | clickMagicCancel
  | clickMagicExecute (maskData : string)
  | clickCompare
  | comparisonMove (clientX rectLeft rectWidth : Q)
  | clickZoom                                    (* "Zoom Viewer" and the image itself *)
  | clickAdvancedCrop
  | clickUpscale4K
  | clickEdit
  | clickClearResults
  | clickViewResult (i : nat)
  | clickRemoveResult (i : nat)
  | clickCropResult (i : nat)
  | zoomWheelEvent (deltaY : Q)
  | clickZoomOut
  | clickZoomReset
  | clickZoomIn
  | clickZoomClose
  | zoomMouseDown
  | zoomMouseMove (movementX movementY : Q)
  | mouseUp                                      (* the root element and the zoom viewport *)
  | clickUndo
  | clickRedo
  | cropMouseMove (mouseX mouseY : Q)
  | handleDown (which : Handle)
  | clickRatio (ratio : CropRatio)
  | clickFinalizeCrop
  | clickDiscardCrop
  | clickHistoryItem (i : nat)
  | clickClearHistory
  | transferImage (content : string)             (* copyboard "Transfer" of an image *)
  | dismissError.

(** The crop modal and the zoom viewer are fixed layers over the whole
    window (lines 819-821, 872-873): while one is shown the controls of the
    page below cannot be clicked. *)
Definition cropModal (s : State) : bool := bool_decide (mode s = CROPPING).
Definition zoomModal (s : State) : bool :=
  bool_decide (mode s = ZOOMING) && truthy (ImageState.url (currentImage s)).
Definition page (s : State) : bool := negb (cropModal s) && negb (zoomModal s).

Definition hasImage (s : State) : bool := truthy (ImageState.url (currentImage s)).
Definition isIdle (s : State) : bool := bool_decide (mode s = IDLE).

(** Whether the control of an action is rendered, enabled and reachable.
    A [Button] with a true [disabled] attribute does not call [onClick]. *)
Definition enabled (s : State) (e : UIEvent) : bool :=
  match e with
  | changePrompt _ => page s
  | clickGenerate => page s && negb (blank (prompt s)) && isIdle s
  | chooseFiles _ => page s
  | clickClearQueue =>
      page s && negb (bool_decide (length (batchQueue s) = 0%nat))
  | clickQueueItem i | clickRemoveFromBatch i =>
      page s && bool_decide (i < length (batchQueue s))%nat
  | clickBatchUpscale =>
      page s && negb (bool_decide (length (batchQueue s) = 0%nat)) && isIdle s
      && negb (forallb (fun i => bool_decide (BatchImage.status i = st_done))
                 (batchQueue s))
  | clickMagicHand | clickRemoveWatermark => page s && isIdle s && hasImage s
  | changeBrushSize _ | clickMagicCancel | clickMagicExecute _ =>
      bool_decide (mode s = MAGIC_HAND)
  | maskPointerDown | maskPointerUp => magicCanvasRef_current s
  | clickCompare =>
      hasImage s && truthy (ImageState.beforeUrl (currentImage s)) && isIdle s
  | comparisonMove _ _ _ => sliderRef_current s
  | clickZoom | clickAdvancedCrop => hasImage s && isIdle s
  | clickUpscale4K =>
      hasImage s && isIdle s
      && negb (ImageState.resolution (currentImage s) =? "4K")
  | clickEdit => hasImage s && isIdle s && negb (blank (prompt s))
  | clickClearResults =>
      page s && negb (bool_decide (length (results s) = 0%nat))
  | clickViewResult i | clickRemoveResult i | clickCropResult i =>
      page s && bool_decide (i < length (results s))%nat
  | zoomWheelEvent _ | clickZoomOut | clickZoomReset | clickZoomIn
  | clickZoomClose | zoomMouseDown | zoomMouseMove _ _ => zoomModal s
  | mouseUp => true
  | clickUndo => cropModal s && negb (cropHistoryIndex s <=? 0)%Z
  | clickRedo =>
      cropModal s
      && negb (Z.of_nat (length (cropHistory s)) - 1 <=? cropHistoryIndex s)%Z
  | cropMouseMove _ _ | handleDown _ | clickRatio _ | clickFinalizeCrop
  | clickDiscardCrop => cropModal s
  | clickHistoryItem i => page s && bool_decide (i < length (history s))%nat
  | clickClearHistory =>
      page s && negb (bool_decide (length (history s) = 0%nat))
  | transferImage _ => page s
  | dismissError => truthy (error s) && negb (zoomModal s)
  end.

(** The object literals of the inline [onClick] handlers that show an item
    in the workspace (lines 572, 798, 982, 1001). *)
Definition showBatchItem (item : BatchImage.t) : ImageState.t :=
  ImageState.mk (Some (BatchImage.url item)) (Some (BatchImage.base64 item))
    None (BatchImage.resolution item)
    (bool_decide (BatchImage.status item = st_done)) None.

Definition showResult (res : ResultItem.t) : ImageState.t :=
  ImageState.mk (Some (ResultItem.url res)) (Some (ResultItem.base64 res))
    None (ResultItem.resolution res) true None.

Definition showHistoryItem (item : HistoryItem.t) : ImageState.t :=
  ImageState.mk (Some (HistoryItem.url item)) (Some (HistoryItem.url item))
    None "1K" false None.

Definition showBoardItem (content : string) : ImageState.t :=
  ImageState.mk (Some content) (Some content) None "Board" false None.

(** The handler each control is bound to. *)
Definition handle (e : UIEvent) (env : Env) (s : State) : Proc :=
  match e with
  | changePrompt text => setPrompt text ;; Ret
  | clickGenerate => handleGenerate env s
  | chooseFiles files => handleFileUpload files env s
  | clickClearQueue => setBatchQueue [] ;; Ret
  | clickQueueItem i =>
      match batchQueue s !! i with
      | Some item => setCurrentImage (showBatchItem item) ;; Ret
      | None => Ret
      end
  | clickRemoveFromBatch i =>
      match batchQueue s !! i with
      | Some item => removeFromBatch (BatchImage.id item) env s
      | None => Ret
      end
  | clickBatchUpscale => handleBatchUpscale env s
  | clickMagicHand => startMagicHand env s
  | clickRemoveWatermark => handleRemoveWatermark env s
  | changeBrushSize value => setBrushSize value ;; Ret
  | maskPointerDown => setIsDrawing true ;; Ret
  | maskPointerUp => setIsDrawing false ;; Ret
  | clickMagicCancel => setMode IDLE ;; Ret
  | clickMagicExecute maskData => castMagicHand maskData env s
  | clickCompare => setIsComparing (negb (isComparing s)) ;; Ret
  | comparisonMove clientX rectLeft rectWidth =>
      handleComparisonMove clientX rectLeft rectWidth env s
  | clickZoom => startZoom env s
  | clickAdvancedCrop =>
      startCrop None (ImageState.base64 (currentImage s)) env s
  | clickUpscale4K => handleUpscale4K env s
  | clickEdit => handleEdit env s
  | clickClearResults => setResults [] ;; Ret
  | clickViewResult i =>
      match results s !! i with
      | Some res =>
          setCurrentImage (showResult res) ;; setIsComparing false ;; Ret
      | None => Ret
      end
  | clickRemoveResult i =>
      match results s !! i with
      | Some res => removeResult (ResultItem.id res) env s
      | None => Ret
      end
  | clickCropResult i =>
      match results s !! i with
      | Some res =>
          startCrop (Some (ResultItem.id res)) (Some (ResultItem.base64 res)) env s
      | None => Ret
      end
  | zoomWheelEvent deltaY => handleZoomWheel deltaY env s
  | clickZoomOut => zoomOutClick env s
  | clickZoomReset => zoomResetClick env s
  | clickZoomIn => zoomInClick env s
  | clickZoomClose => setMode IDLE ;; Ret
  | zoomMouseDown => handleZoomMouseDown env s
  | zoomMouseMove movementX movementY =>
      handleZoomMouseMove movementX movementY env s
  | mouseUp => handleZoomMouseUp env s
  | clickUndo => undoCrop env s
  | clickRedo => redoCrop env s
  | cropMouseMove mouseX mouseY => handleCropMouseMove mouseX mouseY env s
  | handleDown which => setActiveHandle (Some which) ;; Ret
  | clickRatio ratio => updateCropBox ratio env s
  | clickFinalizeCrop => executeCrop env s
  | clickDiscardCrop => setMode IDLE ;; Ret
  | clickHistoryItem i =>
      match history s !! i with
      | Some item =>
          setCurrentImage (showHistoryItem item) ;; setIsComparing false ;; Ret
      | None => Ret
      end
  | clickClearHistory => setHistory [] ;; Ret
  | transferImage content =>
      setCurrentImage (showBoardItem content) ;; setIsComparing false ;; Ret
  | dismissError => setError None ;; Ret
  end.

(* ================================================================== *)
(** * The event loop                                                   *)
(* ================================================================== *)

(** A call in flight and the code waiting for it. *)
Definition Pending : Type := Request * (Env -> Response -> Proc).

Record Config := mkConfig {
  st : State;
  pending : list Pending
}.

(** Run a handler to its end: apply the updates in order and register the
    calls. *)
Fixpoint exec (p : Proc) (c : Config) : Config :=
  match p with
  | Ret => c
  | Upd f k => exec k (mkConfig (f (st c)) (pending c))
  | Call r k rest => exec rest (mkConfig (st c) (pending c ++ [(r, k)]))
  end.

Inductive Event :=
  | UI (e : UIEvent) (env : Env)                 (* the user acts on a control *)
  | Settle (n : nat) (a : Response) (env : Env). (* the [n]-th call in flight completes *)

(** One turn of the event loop; [None] when the event cannot happen. *)
Definition step (ev : Event) (c : Config) : option Config :=
  match ev with
  | UI e env =>
      if enabled (st c) e then Some (exec (handle e env (st c)) c) else None
  | Settle n a env =>
      match pending c !! n with
      | Some (r, k) =>
          if answers r a
          then Some (exec (k env a) (mkConfig (st c) (delete n (pending c))))
          else None
      | None => None
      end
  end.

Fixpoint steps (evs : list Event) (c : Config) : option Config :=
  match evs with
  | [] => Some c
  | ev :: evs' =>
      match step ev c with
      | Some c' => steps evs' c'
      | None => None
      end
  end.

Definition initialConfig : Config := mkConfig initialState [].

Definition reachable (c : Config) : Prop :=
  exists evs, steps evs initialConfig = Some c.

(** The activities of the mode coordinator. *)
Definition cropActive (c : Config) : bool := bool_decide (mode (st c) = CROPPING).
Definition zoomActive (c : Config) : bool := bool_decide (mode (st c) = ZOOMING).
Definition maskActive (c : Config) : bool := bool_decide (mode (st c) = MAGIC_HAND).
Definition callPending (c : Config) : bool :=
  existsb (fun p => isServiceCall (fst p)) (pending c).

Definition activities (c : Config) : nat :=
  (Nat.b2n (cropActive c) + Nat.b2n (zoomActive c) + Nat.b2n (maskActive c)
   + Nat.b2n (callPending c))%nat.

(** Run a handler alone on a state and answer its calls one after the
    other from a list of responses: the state when the handler has finished
    (or still waits, the answers being used up) and the calls it made, in
    order. *)
Fixpoint settleAll (answers_ : list (Response * Env)) (c : Config)
    (log : list Request) : Config * list Request :=
  match answers_ with
  | [] => (c, log)
  | (a, env) :: answers' =>
      match pending c with
      | (r, k) :: rest =>
          settleAll answers' (exec (k env a) (mkConfig (st c) rest))
            (log ++ [r])%list
      | [] => (c, log)
      end
  end.

Definition runAlone (p : Proc) (answers_ : list (Response * Env)) (s : State)
    : Config * list Request :=
  settleAll answers_ (exec p (mkConfig s [])) [].

(** The state after a handler that makes no call has run in the state [s]
    it captured. *)
Definition after (h : State -> Proc) (s : State) : State :=
  st (exec (h s) (mkConfig s [])).

(** [pushCropHistory], [undoCrop] and [redoCrop] as state transformers. *)
Definition push (pos : Point.t Q) (size : Size.t Q) (ratio : CropRatio)
    : State -> State :=
  after (fun s => pushCropHistory pos size ratio s Ret).

Definition undo (env : Env) : State -> State := after (undoCrop env).
Definition redo (env : Env) : State -> State := after (redoCrop env).

(** The snapshot the live crop region amounts to. *)
Definition liveRegion (s : State) : CropState.t :=
  CropState.mk (cropPos s) (cropSize s) (cropRatio s).

(** The encoded crop that [executeCrop] stores when the image has loaded
    with natural size [realW] x [realH]. *)
Definition cropArtifact (env : Env) (s : State) (cd : CropData.t)
    (realW realH : Q) : string :=
  toDataURL env
    (CanvasDraw.mk (CropData.base64 cd)
       (mapPercentToPixelRect (cropPos s) (cropSize s) realW realH)).

(** The queue after the entries named [id] have been replaced by the crop. *)
Definition cropInQueue (id artifact : string) (q : list BatchImage.t)
    : list BatchImage.t :=
  map (fun item =>
         if BatchImage.id item =? id then cropBatchItem artifact item else item)
      q.

(** The five operations that send the current image (or a prompt) to the
    external service. *)
Inductive ExternalOp :=
  | opGenerate
  | opEdit
  | opRemoveWatermark
  | opMagicHandErase (maskData : string)
  | opUpscale.

Definition runOp (op : ExternalOp) : Env -> State -> Proc :=
  match op with
  | opGenerate => handleGenerate
  | opEdit => handleEdit
  | opRemoveWatermark => handleRemoveWatermark
  | opMagicHandErase maskData => castMagicHand maskData
  | opUpscale => handleUpscale4K
  end.

(** An answer that is not an image: a rejection, or the outcome of the key
    dialogue. *)
Definition notAnImage (a : Response * Env) : Prop :=
  match fst a with
  | Fulfilled _ => False
  | _ => True
  end.

(** The statuses and the error messages along the queue, and the calls in
    flight. *)
Definition statuses (c : Config) : list BatchStatus :=
  map BatchImage.status (batchQueue (st c)).
Definition errors (c : Config) : list (option string) :=
  map BatchImage.error (batchQueue (st c)).
Definition inFlight (c : Config) : list Request := map fst (pending c).

(** The zoom inputs: wheel turns, the "-" and "+" buttons, "Reset", and
    opening the viewer. *)
Inductive ZoomInput :=
  | wheel (deltaY : Q)
  | zoomOut
  | zoomIn
  | zoomReset
  | zoomOpen.

Definition zoomEvent (i : ZoomInput) : UIEvent :=
  match i with
  | wheel deltaY => zoomWheelEvent deltaY
  | zoomOut => clickZoomOut
  | zoomIn => clickZoomIn
  | zoomReset => clickZoomReset
  | zoomOpen => clickZoom
  end.

(** The state after a sequence of zoom inputs, each run by its handler. *)
Definition zoomInputs (env : Env) (inputs : list ZoomInput) (s : State) : State :=
  fold_left (fun s i => after (handle (zoomEvent i) env) s) inputs s.

(* ================================================================== *)
(** * Properties of handler programs                                   *)
(* ================================================================== *)

(** [Always ok P p]: every update that [p] makes satisfies [P], now and in
    the code that waits for its calls, whenever the calls are answered
    within [ok]. *)
Inductive Always (ok : Request -> Response -> Prop)
    (P : (State -> State) -> Prop) : Proc -> Prop :=
  | Always_Ret : Always ok P Ret
  | Always_Upd f k : P f -> Always ok P k -> Always ok P (Upd f k)
  | Always_Call r k rest :
      (forall env a, ok r a -> Always ok P (k env a)) ->
      Always ok P rest ->
      Always ok P (Call r k rest).

(** The same of the code waiting in a configuration. *)
Definition AlwaysPending (ok : Request -> Response -> Prop)
    (P : (State -> State) -> Prop) (c : Config) : Prop :=
  Forall (fun pd : Pending =>
            forall env a, ok (fst pd) a -> Always ok P (snd pd env a))
         (pending c).

(** An update that leaves the current image alone. *)
Definition keepsImage (f : State -> State) : Prop :=
  forall c, currentImage (f c) = currentImage c.

(** An update that maintains a property of the state. *)
Definition preserves (I : State -> Prop) (f : State -> State) : Prop :=
  forall c, I c -> I (f c).

(** The call was not answered with an image. *)
Definition noImage (r : Request) (a : Response) : Prop :=
  forall v, a <> Fulfilled v.

(** The answers a call can get. *)
Definition wellAnswered (r : Request) (a : Response) : Prop :=
  answers r a = true.

(** The zoom scale is within its bounds. *)
Definition zoomInBounds (s : State) : Prop :=
  (0.5 <= zoomScale s /\ zoomScale s <= 10)%Q.

(** The coordinator is in [ERROR] and the result library is empty. *)
Definition stuckInError (s : State) : Prop :=
  mode s = ERROR /\ results s = [].

(** One step of a proof of [Always]: follow the structure of the handler. *)
Ltac always_step :=
  match goal with
  | |- Always _ _ Ret => constructor
  | |- Always _ _ (Upd _ _) => constructor
  | |- Always _ _ (Call _ _ _) => constructor; [intros ? ? ?|]
  | |- Always _ _ (Await _ _) => constructor; [intros ? ? ?|]
  | |- Always _ _ (addToHistory _ _ _ _) => constructor
  | |- Always _ _ (addResult _ _ _ _ _ _) => constructor
  | |- Always _ _ (pushCropHistory _ _ _ _ _) => unfold pushCropHistory
  | |- Always _ _ (when ?b _ _) => unfold when
  | |- Always _ _ (if ?b then _ else _) => destruct b
  | |- Always _ _ (match ?x with _ => _ end) => destruct x
  | |- Always _ _ (let _ := _ in _) => cbv zeta
  end.

(** Replace the right-hand side of an equation by its value. *)
Ltac compute_rhs H :=
  match type of H with
  | _ = ?r => let v := eval vm_compute in r in change r with v in H
  end.

(* ================================================================== *)
(** * Concrete states and runs                                         *)
(* ================================================================== *)

Definition env0 : Env :=
  mkEnv "k3x9q2ab7" 1700000000000 false (fun _ => "data:image/png;base64,CROP").

Definition serviceDown : JsError := mkError (Some "API key not valid").

(** A photo is loaded and the mask painter is open. *)
Definition painting : State :=
  setMode MAGIC_HAND
    (setCurrentImage
       (ImageState.mk (Some "data:image/png;base64,AAAA")
          (Some "data:image/png;base64,AAAA") None "Original" false None)
       initialState).

(** A photo is loaded and the crop modal is open on it. *)
Definition cropping : State :=
  after (startCrop None (Some "data:image/png;base64,AAAA") env0)
    (setCurrentImage
       (ImageState.mk (Some "data:image/png;base64,AAAA")
          (Some "data:image/png;base64,AAAA") None "Original" false None)
       initialState).

(** A photo is in the queue, an upscaled result is in the library, and the
    crop modal is open on that result. *)
Definition croppingResult : State :=
  after (startCrop (Some "res1") (Some "data:image/png;base64,BBBB") env0)
    (setResults
       [ResultItem.mk "res1" "data:image/png;base64,BBBB"
          "data:image/png;base64,BBBB" "4K" "Pro 4K" 1700000000000]
       (setBatchQueue
          [BatchImage.mk "img1" "data:image/png;base64,AAAA"
             "data:image/png;base64,AAAA" st_idle "Original" None None None]
          initialState)).

(** Three photos wait in the queue. *)
Definition queued (name : string) : BatchImage.t :=
  BatchImage.mk name name name st_idle "Original" None None None.

Definition threeQueued : State :=
  setBatchQueue [queued "a"; queued "b"; queued "c"] initialState.

(** A photo is uploaded, the crop modal is opened on it, the ratio is set
    to 16:9 and the top-left handle is dragged to (10%, 10%). *)
Definition dragAfterRatio : list Event :=
  [ UI (chooseFiles ["photo.png"]) env0;
    Settle 0 (Fulfilled "data:image/png;base64,AAAA") env0;
    UI clickAdvancedCrop env0;
    UI (clickRatio R16_9) env0;
    UI (handleDown tl) env0;
    UI (cropMouseMove 10%Q 10%Q) env0 ].

(** A photo is uploaded and the crop modal opened; the box is dragged by
    its centre to (50%, 30%), then the top-left handle is pressed. *)
Definition dragToCorner : list Event :=
  [ UI (chooseFiles ["photo.png"]) env0;
    Settle 0 (Fulfilled "data:image/png;base64,AAAA") env0;
    UI clickAdvancedCrop env0;
    UI (handleDown center) env0;
    UI (cropMouseMove 50%Q 30%Q) env0;
    UI (handleDown tl) env0 ].

(** A photo is uploaded and upscaled to 4K, which puts an entry in the
    result library; a prompt is typed and "Generate" is clicked. *)
Definition generateAfterUpscale : list Event :=
  [ UI (chooseFiles ["photo.png"]) env0;
    Settle 0 (Fulfilled "data:image/png;base64,AAAA") env0;
    UI clickUpscale4K env0;
    Settle 0 (Fulfilled "data:image/png;base64,BBBB") env0;
    UI (changePrompt "a banana") env0;
    UI clickGenerate env0 ].

(** A photo is uploaded and the mask painter is opened, "Execute Erase" is
    clicked and the service rejects the request. *)
Definition failedErase : list Event :=
  [ UI (chooseFiles ["photo.png"]) env0;
    Settle 0 (Fulfilled "data:image/png;base64,AAAA") env0;
    UI clickMagicHand env0;
    UI (clickMagicExecute "data:image/png;base64,MASK") env0;
    Settle 0 (Rejected serviceDown) env0 ].

(** A photo is uploaded and the zoom viewer opened; the user zooms in once,
    drags the image by (10, 10) and clicks "Reset". *)
Definition panThenReset : list Event :=
  [ UI (chooseFiles ["photo.png"]) env0;
    Settle 0 (Fulfilled "data:image/png;base64,AAAA") env0;
    UI clickZoom env0;
    UI clickZoomIn env0;
    UI zoomMouseDown env0;
    UI (zoomMouseMove 10%Q 10%Q) env0;
    UI mouseUp env0;
    UI clickZoomReset env0 ].

(* ================================================================== *)
(** * [GeminiService]: requests and the image of a response            *)
(* ================================================================== *)

Module GeminiService.

(** [s.split(sep)] for a separator of one character. *)
Fixpoint split (sep : ascii) (s : string) : list string :=
  match s with
  | EmptyString => [EmptyString]
  | String c s' =>
      if Ascii.eqb c sep then EmptyString :: split sep s'
      else match split sep s' with
           | piece :: pieces => String c piece :: pieces
           | [] => [String c EmptyString]
           end
  end.

(** [base64Image.split(',')[1] || base64Image] (lines 1111, 1135, 1141,
    1164, 1186) *)
Definition inlineDataOf (base64Image : string) : string :=
  or_else (split "," base64Image !! 1%nat) base64Image.

Record Blob := mkBlob { data : option string; mimeType : option string }.
Record Part := mkPart { text : option string; inlineData : option Blob }.
Record Content := mkContent { parts : option (list Part) }.
Record Candidate := mkCandidate { content : option Content }.
Record GenerateContentResponse := mkResponse {
  candidates : option (list Candidate)
}.

Record ImageConfig := mkImageConfig { aspectRatio : string; imageSize : string }.
Record GenerateContentParameters := mkParameters {
  model : string;
  contents : list Part;
  config : option ImageConfig
}.

Definition imagePart (base64Image : string) : Part :=
  mkPart None (Some (mkBlob (Some (inlineDataOf base64Image)) (Some "image/png"))).
Definition textPart (t : string) : Part := mkPart (Some t) None.

(** The argument of [ai.models.generateContent] in each method (lines
    1091-1203); the other requests are not calls of the service. *)
Definition parameters (r : Request) : option GenerateContentParameters :=
  match r with
  | generateImage prompt =>
      Some (mkParameters "gemini-2.5-flash-image" [textPart prompt] None)
  | editImage base64Image prompt =>
      Some (mkParameters "gemini-2.5-flash-image"
              [imagePart base64Image; textPart prompt] None)
  | editWithMask base64Image base64Mask prompt =>
      Some (mkParameters "gemini-2.5-flash-image"
              [imagePart base64Image; imagePart base64Mask; textPart prompt] None)
  | upscaleFree base64Image =>
      Some (mkParameters "gemini-2.5-flash-image"
              [imagePart base64Image;
               textPart "Smartly upscale and enhance this image. Sharpen details, reduce noise, and improve clarity while keeping the original composition perfectly intact. Make it look like a high-resolution professional photo."]
              None)
  | upscaleTo4K base64Image =>
      Some (mkParameters "gemini-3-pro-image-preview"
              [imagePart base64Image;
               textPart "Enhance this image to ultra-high definition details, maintaining the original composition and content perfectly, but at 4K resolution."]
              (Some (mkImageConfig "1:1" "4K")))
  | _ => None
  end.

(** What a method throws: an [Error] with a message, or the [TypeError] of
    reading a property of [undefined]. *)
Inductive Thrown := Error (message : string) | TypeError.

(** A value in a template literal. *)
Definition interpolate (v : option string) : string :=
  match v with Some s => s | None => "undefined" end.

(** [extractImageUrlFromResponse] (lines 1207-1221) *)
Definition extractImageUrlFromResponse (response : GenerateContentResponse)
    : string + Thrown :=
  match candidates response with
  | None | Some [] => inr (Error "No candidates found in response")
  | Some (candidate :: _) =>
      match content candidate with
      | None => inr TypeError
      | Some c =>
          match parts c with
          | None => inr TypeError
          | Some ps =>
              match List.find (fun part => bool_decide (is_Some (inlineData part))) ps with
              | Some part =>
                  inl ("data:image/png;base64,"
                         ++ interpolate (from_option data None (inlineData part)))
              | None => inr (Error "No image data found in response")
              end
          end
      end
  end.

End GeminiService.

(** The string holds no comma. *)
Fixpoint commaFree (s : string) : bool :=
  match s with
  | EmptyString => true
  | String c s' => negb (Ascii.eqb c ",") && commaFree s'
  end.

(** No part of the list carries an image. *)
Definition textOnly (ps : list GeminiService.Part) : Prop :=
  Forall (fun part => GeminiService.inlineData part = None) ps.

(** A response whose first candidate has the parts [ps]. *)
Definition firstCandidate (ps : list GeminiService.Part)
    (others : list GeminiService.Candidate)
    : GeminiService.GenerateContentResponse :=
  GeminiService.mkResponse
    (Some (GeminiService.mkCandidate
             (Some (GeminiService.mkContent (Some ps))) :: others)).

(* ================================================================== *)
(** * The loading message (lines 70-74, 100-117)                       *)
(* ================================================================== *)

Definition generatingMessages : list string :=
  ["Thinking..."; "Mixing colors..."; "Almost there..."; "Final touches..."].
Definition upscalingMessages : list string :=
  ["Enhancing textures..."; "Sharpening details..."; "Optimizing pixels..."].
Definition batchMessages : list string :=
  ["Batch magic in progress..."; "Upgrading your queue..."; "Processing all images..."].
Definition removingWatermarkMessages : list string :=
  ["Surgical detection..."; "Erasing watermarks..."; "100% accuracy healing...";
   "Polishing pixels..."].
Definition magicHandMessages : list string :=
  ["Analyzing mask precision..."; "Invoking magic hand...";
   "Deep pixel reconstruction..."; "Finalizing seamless finish..."].

(** The [messages] of the effect on [mode] (lines 102-105). *)
Definition messagesOf (m : AppMode) : list string :=
  match m with
  | BATCH_PROCESSING => batchMessages
  | UPSCALING => upscalingMessages
  | REMOVING_WATERMARK => removingWatermarkMessages
  | MAGIC_HAND => magicHandMessages
  | _ => generatingMessages
  end.

(** The condition under which the effect starts its interval (line 107). *)
Definition tickerRuns (m : AppMode) : bool :=
  negb (bool_decide (m = IDLE)) && negb (bool_decide (m = ERROR))
  && negb (bool_decide (m = CROPPING)) && negb (bool_decide (m = ZOOMING))
  && negb (bool_decide (m = MAGIC_HAND)).

(** [messages.indexOf(x)] *)
Fixpoint indexOf (x : string) (messages : list string) : Z :=
  match messages with
  | [] => -1
  | y :: messages' =>
      if String.eqb y x then 0
      else let i := indexOf x messages' in
           if (i <? 0)%Z then -1 else (i + 1)%Z
  end.

(** The updater of the interval (lines 110-113): [%] is the remainder, and
    [None] is [undefined]. *)
Definition nextMessage (messages : list string) (prev : string) : option string :=
  let idx := indexOf prev messages in
  messages !! Z.to_nat (Z.rem (idx + 1) (Z.of_nat (length messages))).

(** The message shown [k] ticks after the effect has set [messages[0]]. *)
Fixpoint messageAfter (k : nat) (messages : list string) : option string :=
  match k with
  | O => messages !! 0%nat
  | S k' => messageAfter k' messages ≫= nextMessage messages
  end.

(** No string occurs twice in the list. *)
Fixpoint distinct (l : list string) : bool :=
  match l with
  | [] => true
  | x :: l' => negb (existsb (String.eqb x) l') && distinct l'
  end.

(* ================================================================== *)
(** * Notions used by the properties of the handlers                   *)
(* ================================================================== *)

(** ** The crop box *)

Section CropBox.
Local Open Scope Q_scope.

(** The box lies within the crop container, in percent. *)
Definition insideCanvas (pos : Point.t Q) (size : Size.t Q) : Prop :=
  0 <= Point.x pos - Size.w size / 2 /\ Point.x pos + Size.w size / 2 <= 100
  /\ 0 <= Point.y pos - Size.h size / 2 /\ Point.y pos + Size.h size / 2 <= 100.

(** The translation after one mouse movement (lines 367-370). *)
Definition movedBy (p : Point.t Q) (m : Q * Q) : Point.t Q :=
  Point.mk (Point.x p + fst m) (Point.y p + snd m).

End CropBox.

(** The state after the mouse has moved over the zoom viewport, one
    [handleZoomMouseMove] for each movement. *)
Definition mouseMoves (env : Env) (moves : list (Q * Q)) (s : State) : State :=
  fold_left (fun s m => after (handle (zoomMouseMove (fst m) (snd m)) env) s)
    moves s.

(** The state after a drag in the zoom viewer: the button is pressed, then
    the mouse moves. *)
Definition zoomDrag (env : Env) (moves : list (Q * Q)) (s : State) : State :=
  mouseMoves env moves (after (handle zoomMouseDown env) s).

(** ** The undo history *)

(** The index points into the history, or is -1. *)
Definition historyIndexValid (s : State) : Prop :=
  (-1 <= cropHistoryIndex s < Z.of_nat (length (cropHistory s)))%Z.

(** An update that leaves the undo history alone. *)
Definition keepsCropHistory (f : State -> State) : Prop :=
  forall c, cropHistory (f c) = cropHistory c
            /\ cropHistoryIndex (f c) = cropHistoryIndex c.

(** The controls whose handlers write the undo history. *)
Definition touchesCropHistory (e : UIEvent) : bool :=
  match e with
  | clickAdvancedCrop | clickCropResult _ | clickRatio _ | clickUndo | clickRedo => true
  | _ => false
  end.

(** The controls of the crop modal that move in, or add to, the undo
    history. *)
Definition historyAction (e : UIEvent) : bool :=
  match e with
  | clickUndo | clickRedo | clickRatio _ => true
  | _ => false
  end.

(** ** Properties of the state *)

Definition handlePressed (s : State) : Prop := activeHandle s <> None.
Definition historyCapped (s : State) : Prop := (length (history s) <= 20)%nat.

(** A recorded error has text. *)
Definition errorHasText (s : State) : Prop := error s <> Some "".

(** [Registers ok P p]: the code that [p] leaves waiting for its calls
    satisfies [P] in all its updates; the updates [p] makes at once are not
    looked at. *)
Inductive Registers (ok : Request -> Response -> Prop)
    (P : (State -> State) -> Prop) : Proc -> Prop :=
  | Registers_Ret : Registers ok P Ret
  | Registers_Upd f k : Registers ok P k -> Registers ok P (Upd f k)
  | Registers_Call r k rest :
      (forall env a, ok r a -> Always ok P (k env a)) ->
      Registers ok P rest ->
      Registers ok P (Call r k rest).

(** ** The three operations that edit the current image *)

Inductive EditOp := editPrompt | editWatermark | editMask (maskData : string).

Definition runEdit (op : EditOp) : Env -> State -> Proc :=
  match op with
  | editPrompt => handleEdit
  | editWatermark => handleRemoveWatermark
  | editMask maskData => castMagicHand maskData
  end.

(** The guard of each of them (lines 155, 171, 243). *)
Definition editReady (op : EditOp) (s : State) : bool :=
  truthy (ImageState.base64 (currentImage s))
  && match op with
     | editPrompt => negb (blank (prompt s))
     | editWatermark => true
     | editMask _ => magicCanvasRef_current s
     end.

(** ** Uploads *)

(** The queue entry and the image state made of a file that has been read
    (lines 319, 321). *)
Definition uploadedItem (load : string * Env) : BatchImage.t :=
  BatchImage.mk (random_id (snd load)) (fst load) (fst load) st_idle "Original"
    None None None.
Definition uploadedImage (base64 : string) : ImageState.t :=
  ImageState.mk (Some base64) (Some base64) None "Original" false None.
Definition readAnswer (load : string * Env) : Response * Env :=
  (Fulfilled (fst load), snd load).

(** The code of [reader.onloadend] (lines 317-322), for the state [s] of
    the render in which the files were chosen. *)
Definition onloadend (s : State) : Env -> Response -> Proc :=
  fun env a =>
    match a with
    | Fulfilled base64 =>
        let newBatchItem :=
          BatchImage.mk (random_id env) base64 base64 st_idle "Original"
            None None None in
        (fun c => setBatchQueue (batchQueue c ++ [newBatchItem])%list c) ;;
        when (negb (truthy (ImageState.url (currentImage s))))
          (Upd (setCurrentImage
                  (ImageState.mk (Some base64) (Some base64) None
                     "Original" false None)))
          Ret
    | _ => Ret
    end.

(** ** The batch run *)

(** The loop skips the items that are done (line 293). *)
Definition notDone (item : BatchImage.t) : bool :=
  negb (bool_decide (BatchImage.status item = st_done)).

(** The calls a run over the queue makes, in order. *)
Definition batchRequests (q : list BatchImage.t) : list Request :=
  map (fun item => upscaleFree (BatchImage.base64 item)) (List.filter notDone q).

(** The service has answered: an image or a rejection. *)
Definition settled (a : Response * Env) : Prop :=
  match fst a with
  | Fulfilled _ | Rejected _ => True
  | _ => False
  end.

(** The queue a run ends with: the answers go, in order, to the items that
    are not done.  An item whose call returned an image shows it, is done,
    'Enhanced HD' and 'Free', and keeps its error message; an item whose
    call was rejected has the status 'error' and the message of the
    rejection, and is otherwise as it was. *)
Fixpoint batchOutcome (answers_ : list (Response * Env)) (q : list BatchImage.t)
    : list BatchImage.t :=
  match q with
  | [] => []
  | item :: q' =>
      if notDone item then
        match answers_ with
        | (Fulfilled result, _) :: answers' =>
            BatchImage.mk (BatchImage.id item) result result st_done
              "Enhanced HD" (Some Free) (BatchImage.error item)
              (BatchImage.isCropping item)
            :: batchOutcome answers' q'
        | (Rejected err, _) :: answers' =>
            BatchImage.mk (BatchImage.id item) (BatchImage.url item)
              (BatchImage.base64 item) st_error (BatchImage.resolution item)
              (BatchImage.upscaleType item) (message err)
              (BatchImage.isCropping item)
            :: batchOutcome answers' q'
        | _ => item :: q'
        end
      else item :: batchOutcome answers_ q'
  end.

(** The result library a run ends with: one entry for each image returned,
    the latest first. *)
Fixpoint batchResults (answers_ : list (Response * Env)) (old : list ResultItem.t)
    : list ResultItem.t :=
  match answers_ with
  | [] => old
  | (Fulfilled result, env) :: answers' =>
      batchResults answers'
        (ResultItem.mk (random_id env) result result "Enhanced HD" "Free Batch"
           (now env) :: old)
  | _ :: answers' => batchResults answers' old
  end.

(** The queue controls that make no call: the remove button of an item and
    'Clear' (lines 568, 573). *)
Inductive QueueEdit := removeAt (i : nat) | clearQueue.

Definition editEvent (env : Env) (e : QueueEdit) : Event :=
  UI (match e with
      | removeAt i => clickRemoveFromBatch i
      | clearQueue => clickClearQueue
      end) env.

(** The oldest call in flight is answered. *)
Definition answered (a : Response * Env) : Event := Settle 0 (fst a) (snd a).

(** The code of the batch loop that waits for the call of item [i] (lines
    297-309). *)
Definition batchResume (remaining' i : nat) (q1 : list BatchImage.t)
    (item : BatchImage.t) : Env -> Response -> Proc :=
  fun env a =>
    match a with
    | Fulfilled result =>
        let q2 := <[i := markDone result (markProcessing item)]> q1 in
        addResult env result result "Enhanced HD" "Free Batch" (
        setBatchQueue q2 ;;
        batchLoop remaining' (S i) q2)
    | Rejected err =>
        let q2 := <[i := markError err (markProcessing item)]> q1 in
        setBatchQueue q2 ;;
        batchLoop remaining' (S i) q2
    | _ => Ret
    end.

(** Nothing is in flight, or one call of a batch loop is. *)
Definition oneBatchCall (c : Config) : Prop :=
  pending c = []
  \/ exists n i q1 item,
       pending c = [(upscaleFree (BatchImage.base64 item), batchResume n i q1 item)].

(** ** Tactics *)

Ltac unfold_handlers :=
  unfold handleGenerate, handleEdit, handleRemoveWatermark, castMagicHand,
    handleUpscale4K, upscale4K_call, handleBatchUpscale, startMagicHand,
    removeFromBatch, removeResult, handleComparisonMove, startZoom,
    handleZoomWheel, zoomOutClick, zoomResetClick, zoomInClick,
    handleZoomMouseDown, handleZoomMouseMove, handleZoomMouseUp, undoCrop,
    redoCrop, startCrop, updateCropBox, executeCrop, handleCropMouseMove.

(** Name every [Qmax] and [Qmin] and keep what defines it. *)
Ltac qminmax :=
  repeat match goal with
         | |- context [Qmax ?a ?b] =>
             let m := fresh "m" in
             pose proof (Q.max_spec a b); set (m := Qmax a b) in *; clearbody m
         | |- context [Qmin ?a ?b] =>
             let m := fresh "m" in
             pose proof (Q.min_spec a b); set (m := Qmin a b) in *; clearbody m
         | H : context [Qmax ?a ?b] |- _ =>
             let m := fresh "m" in
             pose proof (Q.max_spec a b); set (m := Qmax a b) in *; clearbody m
         | H : context [Qmin ?a ?b] |- _ =>
             let m := fresh "m" in
             pose proof (Q.min_spec a b); set (m := Qmin a b) in *; clearbody m
         end.

(** Divisions by constants become products. *)
Ltac qinv_const c :=
  let v := eval vm_compute in (Qinv c) in
  lazymatch v with
  | Qmake _ _ => change (Qinv c) with v in *
  end.
Ltac qdiv :=
  unfold Qdiv in *;
  repeat match goal with
         | |- context [Qinv ?c] => qinv_const c
         | H : context [Qinv ?c] |- _ => qinv_const c
         end.

Ltac qcases :=
  repeat match goal with
         | H : _ \/ _ |- _ => destruct H
         | H : _ /\ _ |- _ => destruct H
         end.

(** ** Concrete runs *)

(** The configuration a sequence of events leads to from the start. *)
Definition stateOf (evs : list Event) : Config :=
  default initialConfig (steps evs initialConfig).

(** A photo is loaded and a prompt typed. *)
Definition prompted : State := setPrompt "make the sky blue" painting.

(** An environment whose [Math.random] gives the id [id]. *)
Definition envId (id : string) : Env :=
  mkEnv id 1700000000000 false (fun _ => "data:image/png;base64,CROP").

Definition quotaExceeded : JsError := mkError (Some "Quota exceeded").

(** Three photos are uploaded. *)
Definition threeUploaded : list Event :=
  [ UI (chooseFiles ["a.png"; "b.png"; "c.png"]) env0;
    Settle 0 (Fulfilled "data:image/png;base64,AAAA") (envId "a1");
    Settle 0 (Fulfilled "data:image/png;base64,BBBB") (envId "b2");
    Settle 0 (Fulfilled "data:image/png;base64,CCCC") (envId "c3") ].

(** 'Upscale All' is clicked and the service rejects the three calls; it is
    clicked again, and now only the call for the second photo is
    rejected. *)
Definition retryAfterFailedBatch : list Event :=
  (threeUploaded ++
   [ UI clickBatchUpscale env0;
     Settle 0 (Rejected serviceDown) env0;
     Settle 0 (Rejected serviceDown) env0;
     Settle 0 (Rejected serviceDown) env0;
     UI clickBatchUpscale env0;
     Settle 0 (Fulfilled "data:image/png;base64,AAHD") (envId "r1");
     Settle 0 (Rejected quotaExceeded) env0;
     Settle 0 (Fulfilled "data:image/png;base64,CCHD") (envId "r3") ])%list.

(** 'Upscale All' is clicked and the first call returns an image, which
    goes to the result library while the call for the second photo is in
    flight; 'Crop' is clicked on that library entry, the crop is discarded,
    and 'Upscale All' is clicked again. *)
Definition secondRunDuringFirst : list Event :=
  (threeUploaded ++
   [ UI clickBatchUpscale env0;
     Settle 0 (Fulfilled "data:image/png;base64,AAHD") (envId "r1");
     UI (clickCropResult 0) env0;
     UI clickDiscardCrop env0;
     UI clickBatchUpscale env0 ])%list.

(** The configuration a sequence of events leads to from [c]. *)
Definition runFrom (evs : list Event) (c : Config) : Config :=
  default c (steps evs c).

(** The service answers with a sentence and an image. *)
Definition imageAnswer : GeminiService.GenerateContentResponse :=
  firstCandidate
    [GeminiService.textPart "Here is your image.";
     GeminiService.mkPart None
       (Some (GeminiService.mkBlob (Some "iVBORw0KGgo") (Some "image/png")))]
    [].


(* ================================================================== *)
(** * Properties: the undo history of the crop engine                  *)
(* ================================================================== *)

Lemma slice0_all {A} (l : list A) :
  slice0 l (Z.of_nat (length l) - 1 + 1) = l.
Proof.
  unfold slice0.
  replace (Z.of_nat (length l) - 1 + 1)%Z with (Z.of_nat (length l)) by lia.
  destruct (Z.ltb_spec (Z.of_nat (length l)) 0); [lia|].
  rewrite Nat2Z.id. apply firstn_all.
Qed.

(** A push on a history whose index is the last entry appends. *)
Lemma push_at_end pos size ratio s :
  cropHistoryIndex s = (Z.of_nat (length (cropHistory s)) - 1)%Z ->
  cropHistory (push pos size ratio s)
    = (cropHistory s ++ [CropState.mk pos size ratio])%list
  /\ cropHistoryIndex (push pos size ratio s)
    = Z.of_nat (length (cropHistory s)).
Proof.
  intros Hidx. unfold push, after, pushCropHistory. cbn.
  rewrite Hidx, slice0_all. split; [reflexivity|].
  rewrite length_app. cbn. lia.
Qed.

Lemma push_history pos size ratio s :
  cropHistory (push pos size ratio s)
    = (slice0 (cropHistory s) (cropHistoryIndex s + 1)
       ++ [CropState.mk pos size ratio])%list
  /\ cropHistoryIndex (push pos size ratio s)
    = (Z.of_nat (length (slice0 (cropHistory s) (cropHistoryIndex s + 1)
                         ++ [CropState.mk pos size ratio])%list) - 1)%Z.
Proof. split; reflexivity. Qed.

(** Undo and redo never create or destroy entries. *)
Lemma undo_history env s : cropHistory (undo env s) = cropHistory s.
Proof.
  unfold undo, after, undoCrop.
  destruct (0 <? cropHistoryIndex s)%Z; [|reflexivity].
  destruct (at_index _ _); reflexivity.
Qed.

Lemma redo_history env s : cropHistory (redo env s) = cropHistory s.
Proof.
  unfold redo, after, redoCrop.
  destruct (_ <? _)%Z; [|reflexivity].
  destruct (at_index _ _); reflexivity.
Qed.

Lemma undo_index env s prev :
  (0 < cropHistoryIndex s)%Z ->
  at_index (cropHistory s) (cropHistoryIndex s - 1) = Some prev ->
  cropHistoryIndex (undo env s) = (cropHistoryIndex s - 1)%Z
  /\ liveRegion (undo env s) = prev.
Proof.
  intros Hpos Hat. unfold undo, after, undoCrop, liveRegion.
  destruct (Z.ltb_spec 0 (cropHistoryIndex s)); [|lia].
  rewrite Hat. cbn. destruct prev; auto.
Qed.

(** Redo at the last entry changes nothing. *)
Lemma redo_noop env s :
  (Z.of_nat (length (cropHistory s)) - 1 <= cropHistoryIndex s)%Z ->
  redo env s = s.
Proof.
  intros Hle. unfold redo, after, redoCrop.
  destruct (Z.ltb_spec (cropHistoryIndex s)
              (Z.of_nat (length (cropHistory s)) - 1)); [lia|].
  reflexivity.
Qed.

(** Undo at the first entry changes nothing. *)
Lemma undo_noop env s : (cropHistoryIndex s <= 0)%Z -> undo env s = s.
Proof.
  intros Hle. unfold undo, after, undoCrop.
  destruct (Z.ltb_spec 0 (cropHistoryIndex s)); [lia|]. reflexivity.
Qed.

Lemma startCrop_history id b env s :
  String.eqb b "" = false ->
  cropHistory (after (startCrop id (Some b) env) s)
    = [CropState.mk (Point.mk 50%Q 50%Q) (Size.mk 40%Q 40%Q) R1_1]
  /\ cropHistoryIndex (after (startCrop id (Some b) env) s) = 0%Z.
Proof. intros Hb. unfold after, startCrop. rewrite Hb. split; reflexivity. Qed.

(** C3: in a crop session (the history is the one [startCrop] creates,
    holding the initial region), the sequence push 40x40, push 30x30, undo,
    push 20x20 leaves a history of length 3 (the initial entry, the 40x40
    entry and the new one) with current index 2; redo then changes nothing,
    and the 30x30 entry of the discarded forward branch is gone. *)
Theorem crop_history_push_undo_push
    (env : Env) (s : State) (id : option string) (base64 : string)
    (p1 p2 p3 : Point.t Q) (r1 r2 r3 : CropRatio) :
  String.eqb base64 "" = false ->
  let s0 := after (startCrop id (Some base64) env) s in
  let s4 := push p3 (Size.mk 20%Q 20%Q) r3
              (undo env
                 (push p2 (Size.mk 30%Q 30%Q) r2
                    (push p1 (Size.mk 40%Q 40%Q) r1 s0))) in
  length (cropHistory s4) = 3%nat
  /\ cropHistoryIndex s4 = 2%Z
  /\ redo env s4 = s4
  /\ cropHistory s4
     = [CropState.mk (Point.mk 50%Q 50%Q) (Size.mk 40%Q 40%Q) R1_1;
        CropState.mk p1 (Size.mk 40%Q 40%Q) r1;
        CropState.mk p3 (Size.mk 20%Q 20%Q) r3]
  /\ Forall (fun e => CropState.size e <> Size.mk 30%Q 30%Q) (cropHistory s4).
Proof.
  intros Hb s0 s4.
  destruct (startCrop_history id base64 env s Hb) as [H0 I0].
  fold s0 in H0, I0. clearbody s0.
  destruct (push_history p1 (Size.mk 40%Q 40%Q) r1 s0) as [H1 I1].
  set (s1 := push p1 (Size.mk 40%Q 40%Q) r1 s0) in *. clearbody s1.
  rewrite H0, I0 in *. compute_rhs H1; compute_rhs I1.
  destruct (push_history p2 (Size.mk 30%Q 30%Q) r2 s1) as [H2 I2].
  set (s2 := push p2 (Size.mk 30%Q 30%Q) r2 s1) in *. clearbody s2.
  rewrite H1, I1 in *. compute_rhs H2; compute_rhs I2.
  assert (H3 : cropHistory (undo env s2) = cropHistory s2) by apply undo_history.
  destruct (undo_index env s2 (CropState.mk p1 (Size.mk 40%Q 40%Q) r1)) as [I3 _].
  { rewrite I2. lia. }
  { rewrite H2, I2. reflexivity. }
  set (s3 := undo env s2) in *. clearbody s3.
  rewrite H2 in H3. rewrite I2 in I3. compute_rhs I3.
  destruct (push_history p3 (Size.mk 20%Q 20%Q) r3 s3) as [H4 I4].
  fold s4 in H4, I4. clearbody s4.
  rewrite H3, I3 in *. compute_rhs H4; compute_rhs I4.
  assert (R : redo env s4 = s4).
  { apply redo_noop. rewrite H4, I4. cbn. lia. }
  rewrite H4. repeat split; auto.
  all: repeat constructor; discriminate.
Qed.

Lemma crop_history_push_undo_push_witness :
  let s0 := after (startCrop None (Some "data:image/png;base64,AAAA") env0)
              initialState in
  let s4 := push (Point.mk 50%Q 50%Q) (Size.mk 20%Q 20%Q) RFree
              (undo env0
                 (push (Point.mk 50%Q 50%Q) (Size.mk 30%Q 30%Q) RFree
                    (push (Point.mk 50%Q 50%Q) (Size.mk 40%Q 40%Q) R1_1 s0))) in
  length (cropHistory s4) = 3%nat
  /\ cropHistoryIndex s4 = 2%Z
  /\ redo env0 s4 = s4
  /\ cropHistory s4
     = [CropState.mk (Point.mk 50%Q 50%Q) (Size.mk 40%Q 40%Q) R1_1;
        CropState.mk (Point.mk 50%Q 50%Q) (Size.mk 40%Q 40%Q) R1_1;
        CropState.mk (Point.mk 50%Q 50%Q) (Size.mk 20%Q 20%Q) RFree]
  /\ Forall (fun e => CropState.size e <> Size.mk 30%Q 30%Q) (cropHistory s4).
Proof.
  apply (crop_history_push_undo_push env0 initialState None
           "data:image/png;base64,AAAA").
  reflexivity.
Defined.

(** Without the entry of [startCrop] the same sequence leaves two entries:
    the numbers of the scenario count the initial region. *)
Lemma push_undo_push_from_empty (env : Env) :
  let s4 := push (Point.mk 50%Q 50%Q) (Size.mk 20%Q 20%Q) RFree
              (undo env
                 (push (Point.mk 50%Q 50%Q) (Size.mk 30%Q 30%Q) RFree
                    (push (Point.mk 50%Q 50%Q) (Size.mk 40%Q 40%Q) R1_1
                       initialState))) in
  length (cropHistory s4) = 2%nat /\ cropHistoryIndex s4 = 1%Z.
Proof. vm_compute. split; reflexivity. Qed.

(** Undo followed by redo gives back the state it started from when the
    live region is the snapshot at the current index. *)
Lemma undo_redo_roundtrip env s :
  (0 < cropHistoryIndex s)%Z ->
  (cropHistoryIndex s < Z.of_nat (length (cropHistory s)))%Z ->
  at_index (cropHistory s) (cropHistoryIndex s) = Some (liveRegion s) ->
  redo env (undo env s) = s.
Proof.
  intros Hpos Hlt Hlive.
  assert (Hprev : exists prev,
             at_index (cropHistory s) (cropHistoryIndex s - 1) = Some prev).
  { unfold at_index. destruct (Z.ltb_spec (cropHistoryIndex s - 1) 0); [lia|].
    apply lookup_lt_is_Some. lia. }
  destruct Hprev as [prev Hprev].
  unfold redo, undo, after, undoCrop.
  destruct (Z.ltb_spec 0 (cropHistoryIndex s)); [|lia].
  rewrite Hprev. cbn. unfold redoCrop. cbn.
  destruct (Z.ltb_spec (cropHistoryIndex s - 1)
              (Z.of_nat (length (cropHistory s)) - 1)); [|lia].
  replace (cropHistoryIndex s - 1 + 1)%Z with (cropHistoryIndex s) by lia.
  rewrite Hlive. cbn.
  destruct s; cbn in *. unfold liveRegion in Hlive. cbn in *.
  f_equal.
Qed.

(** The index alone always makes the round trip. *)
Lemma undo_redo_index env s :
  (0 < cropHistoryIndex s)%Z ->
  (cropHistoryIndex s < Z.of_nat (length (cropHistory s)))%Z ->
  cropHistoryIndex (redo env (undo env s)) = cropHistoryIndex s.
Proof.
  intros Hpos Hlt.
  assert (Hprev : exists prev,
             at_index (cropHistory s) (cropHistoryIndex s - 1) = Some prev).
  { unfold at_index. destruct (Z.ltb_spec (cropHistoryIndex s - 1) 0); [lia|].
    apply lookup_lt_is_Some. lia. }
  assert (Hcur : exists cur,
             at_index (cropHistory s) (cropHistoryIndex s) = Some cur).
  { unfold at_index. destruct (Z.ltb_spec (cropHistoryIndex s) 0); [lia|].
    apply lookup_lt_is_Some. lia. }
  destruct Hprev as [prev Hprev]. destruct Hcur as [cur Hcur].
  unfold redo, undo, after, undoCrop.
  destruct (Z.ltb_spec 0 (cropHistoryIndex s)); [|lia].
  rewrite Hprev. cbn. unfold redoCrop. cbn.
  destruct (Z.ltb_spec (cropHistoryIndex s - 1)
              (Z.of_nat (length (cropHistory s)) - 1)); [|lia].
  replace (cropHistoryIndex s - 1 + 1)%Z with (cropHistoryIndex s) by lia.
  rewrite Hcur. cbn. lia.
Qed.

(** C9: evaluation on a reachable state.  After the ratio button (which
    pushes the 60 x 33.75 box) the top-left handle is dragged: the live
    region becomes 70 x 39.375, and nothing pushes it, since no element
    runs [handleHandleUp].  The index is 1.  Undo followed by redo restores
    the index but shows the 60 x 33.75 snapshot, not the region that held
    before the undo. *)
Theorem undo_redo_loses_dragged_region :
  exists c c',
    steps dragAfterRatio initialConfig = Some c
    /\ (0 < cropHistoryIndex (st c))%Z
    /\ steps [UI clickUndo env0; UI clickRedo env0] c = Some c'
    /\ cropHistory (st c') = cropHistory (st c)
    /\ cropHistoryIndex (st c') = cropHistoryIndex (st c)
    /\ (Size.w (cropSize (st c)) == 70)%Q
    /\ (Size.h (cropSize (st c)) == 39.375)%Q
    /\ cropSize (st c') = Size.mk 60%Q 33.75%Q
    /\ liveRegion (st c') <> liveRegion (st c).
Proof.
  eexists. eexists.
  split; [vm_compute; reflexivity|].
  split; [vm_compute; reflexivity|].
  split; [vm_compute; reflexivity|].
  vm_compute. repeat split; try reflexivity; discriminate.
Qed.

(* ================================================================== *)
(** * Properties: resizing the crop box                                *)
(* ================================================================== *)

Section Resize.
Local Open Scope Q_scope.

Lemma nltb_Q_spec (a b : Q) : reflect (a < b) (nltb a b).
Proof.
  cbn. destruct (Qle_bool b a) eqn:E; constructor.
  - apply Qle_bool_iff in E. lra.
  - assert (~ b <= a) by (rewrite <- Qle_bool_iff; congruence). lra.
Qed.

(** With the 1:1 lock the top-left handle always leaves a square. *)
Lemma tl_square_w_eq_h pos size mx my :
  Size.w (fst (resizeCropBox tl R1_1 pos size mx my))
  == Size.h (fst (resizeCropBox tl R1_1 pos size mx my)).
Proof.
  unfold resizeCropBox. cbn -[Qmin Qmax Qle_bool].
  repeat match goal with
         | |- context [negb (Qle_bool ?a ?b)] => destruct (negb (Qle_bool a b))
         end; cbn -[Qmin Qmax]; field.
Qed.

(** The bottom-right corner stays where it was as long as the square
    fits above the pinned bottom edge, that is, when the box is not
    clamped again at the top. *)
Lemma tl_square_br_pinned pos size mx my :
  Point.y pos + Size.h size / 2 <= 100 ->
  Point.x pos + Size.w size / 2
    - Qmin (Point.x pos + Size.w size / 2 - 5) (Qmax 0 mx)
  <= Point.y pos + Size.h size / 2 ->
  let r := resizeCropBox tl R1_1 pos size mx my in
  fst (brCorner (snd r) (fst r)) == fst (brCorner pos size)
  /\ snd (brCorner (snd r) (fst r)) == snd (brCorner pos size).
Proof.
  intros Hb Hfit r. subst r. unfold resizeCropBox, brCorner.
  cbn -[Qmin Qmax nltb]. cbv [inject_Z].
  set (left' := Qmin _ _) in *.
  destruct (nltb_Q_spec 100 (Point.y pos + Size.h size / 2)) as [H1|H1];
    [lra|].
  destruct (nltb_Q_spec (Point.y pos + Size.h size / 2
                          - (Point.x pos + Size.w size / 2 - left') / 1) 0)
    as [H2|H2].
  { exfalso.
    assert (E : (Point.x pos + Size.w size / 2 - left') / 1
                == Point.x pos + Size.w size / 2 - left') by field.
    rewrite E in H2. lra. }
  cbn. split; field.
Qed.

(** C4: evaluation at a box that is clamped again at the top.  The box
    centred at (50, 30) of size 40 x 40 lies inside the canvas, with its
    bottom-right corner at (70, 50).  Dragging the top-left handle to
    (0, 0) under the 1:1 lock asks for a 70 x 70 square, which does not
    fit above the bottom edge; the height is clamped to 50 and the width
    re-derived from it, but the left edge stays at the pointer: the result
    is the 50 x 50 square centred at (25, 25), whose bottom-right corner is
    (50, 50).  The sides are equal, the pinned corner has moved.  The same
    values come out in binary64 arithmetic. *)
Theorem tl_square_reclamp_moves_br :
  let pos := Point.mk 50 30 in
  let size := Size.mk 40 40 in
  let r := resizeCropBox tl R1_1 pos size 0 0 in
  (0 <= Point.x pos - Size.w size / 2 /\ Point.x pos + Size.w size / 2 <= 100
   /\ 0 <= Point.y pos - Size.h size / 2
   /\ Point.y pos + Size.h size / 2 <= 100)
  /\ Size.w (fst r) == Size.h (fst r)
  /\ fst (brCorner pos size) == 70 /\ snd (brCorner pos size) == 50
  /\ fst (brCorner (snd r) (fst r)) == 50
  /\ snd (brCorner (snd r) (fst r)) == 50
  /\ ~ fst (brCorner (snd r) (fst r)) == fst (brCorner pos size)
  /\ resizeCropBox (N:=float) tl R1_1 (Point.mk 50 30)%float
       (Size.mk 40 40)%float 0%float 0%float
     = (Size.mk 50 50, Point.mk 25 25)%float
  /\ brCorner (N:=float) (Point.mk 50 30)%float (Size.mk 40 40)%float
     = (70, 50)%float
  /\ brCorner (N:=float) (Point.mk 25 25)%float (Size.mk 50 50)%float
     = (50, 50)%float.
Proof.
  vm_compute.
  repeat split; try reflexivity; try discriminate; intros; discriminate.
Qed.
(** The box of that evaluation is reached in the crop modal, and the drag
    then gives the same result there. *)
Lemma reclamp_in_the_modal :
  exists c c',
    steps dragToCorner initialConfig = Some c
    /\ cropRatio (st c) = R1_1
    /\ cropPos (st c) = Point.mk 50 30
    /\ cropSize (st c) = Size.mk 40 40
    /\ step (UI (cropMouseMove 0 0) env0) c = Some c'
    /\ Size.w (cropSize (st c')) == 50 /\ Size.h (cropSize (st c')) == 50
    /\ Point.x (cropPos (st c')) == 25 /\ Point.y (cropPos (st c')) == 25.
Proof.
  eexists. eexists.
  split; [vm_compute; reflexivity|].
  split; [reflexivity|]. split; [reflexivity|]. split; [reflexivity|].
  split; [vm_compute; reflexivity|].
  vm_compute. repeat split; reflexivity.
Qed.
End Resize.

(* ================================================================== *)
(** * Properties: handler programs and the event loop                  *)
(* ================================================================== *)

Lemma exec_pending ok P p :
  Always ok P p -> forall c, AlwaysPending ok P c -> AlwaysPending ok P (exec p c).
Proof.
  induction 1 as [|f k Hf Hk IH|r k rest Hk IHk Hrest IHrest]; intros c Hc; cbn.
  - exact Hc.
  - apply IH. exact Hc.
  - apply IHrest. unfold AlwaysPending in *. cbn.
    apply Forall_app. split; [exact Hc|]. constructor; [|constructor].
    cbn. exact Hk.
Qed.

Lemma exec_preserves ok I p :
  Always ok (preserves I) p -> forall c, I (st c) -> I (st (exec p c)).
Proof.
  induction 1 as [|f k Hf Hk IH|r k rest Hk IHk Hrest IHrest]; intros c Hc; cbn.
  - exact Hc.
  - apply IH. cbn. apply Hf. exact Hc.
  - apply IHrest. exact Hc.
Qed.

Lemma exec_keepsImage ok p :
  Always ok keepsImage p ->
  forall c, currentImage (st (exec p c)) = currentImage (st c).
Proof.
  induction 1 as [|f k Hf Hk IH|r k rest Hk IHk Hrest IHrest]; intros c; cbn.
  - reflexivity.
  - rewrite IH. cbn. apply Hf.
  - rewrite IHrest. reflexivity.
Qed.

(** A property of the state that the updates of every enabled handler
    maintain holds along every run of the event loop. *)
Section Invariant.
Variable I : State -> Prop.
Hypothesis handlers :
  forall e env s, I s -> enabled s e = true ->
    Always wellAnswered (preserves I) (handle e env s).

Lemma step_invariant ev c c' :
  I (st c) -> AlwaysPending wellAnswered (preserves I) c ->
  step ev c = Some c' ->
  I (st c') /\ AlwaysPending wellAnswered (preserves I) c'.
Proof using handlers.
  intros Hc Hp Hstep. destruct ev as [e env|n a env]; cbn in Hstep.
  - destruct (enabled (st c) e) eqn:En; [|discriminate].
    injection Hstep as <-.
    split; [apply (exec_preserves wellAnswered)|apply exec_pending]; auto.
  - destruct (pending c !! n) as [[r k]|] eqn:Hn; [|discriminate].
    destruct (answers r a) eqn:Ha; [|discriminate].
    injection Hstep as <-.
    assert (Hk : Always wellAnswered (preserves I) (k env a)).
    { unfold AlwaysPending in Hp. rewrite Forall_lookup in Hp.
      apply (Hp n (r, k) Hn). exact Ha. }
    split.
    + apply (exec_preserves wellAnswered); auto.
    + apply exec_pending; auto. unfold AlwaysPending in *. cbn.
      apply Forall_delete. exact Hp.
Qed.

Lemma steps_invariant evs :
  forall c c',
    I (st c) -> AlwaysPending wellAnswered (preserves I) c ->
    steps evs c = Some c' ->
    I (st c') /\ AlwaysPending wellAnswered (preserves I) c'.
Proof using handlers.
  induction evs as [|ev evs IH]; intros c c' Hc Hp Hs; cbn in Hs.
  - injection Hs as <-. auto.
  - destruct (step ev c) as [c1|] eqn:H1; [|discriminate].
    destruct (step_invariant ev c c1 Hc Hp H1) as [Hc1 Hp1].
    eapply IH; eauto.
Qed.
End Invariant.

Section Loops.
Variable ok : Request -> Response -> Prop.
Variable P : (State -> State) -> Prop.

Lemma batchLoop_always :
  P (setMode IDLE) -> (forall q, P (setBatchQueue q)) ->
  (forall r, P (fun c => setResults (r :: results c) c)) ->
  forall n i q, Always ok P (batchLoop n i q).
Proof using Type.
  intros Hm Hq Hr. induction n as [|n IH]; intros i q; cbn.
  - repeat constructor; auto.
  - destruct (q !! i) as [item|]; [|repeat constructor; auto].
    destruct (bool_decide _); [apply IH|].
    constructor; [apply Hq|]. constructor; [|constructor].
    intros env a _. destruct a; try constructor.
    + apply Hr.
    + constructor; [apply Hq|apply IH].
    + apply Hq.
    + apply IH.
Qed.

Lemma handleFileUpload_always :
  (forall item, P (fun c => setBatchQueue (batchQueue c ++ [item])%list c)) ->
  (forall i, P (setCurrentImage i)) ->
  forall files env s, Always ok P (handleFileUpload files env s).
Proof using Type.
  intros Hq Hi. induction files as [|file files IH]; intros env s; cbn.
  - constructor.
  - constructor; [|apply IH].
    intros env' a _. destruct a; try constructor; [apply Hq|].
    unfold when. destruct (negb _); repeat constructor. apply Hi.
Qed.
End Loops.

(** The batch loop has at most one call in flight. *)
Lemma batchLoop_one_call n :
  forall i q c,
    (length (pending (exec (batchLoop n i q) c)) <= S (length (pending c)))%nat.
Proof.
  induction n as [|n IH]; intros i q c; cbn.
  - lia.
  - destruct (q !! i) as [item|]; cbn; [|lia].
    destruct (bool_decide _); [apply IH|].
    cbn. rewrite length_app. cbn. lia.
Qed.

(* ================================================================== *)
(** * Properties: committing a crop                                    *)
(* ================================================================== *)

(** What [executeCrop] does once the image has loaded, for both kinds of
    target. *)
Lemma executeCrop_run env env' s cd realW realH :
  cropData s = Some cd -> mode s = CROPPING ->
  let artifact := cropArtifact env' s cd realW realH in
  let out := runAlone (executeCrop env s) [(Loaded realW realH, env')] s in
  snd out = [loadImage (CropData.base64 cd)]
  /\ pending (fst out) = []
  /\ mode (st (fst out)) = IDLE
  /\ cropData (st (fst out)) = None
  /\ (CropData.id cd = "current" ->
      currentImage (st (fst out))
        = cropCurrent artifact (ImageState.url (currentImage s)) (currentImage s)
      /\ batchQueue (st (fst out)) = batchQueue s
      /\ results (st (fst out)) = results s)
  /\ (CropData.id cd <> "current" ->
      currentImage (st (fst out)) = currentImage s
      /\ batchQueue (st (fst out))
         = cropInQueue (CropData.id cd) artifact (batchQueue s)
      /\ results (st (fst out))
         = if existsb (fun r => String.eqb (ResultItem.id r) (CropData.id cd))
                (results s)
           then ResultItem.mk (random_id env') artifact artifact "Cropped"
                  "Manual Edit" (now env') :: results s
           else results s).
Proof.
  intros Hcd Hmode artifact out. subst out artifact.
  unfold runAlone, executeCrop, canvasRef_current, cropArtifact.
  rewrite Hcd, Hmode.
  cbn -[mapPercentToPixelRect String.eqb].
  destruct (String.eqb_spec (CropData.id cd) "current") as [E|E].
  - cbn -[mapPercentToPixelRect].
    repeat split; try reflexivity; try (intros; congruence).
  - unfold when. destruct (existsb _ _); cbn -[mapPercentToPixelRect String.eqb];
      repeat split; try reflexivity; try (intros; congruence).
Qed.

Lemma cropInQueue_frame id artifact q :
  length (cropInQueue id artifact q) = length q
  /\ forall i item, q !! i = Some item ->
       cropInQueue id artifact q !! i
       = Some (if String.eqb (BatchImage.id item) id
               then cropBatchItem artifact item else item).
Proof.
  unfold cropInQueue. split; [apply length_map|].
  intros i item Hi. rewrite list_lookup_fmap, Hi. reflexivity.
Qed.

(** C6: with the region centred at (50, 50) and of size 40 x 40, and a
    source of 1000 x 1000 pixels, [executeCrop] loads the source, draws the
    rectangle x = 300, y = 300, width = 400, height = 400 (that is, from
    (300, 300) to (700, 700)) on a canvas of 400 x 400 and stores its
    encoding: in the current image when the target is the current image, in
    the matching queue entries otherwise.  The rectangle has the same
    coordinates in binary64 arithmetic. *)
Theorem crop_commit_maps_percent_to_pixels
    (env env' : Env) (s : State) (cd : CropData.t) :
  cropData s = Some cd ->
  mode s = CROPPING ->
  cropPos s = Point.mk 50%Q 50%Q ->
  cropSize s = Size.mk 40%Q 40%Q ->
  let rect := mapPercentToPixelRect (cropPos s) (cropSize s) 1000%Q 1000%Q in
  let artifact := toDataURL env' (CanvasDraw.mk (CropData.base64 cd) rect) in
  let out := runAlone (executeCrop env s) [(Loaded 1000%Q 1000%Q, env')] s in
  (PixelRect.x rect == 300 /\ PixelRect.y rect == 300
   /\ PixelRect.width rect == 400 /\ PixelRect.height rect == 400
   /\ PixelRect.x rect + PixelRect.width rect == 700
   /\ PixelRect.y rect + PixelRect.height rect == 700)%Q
  /\ mapPercentToPixelRect (N:=float) (Point.mk 50 50)%float
       (Size.mk 40 40)%float 1000%float 1000%float
     = (PixelRect.mk 300 300 400 400)%float
  /\ snd out = [loadImage (CropData.base64 cd)]
  /\ mode (st (fst out)) = IDLE
  /\ (CropData.id cd = "current" ->
      ImageState.url (currentImage (st (fst out))) = Some artifact
      /\ ImageState.base64 (currentImage (st (fst out))) = Some artifact
      /\ ImageState.resolution (currentImage (st (fst out))) = "Cropped")
  /\ (CropData.id cd <> "current" ->
      batchQueue (st (fst out))
      = cropInQueue (CropData.id cd) artifact (batchQueue s)).
Proof.
  intros Hcd Hmode Hpos Hsize rect artifact out.
  destruct (executeCrop_run env env' s cd 1000%Q 1000%Q Hcd Hmode)
    as (Hlog & _ & Hidle & _ & Hcur & Hother).
  fold out in Hlog, Hidle, Hcur, Hother.
  unfold cropArtifact in Hcur, Hother. fold rect in Hcur, Hother.
  fold artifact in Hcur, Hother.
  split.
  { subst rect. rewrite Hpos, Hsize. vm_compute. repeat split; reflexivity. }
  split; [vm_compute; reflexivity|].
  split; [exact Hlog|]. split; [exact Hidle|]. split.
  - intros E. destruct (Hcur E) as (-> & _ & _). repeat split; reflexivity.
  - intros E. destruct (Hother E) as (_ & -> & _). reflexivity.
Qed.

Lemma crop_commit_maps_percent_to_pixels_witness :
  let rect := mapPercentToPixelRect (cropPos cropping) (cropSize cropping)
                1000%Q 1000%Q in
  let artifact :=
    toDataURL env0 (CanvasDraw.mk "data:image/png;base64,AAAA" rect) in
  let out := runAlone (executeCrop env0 cropping)
               [(Loaded 1000%Q 1000%Q, env0)] cropping in
  (PixelRect.x rect == 300 /\ PixelRect.y rect == 300
   /\ PixelRect.width rect == 400 /\ PixelRect.height rect == 400
   /\ PixelRect.x rect + PixelRect.width rect == 700
   /\ PixelRect.y rect + PixelRect.height rect == 700)%Q
  /\ mapPercentToPixelRect (N:=float) (Point.mk 50 50)%float
       (Size.mk 40 40)%float 1000%float 1000%float
     = (PixelRect.mk 300 300 400 400)%float
  /\ snd out = [loadImage "data:image/png;base64,AAAA"]
  /\ mode (st (fst out)) = IDLE
  /\ ("current" = "current" ->
      ImageState.url (currentImage (st (fst out))) = Some artifact
      /\ ImageState.base64 (currentImage (st (fst out))) = Some artifact
      /\ ImageState.resolution (currentImage (st (fst out))) = "Cropped")
  /\ ("current" <> "current" ->
      batchQueue (st (fst out))
      = cropInQueue "current" artifact (batchQueue cropping)).
Proof.
  apply (crop_commit_maps_percent_to_pixels env0 env0 cropping
           (CropData.mk "current" "data:image/png;base64,AAAA"));
    reflexivity.
Defined.

(** C10: when the crop target is not the current image, committing leaves
    the current image as it was; the queue keeps its length and every entry
    whose id differs from the target, the entries with the target's id get
    the cropped image, and the result library gains one entry exactly when
    the target is one of its items. *)
Theorem crop_of_other_target_keeps_current_image
    (env env' : Env) (s : State) (cd : CropData.t) (realW realH : Q) :
  cropData s = Some cd ->
  mode s = CROPPING ->
  CropData.id cd <> "current" ->
  let artifact := cropArtifact env' s cd realW realH in
  let out := runAlone (executeCrop env s) [(Loaded realW realH, env')] s in
  currentImage (st (fst out)) = currentImage s
  /\ length (batchQueue (st (fst out))) = length (batchQueue s)
  /\ (forall i item,
        batchQueue s !! i = Some item ->
        batchQueue (st (fst out)) !! i
        = Some (if String.eqb (BatchImage.id item) (CropData.id cd)
                then cropBatchItem artifact item else item))
  /\ (forall i item,
        batchQueue s !! i = Some item ->
        BatchImage.id item <> CropData.id cd ->
        batchQueue (st (fst out)) !! i = Some item)
  /\ results (st (fst out))
     = (if existsb (fun r => String.eqb (ResultItem.id r) (CropData.id cd))
             (results s)
        then ResultItem.mk (random_id env') artifact artifact "Cropped"
               "Manual Edit" (now env') :: results s
        else results s).
Proof.
  intros Hcd Hmode Hid artifact out.
  destruct (executeCrop_run env env' s cd realW realH Hcd Hmode)
    as (_ & _ & _ & _ & _ & Hother).
  destruct (Hother Hid) as (Himg & Hq & Hres).
  fold artifact in Hq, Hres. fold out in Himg, Hq, Hres.
  destruct (cropInQueue_frame (CropData.id cd) artifact (batchQueue s))
    as [Hlen Hat].
  rewrite Hq. repeat split; auto.
  intros i item Hi Hne. rewrite (Hat i item Hi).
  destruct (String.eqb_spec (BatchImage.id item) (CropData.id cd)); congruence.
Qed.

Lemma crop_of_other_target_keeps_current_image_witness :
  let cd := CropData.mk "res1" "data:image/png;base64,BBBB" in
  let artifact := cropArtifact env0 croppingResult cd 2000%Q 1000%Q in
  let out := runAlone (executeCrop env0 croppingResult)
               [(Loaded 2000%Q 1000%Q, env0)] croppingResult in
  currentImage (st (fst out)) = currentImage croppingResult
  /\ length (batchQueue (st (fst out))) = length (batchQueue croppingResult)
  /\ (forall i item,
        batchQueue croppingResult !! i = Some item ->
        batchQueue (st (fst out)) !! i
        = Some (if String.eqb (BatchImage.id item) (CropData.id cd)
                then cropBatchItem artifact item else item))
  /\ (forall i item,
        batchQueue croppingResult !! i = Some item ->
        BatchImage.id item <> CropData.id cd ->
        batchQueue (st (fst out)) !! i = Some item)
  /\ results (st (fst out))
     = (if existsb (fun r => String.eqb (ResultItem.id r) (CropData.id cd))
             (results croppingResult)
        then ResultItem.mk (random_id env0) artifact artifact "Cropped"
               "Manual Edit" (now env0) :: results croppingResult
        else results croppingResult).
Proof.
  apply (crop_of_other_target_keeps_current_image env0 env0 croppingResult
           (CropData.mk "res1" "data:image/png;base64,BBBB") 2000%Q 1000%Q).
  - reflexivity.
  - reflexivity.
  - vm_compute. discriminate.
Defined.

(* ================================================================== *)
(** * Properties: failures of the external service                     *)
(* ================================================================== *)

Lemma settleAll_keepsImage answers_ :
  forall c log,
    Forall notAnImage answers_ ->
    AlwaysPending noImage keepsImage c ->
    currentImage (st (fst (settleAll answers_ c log))) = currentImage (st c).
Proof.
  induction answers_ as [|[a env] answers' IH]; intros c log Hans Hc; cbn.
  - reflexivity.
  - destruct c as [s pd]. cbn in *. destruct pd as [|[r k] rest]; [reflexivity|].
    inversion Hans as [|? ? Ha Hans']; subst.
    inversion Hc as [|? ? Hk Hrest]; subst. cbn in *.
    assert (Hno : noImage r a).
    { intros v ->. exact Ha. }
    rewrite IH; [|assumption|].
    + rewrite (exec_keepsImage noImage); [reflexivity|]. apply Hk. exact Hno.
    + apply exec_pending; [apply Hk; exact Hno|]. exact Hrest.
Qed.

(** As long as the service returns no image, no update of the five
    operations touches the current image. *)
Lemma runOp_keepsImage op env s : Always noImage keepsImage (runOp op env s).
Proof.
  destruct op; cbn [runOp];
    unfold handleGenerate, handleEdit, handleRemoveWatermark, castMagicHand,
      handleUpscale4K, upscale4K_call.
  all: repeat first
         [ always_step
         | match goal with
           | H : noImage _ (Fulfilled ?v) |- _ => exfalso; exact (H v eq_refl)
           end
         | intros c; reflexivity ].
Qed.

(** C7: for generate, edit, remove-watermark, magic-hand erase and upscale,
    run from any state and answered in any way in which the service never
    returns an image (its call is rejected; the key dialogue of the upscale
    may go either way), the current image at the end, and at every point on
    the way, is the one the operation started with. *)
Theorem failed_call_keeps_current_image
    (op : ExternalOp) (env : Env) (s : State)
    (answers_ : list (Response * Env)) :
  Forall notAnImage answers_ ->
  currentImage (st (fst (runAlone (runOp op env s) answers_ s)))
  = currentImage s.
Proof.
  intros Hans. unfold runAlone.
  rewrite settleAll_keepsImage; [|exact Hans|].
  - rewrite (exec_keepsImage noImage); [reflexivity|apply runOp_keepsImage].
  - apply exec_pending; [apply runOp_keepsImage|constructor].
Qed.

Lemma failed_call_keeps_current_image_witness :
  currentImage
    (st (fst (runAlone (runOp (opMagicHandErase "data:image/png;base64,MASK")
                          env0 painting)
                [(Rejected serviceDown, env0)] painting)))
  = currentImage painting.
Proof.
  apply (failed_call_keeps_current_image
           (opMagicHandErase "data:image/png;base64,MASK") env0 painting
           [(Rejected serviceDown, env0)]).
  repeat constructor.
Defined.

(** The failure path is taken in that run: the call was made and the
    message recorded. *)
Lemma failed_erase_run :
  let out := runAlone (castMagicHand "data:image/png;base64,MASK" env0 painting)
               [(Rejected serviceDown, env0)] painting in
  snd out = [editWithMask "data:image/png;base64,AAAA"
               "data:image/png;base64,MASK" magicHandPrompt]
  /\ error (st (fst out)) = Some "API key not valid"
  /\ mode (st (fst out)) = ERROR.
Proof. vm_compute. repeat split; reflexivity. Qed.

(** Generate, edit, remove-watermark and upscale end in [IDLE] when their
    call is rejected, with the message recorded ([window.aistudio] being
    absent for the upscale). *)
Lemma rejected_generate_returns_to_idle env env' s err :
  blank (prompt s) = false ->
  let out := runAlone (handleGenerate env s) [(Rejected err, env')] s in
  mode (st (fst out)) = IDLE
  /\ error (st (fst out))
     = Some (or_else (message err) "Failed to generate image").
Proof.
  intros Hp out. subst out. unfold runAlone, handleGenerate. rewrite Hp.
  split; reflexivity.
Qed.

Lemma rejected_edit_returns_to_idle env env' s base64 err :
  blank (prompt s) = false ->
  ImageState.base64 (currentImage s) = Some base64 ->
  String.eqb base64 "" = false ->
  let out := runAlone (handleEdit env s) [(Rejected err, env')] s in
  mode (st (fst out)) = IDLE
  /\ error (st (fst out)) = Some (or_else (message err) "Failed to edit").
Proof.
  intros Hp Hb Hne out. subst out. unfold runAlone, handleEdit.
  rewrite Hb, Hp, Hne. split; reflexivity.
Qed.

Lemma rejected_removeWatermark_returns_to_idle env env' s base64 err :
  ImageState.base64 (currentImage s) = Some base64 ->
  String.eqb base64 "" = false ->
  let out := runAlone (handleRemoveWatermark env s) [(Rejected err, env')] s in
  mode (st (fst out)) = IDLE
  /\ error (st (fst out))
     = Some (or_else (message err) "Failed to remove watermark").
Proof.
  intros Hb Hne out. subst out. unfold runAlone, handleRemoveWatermark.
  rewrite Hb, Hne. split; reflexivity.
Qed.

Lemma rejected_upscale_returns_to_idle env env' s base64 err :
  ImageState.base64 (currentImage s) = Some base64 ->
  String.eqb base64 "" = false ->
  aistudio env = false -> aistudio env' = false ->
  let out := runAlone (handleUpscale4K env s) [(Rejected err, env')] s in
  mode (st (fst out)) = IDLE
  /\ error (st (fst out))
     = Some (or_else (message err) "Failed to upscale to 4K").
Proof.
  intros Hb Hne Ha Ha' out. subst out.
  unfold runAlone, handleUpscale4K, upscale4K_call.
  rewrite Hb, Hne, Ha. cbn -[includes]. rewrite Ha', andb_false_r.
  split; reflexivity.
Qed.

(** When the rejection says "Requested entity was not found" and
    [window.aistudio] is present, the key dialogue is opened inside the
    [catch] block; if that dialogue is rejected too, the block is left
    before [setError]: the mode returns to [IDLE] and no message is
    recorded. *)
Lemma rejected_upscale_and_key_dialogue env env' env'' s base64 err err' m :
  ImageState.base64 (currentImage s) = Some base64 ->
  String.eqb base64 "" = false ->
  aistudio env = false -> aistudio env' = true ->
  message err = Some m ->
  includes "Requested entity was not found" m = true ->
  let out := runAlone (handleUpscale4K env s)
               [(Rejected err, env'); (Rejected err', env'')] s in
  mode (st (fst out)) = IDLE /\ error (st (fst out)) = None.
Proof.
  intros Hb Hne Ha Ha' Hm Hinc out. subst out.
  unfold runAlone, handleUpscale4K, upscale4K_call.
  rewrite Hb, Hne, Ha. cbn -[includes]. rewrite Ha', Hm, Hinc.
  split; reflexivity.
Qed.

(** The magic-hand erase ends in [ERROR] when its call is rejected. *)
Lemma rejected_erase_ends_in_error maskData env env' s base64 err :
  ImageState.base64 (currentImage s) = Some base64 ->
  String.eqb base64 "" = false ->
  magicCanvasRef_current s = true ->
  let out := runAlone (castMagicHand maskData env s) [(Rejected err, env')] s in
  mode (st (fst out)) = ERROR
  /\ error (st (fst out)) = Some (or_else (message err) "Magic Hand failed")
  /\ pending (fst out) = [].
Proof.
  intros Hb Hne Hc out. subst out. unfold runAlone, castMagicHand.
  rewrite Hb, Hne, Hc. repeat split; reflexivity.
Qed.

(** In [ERROR] with an empty result library, no control that is enabled
    changes the mode or fills the library. *)
Lemma handlers_keep_stuck e env s :
  stuckInError s -> enabled s e = true ->
  Always wellAnswered (preserves stuckInError) (handle e env s).
Proof.
  intros [Hm Hr] En.
  destruct e; cbn [handle]; cbn in En;
    unfold page, cropModal, zoomModal, isIdle, magicCanvasRef_current,
      sliderRef_current in En;
    rewrite ?Hm, ?Hr in En; cbn in En;
    rewrite ?andb_false_r in En; try discriminate En.
  all: try (apply handleFileUpload_always; intros; intros c Hc; exact Hc).
  all: unfold removeFromBatch, handleZoomMouseUp.
  all: repeat first [ always_step | intros c Hc; exact Hc ].
Qed.

(** C2: evaluation of the magic-hand erase.  A photo is uploaded, the mask
    painter opened and "Execute Erase" clicked; the service rejects the
    call.  The message is recorded, the mode is [ERROR] and no call is in
    flight.  Dismissing the banner clears the message and leaves the mode
    [ERROR]; thereafter no sequence of events, of any length, changes the
    mode: the coordinator does not return to [IDLE]. *)
Theorem failed_erase_never_returns_to_idle :
  exists c c',
    steps failedErase initialConfig = Some c
    /\ error (st c) = Some "API key not valid"
    /\ mode (st c) = ERROR
    /\ pending c = []
    /\ step (UI dismissError env0) c = Some c'
    /\ error (st c') = None
    /\ mode (st c') = ERROR
    /\ forall evs c'', steps evs c' = Some c'' -> mode (st c'') = ERROR.
Proof.
  eexists. eexists.
  split; [vm_compute; reflexivity|].
  split; [reflexivity|]. split; [reflexivity|]. split; [reflexivity|].
  split; [vm_compute; reflexivity|].
  split; [reflexivity|]. split; [reflexivity|].
  intros evs c'' Hsteps.
  eapply (steps_invariant stuckInError handlers_keep_stuck) in Hsteps.
  - destruct Hsteps as [[Hm _] _]. exact Hm.
  - split; reflexivity.
  - constructor.
Qed.

(* ================================================================== *)
(** * Properties: the batch queue                                      *)
(* ================================================================== *)

(** C8, as amended: a batch run followed from the click to its end, each
    call answered in turn, on a queue of three items not yet done; the call
    for the first succeeds, the call for the second is rejected, the call
    for the third succeeds.  At each point exactly one call is in flight,
    for the items in the order of the array, and the items after it are
    untouched; at the end the statuses are done, error, done, the second
    item carries the message of the rejection, the first and the third
    carry the message they had before the run, three calls were made and
    the mode is [IDLE]. *)
Theorem batch_continues_after_failure
    (env e1 e2 e3 : Env) (s : State) (i1 i2 i3 : BatchImage.t)
    (r1 r3 : string) (err : JsError) :
  batchQueue s = [i1; i2; i3] ->
  BatchImage.status i1 <> st_done ->
  BatchImage.status i2 <> st_done ->
  BatchImage.status i3 <> st_done ->
  let answers_ := [(Fulfilled r1, e1); (Rejected err, e2); (Fulfilled r3, e3)] in
  let run n := runAlone (handleBatchUpscale env s) (take n answers_) s in
  (inFlight (fst (run 0%nat)) = [upscaleFree (BatchImage.base64 i1)]
   /\ statuses (fst (run 0%nat))
      = [st_processing; BatchImage.status i2; BatchImage.status i3])
  /\ (inFlight (fst (run 1%nat)) = [upscaleFree (BatchImage.base64 i2)]
      /\ statuses (fst (run 1%nat))
         = [st_done; st_processing; BatchImage.status i3])
  /\ (inFlight (fst (run 2%nat)) = [upscaleFree (BatchImage.base64 i3)]
      /\ statuses (fst (run 2%nat)) = [st_done; st_error; st_processing])
  /\ inFlight (fst (run 3%nat)) = []
  /\ statuses (fst (run 3%nat)) = [st_done; st_error; st_done]
  /\ errors (fst (run 3%nat))
     = [BatchImage.error i1; message err; BatchImage.error i3]
  /\ snd (run 3%nat)
     = [upscaleFree (BatchImage.base64 i1);
        upscaleFree (BatchImage.base64 i2);
        upscaleFree (BatchImage.base64 i3)]
  /\ mode (st (fst (run 3%nat))) = IDLE.
Proof.
  intros Hq H1 H2 H3 answers_ run. subst run answers_.
  unfold runAlone, handleBatchUpscale, statuses, errors, inFlight. rewrite Hq.
  cbn -[bool_decide].
  rewrite (bool_decide_eq_false_2 _ H1). cbn -[bool_decide].
  rewrite (bool_decide_eq_false_2 _ H2). cbn -[bool_decide].
  rewrite (bool_decide_eq_false_2 _ H3). cbn -[bool_decide].
  repeat split; reflexivity.
Qed.

Lemma batch_continues_after_failure_witness :
  let answers_ :=
    [(Fulfilled "A", env0); (Rejected serviceDown, env0); (Fulfilled "C", env0)] in
  let run n := runAlone (handleBatchUpscale env0 threeQueued)
                 (take n answers_) threeQueued in
  (inFlight (fst (run 0%nat)) = [upscaleFree "a"]
   /\ statuses (fst (run 0%nat)) = [st_processing; st_idle; st_idle])
  /\ (inFlight (fst (run 1%nat)) = [upscaleFree "b"]
      /\ statuses (fst (run 1%nat)) = [st_done; st_processing; st_idle])
  /\ (inFlight (fst (run 2%nat)) = [upscaleFree "c"]
      /\ statuses (fst (run 2%nat)) = [st_done; st_error; st_processing])
  /\ inFlight (fst (run 3%nat)) = []
  /\ statuses (fst (run 3%nat)) = [st_done; st_error; st_done]
  /\ errors (fst (run 3%nat)) = [None; Some "API key not valid"; None]
  /\ snd (run 3%nat) = [upscaleFree "a"; upscaleFree "b"; upscaleFree "c"]
  /\ mode (st (fst (run 3%nat))) = IDLE.
Proof.
  apply (batch_continues_after_failure env0 env0 env0 env0 threeQueued
           (queued "a") (queued "b") (queued "c") "A" "C" serviceDown);
    first [reflexivity | discriminate].
Defined.

(** Counterexample to C8 as stated: three photos are uploaded and "Upscale
    All" is clicked; the three calls are rejected.  "Upscale All" is
    clicked again, and now the calls for the first and the third photo
    return an image and the call for the second is rejected.  The statuses
    are done, error, done, but the error message is not on the second item
    only: the first and the third, done, still carry the message of the
    first run.  The loop sets [error] on a rejection (line 306); no code
    clears it. *)
Lemma batch_retry_keeps_earlier_messages :
  exists c,
    steps retryAfterFailedBatch initialConfig = Some c
    /\ statuses c = [st_done; st_error; st_done]
    /\ errors c = [Some "API key not valid"; Some "Quota exceeded";
                   Some "API key not valid"]
    /\ errors c <> [None; Some "Quota exceeded"; None]
    /\ inFlight c = []
    /\ mode (st c) = IDLE.
Proof.
  eexists. split; [vm_compute; reflexivity|].
  split; [reflexivity|]. split; [reflexivity|].
  split; [discriminate|]. split; reflexivity.
Qed.

(** A second loop can be started while the first waits.  The call for the
    first photo has returned and the call for the second is in flight;
    "Crop" is clicked on the new entry of the result library and the crop
    is discarded, which takes the mode from [BATCH_PROCESSING] to [IDLE];
    "Upscale All", enabled again, starts a second loop, and two calls for
    the second photo are in flight at once. *)
Lemma second_batch_run_overlaps_first :
  exists c,
    steps secondRunDuringFirst initialConfig = Some c
    /\ statuses c = [st_done; st_processing; st_idle]
    /\ mode (st c) = BATCH_PROCESSING
    /\ inFlight c = [upscaleFree "data:image/png;base64,BBBB";
                     upscaleFree "data:image/png;base64,BBBB"].
Proof.
  eexists. split; [vm_compute; reflexivity|].
  repeat split; reflexivity.
Qed.

(* ================================================================== *)
(** * Properties: the zoom viewer                                      *)
(* ================================================================== *)

Section Zoom.
Local Open Scope Q_scope.

Lemma zoomWheel_bounds deltaY prev :
  0.5 <= zoomWheel (N:=Q) deltaY prev <= 10.
Proof.
  unfold zoomWheel. cbn -[Qmax Qmin]. split.
  - apply Q.le_max_l.
  - apply Q.max_lub; [vm_compute; discriminate|apply Q.le_min_l].
Qed.

Lemma zoomOutStep_bounds prev :
  0.5 <= prev <= 10 -> 0.5 <= zoomOutStep (N:=Q) prev <= 10.
Proof.
  intros [Hl Hu]. unfold zoomOutStep. cbn -[Qmax Qmin]. split.
  - apply Q.le_max_l.
  - apply Q.max_lub; [vm_compute; discriminate|].
    assert (E : inject_Z 5 / inject_Z 10 == 0.5) by reflexivity.
    rewrite E. lra.
Qed.

Lemma zoomInStep_bounds prev :
  0.5 <= prev <= 10 -> 0.5 <= zoomInStep (N:=Q) prev <= 10.
Proof.
  intros [Hl Hu]. unfold zoomInStep. cbn -[Qmax Qmin]. split.
  - apply Q.min_glb; [vm_compute; discriminate|].
    assert (E : inject_Z 5 / inject_Z 10 == 0.5) by reflexivity.
    rewrite E. lra.
  - apply Q.le_min_l.
Qed.

(** No update of any handler takes the zoom scale out of [0.5, 10]. *)
Lemma handlers_keep_zoom_in_bounds e env s :
  Always wellAnswered (preserves zoomInBounds) (handle e env s).
Proof.
  destruct e; cbn [handle];
    try (apply batchLoop_always || apply handleFileUpload_always);
    unfold handleGenerate, handleEdit, handleRemoveWatermark, castMagicHand,
      handleUpscale4K, upscale4K_call, handleBatchUpscale, startMagicHand,
      removeFromBatch, removeResult, handleComparisonMove, startZoom,
      handleZoomWheel, zoomOutClick, zoomResetClick, zoomInClick,
      handleZoomMouseDown, handleZoomMouseMove, handleZoomMouseUp, undoCrop,
      redoCrop, startCrop, updateCropBox, executeCrop, handleCropMouseMove.
  all: repeat first
         [ always_step
         | apply batchLoop_always
         | intros c Hc; exact Hc
         | intros; intros c Hc; exact Hc ].
  all: try (intros c Hc; unfold zoomInBounds in *;
            cbn -[Qmax Qmin zoomWheel zoomOutStep zoomInStep];
            first [ apply zoomWheel_bounds
                  | apply zoomOutStep_bounds; exact Hc
                  | apply zoomInStep_bounds; exact Hc
                  | split; vm_compute; discriminate ]).
Qed.

(** In every reachable state the zoom scale lies in [0.5, 10]. *)
Lemma zoom_scale_in_bounds c : reachable c -> zoomInBounds (st c).
Proof.
  intros [evs Hsteps].
  eapply (steps_invariant zoomInBounds) in Hsteps.
  - exact (proj1 Hsteps).
  - intros e env s _ _. apply handlers_keep_zoom_in_bounds.
  - split; vm_compute; discriminate.
  - constructor.
Qed.

(** The same for any sequence of zoom inputs run from a state within the
    bounds. *)
Lemma zoomInputs_in_bounds env inputs :
  forall s, zoomInBounds s -> zoomInBounds (zoomInputs env inputs s).
Proof.
  unfold zoomInputs.
  induction inputs as [|i inputs IH]; intros s Hs; cbn; [exact Hs|].
  apply IH. unfold after.
  apply (exec_preserves wellAnswered zoomInBounds _
           (handlers_keep_zoom_in_bounds (zoomEvent i) env s)
           (mkConfig s [])).
  exact Hs.
Qed.

(** Opening the viewer sets the scale to 1 and the translation to (0, 0). *)
Lemma startZoom_resets env s :
  hasImage s = true ->
  zoomScale (after (startZoom env) s) = 1
  /\ zoomTranslate (after (startZoom env) s) = Point.mk 0 0
  /\ mode (after (startZoom env) s) = ZOOMING.
Proof.
  intros Hi. unfold after, startZoom. unfold hasImage in Hi. rewrite Hi.
  repeat split; reflexivity.
Qed.

(** C5: evaluation of the "Reset" button.  A photo is uploaded and the
    viewer opened; after one step in (scale 1.5) the image is dragged by
    (10, 10), and "Reset" is clicked.  The scale is 1 and within the bounds,
    but the translation is still (10, 10), not (0, 0); and with the scale
    at 1 a press on the viewport starts no pan. *)
Theorem zoom_reset_keeps_translation :
  exists c,
    steps panThenReset initialConfig = Some c
    /\ mode (st c) = ZOOMING
    /\ zoomScale (st c) = 1
    /\ zoomInBounds (st c)
    /\ Point.x (zoomTranslate (st c)) == 10
    /\ Point.y (zoomTranslate (st c)) == 10
    /\ ~ Point.x (zoomTranslate (st c)) == 0
    /\ isPanning (after (handleZoomMouseDown env0) (st c)) = false.
Proof.
  eexists. split; [vm_compute; reflexivity|].
  vm_compute. repeat split; try reflexivity; try discriminate;
    intros; discriminate.
Qed.
End Zoom.

(* ================================================================== *)
(** * Properties: the mode coordinator                                 *)
(* ================================================================== *)

(** The mode is one cell: crop, zoom and mask painting exclude each
    other. *)
Lemma modes_exclusive c :
  (Nat.b2n (cropActive c) + Nat.b2n (zoomActive c) + Nat.b2n (maskActive c)
   <= 1)%nat.
Proof.
  unfold cropActive, zoomActive, maskActive.
  destruct (mode (st c)); vm_compute; lia.
Qed.

(** The zoom viewer, the mask painter and the crop of the current image
    are entered from [IDLE] only. *)
Lemma gated_entries_need_idle s e :
  e = clickZoom \/ e = clickMagicHand \/ e = clickAdvancedCrop ->
  enabled s e = true -> mode s = IDLE.
Proof.
  intros [-> | [-> | ->]] En; cbn in En; unfold isIdle in En;
    repeat (apply andb_prop in En; destruct En as [En ?]);
    repeat match goal with
           | H : bool_decide _ = true |- _ => apply bool_decide_eq_true_1 in H
           end; assumption.
Qed.

(** C1: evaluation of the "Crop" button of the result library.  After an
    upscale has put an entry in the library, "Generate" is clicked: the mode
    is [GENERATING] and the call to the service is in flight.  The "Crop"
    button of the library entry is enabled in that state; clicking it runs
    [startCrop], which sets the mode to [CROPPING] without looking at the
    mode it replaces.  In the resulting state the crop engine is active
    while the external call is still pending. *)
Theorem crop_entered_while_call_pending :
  exists c c',
    steps generateAfterUpscale initialConfig = Some c
    /\ mode (st c) = GENERATING
    /\ inFlight c = [generateImage "a banana"]
    /\ enabled (st c) (clickCropResult 0) = true
    /\ step (UI (clickCropResult 0) env0) c = Some c'
    /\ reachable c'
    /\ mode (st c') = CROPPING
    /\ cropActive c' = true
    /\ callPending c' = true
    /\ activities c' = 2%nat.
Proof.
  eexists. eexists.
  split; [vm_compute; reflexivity|].
  split; [reflexivity|]. split; [reflexivity|]. split; [reflexivity|].
  split; [vm_compute; reflexivity|].
  split.
  { exists (generateAfterUpscale ++ [UI (clickCropResult 0) env0])%list.
    vm_compute. reflexivity. }
  repeat split; reflexivity.
Qed.

(* ================================================================== *)
(** * Properties: the comparison slider, the crop box moved by its
      centre, and the zoom drag                                        *)
(* ================================================================== *)

Section CropBoxProperties.
Local Open Scope Q_scope.

Lemma clampQ lo hi v : lo <= hi -> lo <= Qmax lo (Qmin hi v) <= hi.
Proof.
  intros H. split; [apply Q.le_max_l|].
  apply Q.max_lub; [exact H|apply Q.le_min_l].
Qed.

Lemma clampQ_in lo hi v : lo <= v <= hi -> Qmax lo (Qmin hi v) == v.
Proof.
  intros [H1 H2]. rewrite (Q.min_r hi v) by exact H2. apply Q.max_r. exact H1.
Qed.

Lemma clampQ_below lo hi v : lo <= hi -> v <= lo -> Qmax lo (Qmin hi v) == lo.
Proof.
  intros H H1. apply Q.max_l. apply Qle_trans with v; [apply Q.le_min_r|exact H1].
Qed.

Lemma clampQ_above lo hi v : lo <= hi -> hi <= v -> Qmax lo (Qmin hi v) == hi.
Proof.
  intros H H1. rewrite (Q.min_l hi v) by exact H1. apply Q.max_r. exact H.
Qed.

(** X1: [handleComparisonMove] keeps the divider within the slider: the
    position is a percentage between 0 and 100, it is 0 left of the slider
    and 100 right of it, and between the two it is the pointer's share of
    the slider's width (numbers taken as exact rationals). *)
Theorem comparison_position_clamped clientX rectLeft rectWidth :
  0 < rectWidth ->
  let p := comparisonPosition (N:=Q) clientX rectLeft rectWidth in
  0 <= p <= 100
  /\ (clientX <= rectLeft -> p == 0)
  /\ (rectLeft + rectWidth <= clientX -> p == 100)
  /\ (rectLeft <= clientX <= rectLeft + rectWidth ->
      p == (clientX - rectLeft) / rectWidth * 100).
Proof.
  intros Hw p. subst p. unfold comparisonPosition. cbn -[Qmax Qmin]. cbv [inject_Z].
  set (pos := (clientX - rectLeft) / rectWidth * 100).
  assert (Hpos : pos * rectWidth == (clientX - rectLeft) * 100).
  { subst pos. field. lra. }
  split; [apply clampQ; lra|].
  split; [|split].
  - intros H. apply clampQ_below; [lra|]. nra.
  - intros H. apply clampQ_above; [lra|]. nra.
  - intros [H1 H2]. apply clampQ_in. split; nra.
Qed.

Lemma comparison_position_clamped_witness :
  0 <= comparisonPosition (N:=Q) 150 100 200 <= 100.
Proof.
  refine (proj1 (comparison_position_clamped 150 100 200 _)). reflexivity.
Defined.

(** X2: dragging the crop box by its centre ([handleCropMouseMove], handle
    'center') never moves it out of the container, whatever the pointer
    position, and puts the centre under the pointer when the box fits
    there. *)
Theorem move_keeps_box_inside size mx my :
  0 <= Size.w size <= 100 -> 0 <= Size.h size <= 100 ->
  let pos := moveCropBox size mx my in
  insideCanvas pos size
  /\ (Size.w size / 2 <= mx <= 100 - Size.w size / 2 -> Point.x pos == mx)
  /\ (Size.h size / 2 <= my <= 100 - Size.h size / 2 -> Point.y pos == my).
Proof.
  intros Hw Hh pos. subst pos. unfold moveCropBox, insideCanvas.
  cbn -[Qmax Qmin]. cbv [inject_Z].
  qminmax. repeat split; intros; qcases; qdiv; lra.
Qed.

Lemma move_keeps_box_inside_witness :
  insideCanvas (moveCropBox (Size.mk 40 40) 10 95) (Size.mk 40 40).
Proof.
  refine (proj1 (move_keeps_box_inside (Size.mk 40 40) 10 95 _ _));
    cbn; lra.
Defined.

End CropBoxProperties.

Lemma moves_while_panning env moves :
  forall s, isPanning s = true ->
    zoomTranslate (mouseMoves env moves s) = fold_left movedBy moves (zoomTranslate s)
    /\ isPanning (mouseMoves env moves s) = true
    /\ zoomScale (mouseMoves env moves s) = zoomScale s
    /\ mode (mouseMoves env moves s) = mode s.
Proof.
  unfold mouseMoves.
  induction moves as [|m moves IH]; intros s Hp; cbn [fold_left].
  - auto.
  - set (s1 := after (handle (zoomMouseMove (fst m) (snd m)) env) s).
    assert (H1 : zoomTranslate s1 = movedBy (zoomTranslate s) m
                 /\ isPanning s1 = true /\ zoomScale s1 = zoomScale s
                 /\ mode s1 = mode s).
    { subst s1. unfold after. cbn [handle]. unfold handleZoomMouseMove.
      rewrite Hp. cbn. auto. }
    destruct H1 as (Ht & Hp1 & Hz & Hm). clearbody s1.
    destruct (IH s1 Hp1) as (Ht' & Hp' & Hz' & Hm').
    rewrite Ht', Hp', Hz', Hm', Ht, Hz, Hm. auto.
Qed.

Lemma moves_without_panning env moves :
  forall s, isPanning s = false -> mouseMoves env moves s = s.
Proof.
  unfold mouseMoves.
  induction moves as [|m moves IH]; intros s Hp; cbn [fold_left]; [reflexivity|].
  assert (H1 : after (handle (zoomMouseMove (fst m) (snd m)) env) s = s).
  { unfold after. cbn [handle]. unfold handleZoomMouseMove. rewrite Hp. reflexivity. }
  rewrite H1. apply IH. exact Hp.
Qed.

(** X8: a drag in the zoom viewer ([handleZoomMouseDown], then
    [handleZoomMouseMove] for each movement).  When a pan is under way at
    the press ([isPanning] is true) or the scale is above 1, every movement
    is added to the translation, in order; the scale and the mode are
    unchanged.  When no pan is under way and the scale is 1 or less, the
    drag changes nothing. *)
Theorem zoom_drag_pans_when_pressed_or_magnified env moves s :
  let s' := zoomDrag env moves s in
  (isPanning s = true \/ (1 < zoomScale s)%Q ->
     zoomTranslate s' = fold_left movedBy moves (zoomTranslate s)
     /\ isPanning s' = true /\ zoomScale s' = zoomScale s /\ mode s' = mode s)
  /\ (isPanning s = false -> (zoomScale s <= 1)%Q -> s' = s).
Proof.
  cbv zeta. unfold zoomDrag.
  split.
  - intros Hs.
    set (s0 := after (handle zoomMouseDown env) s).
    assert (H0 : zoomTranslate s0 = zoomTranslate s /\ isPanning s0 = true
                 /\ zoomScale s0 = zoomScale s /\ mode s0 = mode s).
    { subst s0. unfold after. cbn [handle]. unfold handleZoomMouseDown.
      destruct (nltb_Q_spec 1 (zoomScale s)) as [_|Hge].
      - cbn. auto.
      - destruct Hs as [Hp|Hlt]; [cbn; auto|lra]. }
    destruct H0 as (Ht & Hp & Hz & Hm). clearbody s0.
    destruct (moves_while_panning env moves s0 Hp) as (Ht' & Hp' & Hz' & Hm').
    rewrite Ht', Hp', Hz', Hm', Ht, Hz, Hm. auto.
  - intros Hp Hz.
    assert (Hd : after (handle zoomMouseDown env) s = s).
    { unfold after. cbn [handle]. unfold handleZoomMouseDown.
      destruct (nltb_Q_spec 1 (zoomScale s)) as [Hlt|_]; [lra|reflexivity]. }
    rewrite Hd. apply moves_without_panning. exact Hp.
Qed.

Lemma zoom_drag_pans_when_pressed_or_magnified_witness :
  zoomTranslate (zoomDrag env0 [(10, 5); (-3, 2)]%Q (setIsPanning true initialState))
  = fold_left movedBy [(10, 5); (-3, 2)]%Q
      (zoomTranslate (setIsPanning true initialState)).
Proof.
  refine (proj1 (proj1 (zoom_drag_pans_when_pressed_or_magnified env0
                          [(10, 5); (-3, 2)]%Q (setIsPanning true initialState)) _)).
  left. reflexivity.
Defined.

(* ================================================================== *)
(** * Properties: invariants of the reachable states                   *)
(* ================================================================== *)

Lemma Always_Registers ok P p : Always ok P p -> Registers ok P p.
Proof. induction 1; constructor; auto. Qed.

Lemma exec_registers ok P p :
  Registers ok P p -> forall c, AlwaysPending ok P c -> AlwaysPending ok P (exec p c).
Proof.
  induction 1 as [|f k Hk IH|r k rest Hk Hrest IHrest]; intros c Hc; cbn.
  - exact Hc.
  - apply IH. exact Hc.
  - apply IHrest. unfold AlwaysPending in *. cbn.
    apply Forall_app. split; [exact Hc|]. constructor; [|constructor].
    cbn. exact Hk.
Qed.

Lemma exec_st p : forall c, st (exec p c) = st (exec p (mkConfig (st c) [])).
Proof.
  induction p as [|f k IH|r k _ rest IH]; intros c; cbn.
  - reflexivity.
  - rewrite IH. symmetry. rewrite IH. reflexivity.
  - rewrite IH. symmetry. rewrite IH. reflexivity.
Qed.

(** An invariant that the handlers maintain as a whole, when they run, and
    in each update of the code they leave waiting. *)

Section HandlerInvariant.
Variable I : State -> Prop.
Hypothesis run : forall e env s, I s -> enabled s e = true -> I (after (handle e env) s).
Hypothesis later : forall e env s, I s -> enabled s e = true ->
  Registers wellAnswered (preserves I) (handle e env s).

Lemma step_handler_invariant ev c c' :
  I (st c) -> AlwaysPending wellAnswered (preserves I) c ->
  step ev c = Some c' ->
  I (st c') /\ AlwaysPending wellAnswered (preserves I) c'.
Proof using run later.
  intros Hc Hp Hstep. destruct ev as [e env|n a env]; cbn in Hstep.
  - destruct (enabled (st c) e) eqn:En; [|discriminate].
    injection Hstep as <-. split.
    + rewrite exec_st. apply (run e env (st c) Hc En).
    + apply (exec_registers wellAnswered); auto.
  - destruct (pending c !! n) as [[r k]|] eqn:Hn; [|discriminate].
    destruct (answers r a) eqn:Ha; [|discriminate].
    injection Hstep as <-.
    assert (Hk : Always wellAnswered (preserves I) (k env a)).
    { unfold AlwaysPending in Hp. rewrite Forall_lookup in Hp.
      apply (Hp n (r, k) Hn). exact Ha. }
    split.
    + apply (exec_preserves wellAnswered); auto.
    + apply exec_pending; auto. unfold AlwaysPending in *. cbn.
      apply Forall_delete. exact Hp.
Qed.

Lemma steps_handler_invariant evs :
  forall c c',
    I (st c) -> AlwaysPending wellAnswered (preserves I) c ->
    steps evs c = Some c' ->
    I (st c') /\ AlwaysPending wellAnswered (preserves I) c'.
Proof using run later.
  induction evs as [|ev evs IH]; intros c c' Hc Hp Hs; cbn in Hs.
  - injection Hs as <-. auto.
  - destruct (step ev c) as [c1|] eqn:H1; [|discriminate].
    destruct (step_handler_invariant ev c c1 Hc Hp H1) as [Hc1 Hp1].
    eapply IH; eauto.
Qed.
End HandlerInvariant.

(** What holds of every update of every handler holds of the code waiting
    in a reachable configuration. *)

Section PendingCode.
Variable P : (State -> State) -> Prop.
Hypothesis handlers : forall e env s, Always wellAnswered P (handle e env s).

Lemma steps_pending evs :
  forall c c', AlwaysPending wellAnswered P c -> steps evs c = Some c' ->
    AlwaysPending wellAnswered P c'.
Proof using handlers.
  induction evs as [|ev evs IH]; intros c c' Hp Hs; cbn in Hs.
  - injection Hs as <-. exact Hp.
  - destruct (step ev c) as [c1|] eqn:H1; [|discriminate].
    apply (IH c1 c'); [|exact Hs].
    destruct ev as [e env|n a env]; cbn in H1.
    + destruct (enabled (st c) e); [|discriminate]. injection H1 as <-.
      apply exec_pending; auto.
    + destruct (pending c !! n) as [[r k]|] eqn:Hn; [|discriminate].
      destruct (answers r a) eqn:Ha; [|discriminate]. injection H1 as <-.
      apply exec_pending.
      * unfold AlwaysPending in Hp. rewrite Forall_lookup in Hp.
        apply (Hp n (r, k) Hn). exact Ha.
      * unfold AlwaysPending in *. cbn. apply Forall_delete. exact Hp.
Qed.

Lemma reachable_pending c : reachable c -> AlwaysPending wellAnswered P c.
Proof using handlers.
  intros [evs Hs]. apply (steps_pending evs initialConfig c); [constructor|exact Hs].
Qed.
End PendingCode.

Lemma keepsCropHistory_preserves f :
  keepsCropHistory f -> preserves historyIndexValid f.
Proof.
  intros Hf c Hc. unfold historyIndexValid in *. destruct (Hf c) as [-> ->]. exact Hc.
Qed.

Lemma Always_mono ok (P Q : (State -> State) -> Prop) p :
  (forall f, P f -> Q f) -> Always ok P p -> Always ok Q p.
Proof. intros HPQ. induction 1; constructor; auto. Qed.

Lemma other_handlers_keep_crop_history e env s :
  touchesCropHistory e = false ->
  Always wellAnswered keepsCropHistory (handle e env s).
Proof.
  intros He. destruct e; try discriminate He; cbn [handle];
    try (apply batchLoop_always || apply handleFileUpload_always);
    unfold handleGenerate, handleEdit, handleRemoveWatermark, castMagicHand,
      handleUpscale4K, upscale4K_call, handleBatchUpscale, startMagicHand,
      removeFromBatch, removeResult, handleComparisonMove, startZoom,
      handleZoomWheel, zoomOutClick, zoomResetClick, zoomInClick,
      handleZoomMouseDown, handleZoomMouseMove, handleZoomMouseUp,
      executeCrop, handleCropMouseMove.
  all: repeat first
         [ always_step
         | apply batchLoop_always
         | intros c; split; reflexivity
         | intros; intros c; split; reflexivity ].
Qed.

Lemma slice0_length {A} (l : list A) (i : Z) :
  (-1 <= i < Z.of_nat (length l))%Z ->
  slice0 l (i + 1) = take (Z.to_nat (i + 1)) l
  /\ length (slice0 l (i + 1)) = Z.to_nat (i + 1).
Proof.
  intros Hi. unfold slice0. destruct (Z.ltb_spec (i + 1) 0); [lia|].
  split; [reflexivity|]. rewrite length_take. lia.
Qed.

Lemma crop_handlers_keep_index_valid e env s :
  touchesCropHistory e = true ->
  historyIndexValid s -> historyIndexValid (after (handle e env) s)
  /\ Registers wellAnswered (preserves historyIndexValid) (handle e env s).
Proof.
  intros He Hs. unfold historyIndexValid, after in *.
  destruct e; try discriminate He; cbn [handle].
  - (* advanced crop *)
    unfold startCrop. destruct (ImageState.base64 _) as [b|]; [|split; [exact Hs|constructor]].
    destruct (String.eqb b ""); [split; [exact Hs|constructor]|].
    split; [cbn; lia|repeat constructor].
  - destruct (results s !! i) as [res|]; [|split; [exact Hs|constructor]].
    unfold startCrop.
    destruct (String.eqb _ ""); [split; [exact Hs|constructor]|].
    split; [cbn; lia|repeat constructor].
  - unfold undoCrop. destruct (Z.ltb_spec 0 (cropHistoryIndex s)); [|split; [exact Hs|constructor]].
    destruct (at_index _ _); [|split; [exact Hs|constructor]].
    split; [cbn; lia|repeat constructor].
  - unfold redoCrop.
    destruct (Z.ltb_spec (cropHistoryIndex s) (Z.of_nat (length (cropHistory s)) - 1)); [|split; [exact Hs|constructor]].
    destruct (at_index _ _); [|split; [exact Hs|constructor]].
    split; [cbn; lia|repeat constructor].
  - unfold updateCropBox, pushCropHistory. split; [|repeat constructor].
    cbn. rewrite length_app. cbn. lia.
Qed.

(** In every reachable state the index of the undo history is -1 or the
    position of an entry. *)

Theorem reachable_history_index_valid c :
  reachable c -> historyIndexValid (st c).
Proof.
  intros [evs Hsteps].
  eapply (steps_handler_invariant historyIndexValid) in Hsteps.
  - exact (proj1 Hsteps).
  - intros e env s Hs _. destruct (touchesCropHistory e) eqn:He.
    + apply crop_handlers_keep_index_valid; assumption.
    + unfold after.
      apply (exec_preserves wellAnswered historyIndexValid); [|exact Hs].
      eapply Always_mono; [apply keepsCropHistory_preserves|].
      apply other_handlers_keep_crop_history. exact He.
  - intros e env s Hs _. destruct (touchesCropHistory e) eqn:He.
    + apply crop_handlers_keep_index_valid; assumption.
    + apply Always_Registers. eapply Always_mono; [apply keepsCropHistory_preserves|].
      apply other_handlers_keep_crop_history. exact He.
  - unfold historyIndexValid. cbn. lia.
  - constructor.
Qed.

Lemma at_index_valid {A} (l : list A) (i : Z) :
  (0 <= i < Z.of_nat (length l))%Z -> is_Some (at_index l i).
Proof.
  intros Hi. unfold at_index. destruct (Z.ltb_spec i 0); [lia|].
  apply lookup_lt_is_Some_2. lia.
Qed.

(** X9: in every reachable state in which the undo button is enabled the
    history has an entry before the current one, and when the redo button
    is enabled it has one after it: [undoCrop] and [redoCrop] never read an
    entry that does not exist. *)
Theorem undo_and_redo_find_their_entry c :
  reachable c ->
  (enabled (st c) clickUndo = true ->
     is_Some (at_index (cropHistory (st c)) (cropHistoryIndex (st c) - 1)))
  /\ (enabled (st c) clickRedo = true ->
     is_Some (at_index (cropHistory (st c)) (cropHistoryIndex (st c) + 1))).
Proof.
  intros Hr. pose proof (reachable_history_index_valid c Hr) as Hv.
  unfold historyIndexValid in Hv. cbn [enabled].
  split; intros [_ He]%andb_true_iff; apply negb_true_iff in He;
    apply at_index_valid.
  - destruct (Z.leb_spec (cropHistoryIndex (st c)) 0); [discriminate|lia].
  - destruct (Z.leb_spec (Z.of_nat (length (cropHistory (st c))) - 1)
                (cropHistoryIndex (st c))); [discriminate|lia].
Qed.

Lemma undo_and_redo_find_their_entry_witness :
  is_Some (at_index (cropHistory (st (stateOf dragAfterRatio)))
             (cropHistoryIndex (st (stateOf dragAfterRatio)) - 1)).
Proof.
  refine (proj1 (undo_and_redo_find_their_entry (stateOf dragAfterRatio) _) _).
  - exists dragAfterRatio. vm_compute. reflexivity.
  - vm_compute. reflexivity.
Defined.

(** X10: after an undo, a redo or a click on a ratio button, the crop box
    shown is the entry of the history at the current index. *)
Theorem history_action_leaves_box_in_sync c e env :
  reachable c -> historyAction e = true -> enabled (st c) e = true ->
  let s' := after (handle e env) (st c) in
  at_index (cropHistory s') (cropHistoryIndex s') = Some (liveRegion s').
Proof.
  intros Hr Ha He. pose proof (reachable_history_index_valid c Hr) as Hv.
  unfold historyIndexValid in Hv.
  destruct e; try discriminate Ha; cbn [enabled] in He;
    try (apply andb_true_iff in He as [_ He]; apply negb_true_iff in He);
    cbv zeta; unfold after; cbn [handle].
  - (* undo *)
    destruct (Z.leb_spec (cropHistoryIndex (st c)) 0) as [|Hpos]; [discriminate|].
    destruct (at_index_valid (cropHistory (st c)) (cropHistoryIndex (st c) - 1))
      as [prev Hprev]; [lia|].
    unfold undoCrop. destruct (Z.ltb_spec 0 (cropHistoryIndex (st c))); [|lia].
    rewrite Hprev. cbn. rewrite Hprev. destruct prev; reflexivity.
  - (* redo *)
    destruct (Z.leb_spec (Z.of_nat (length (cropHistory (st c))) - 1)
                (cropHistoryIndex (st c))) as [|Hlt]; [discriminate|].
    destruct (at_index_valid (cropHistory (st c)) (cropHistoryIndex (st c) + 1))
      as [next Hnext]; [lia|].
    unfold redoCrop.
    destruct (Z.ltb_spec (cropHistoryIndex (st c))
                (Z.of_nat (length (cropHistory (st c))) - 1)); [|lia].
    rewrite Hnext. cbn. rewrite Hnext. destruct next; reflexivity.
  - (* a ratio button *)
    unfold updateCropBox, pushCropHistory. cbn.
    unfold at_index. rewrite length_app. cbn [length].
    destruct (Z.ltb_spec (Z.of_nat (length (slice0 (cropHistory (st c))
                                          (cropHistoryIndex (st c) + 1)) + 1) - 1) 0);
      [lia|].
    replace (Z.to_nat _) with
      (length (slice0 (cropHistory (st c)) (cropHistoryIndex (st c) + 1)) + 0)%nat
      by lia.
    rewrite lookup_app_r by lia.
    replace (_ + 0 - _)%nat with 0%nat by lia. reflexivity.
Qed.

Lemma history_action_leaves_box_in_sync_witness :
  at_index
    (cropHistory (after (handle clickUndo env0) (st (stateOf dragAfterRatio))))
    (cropHistoryIndex (after (handle clickUndo env0) (st (stateOf dragAfterRatio))))
  = Some (liveRegion (after (handle clickUndo env0) (st (stateOf dragAfterRatio)))).
Proof.
  apply (history_action_leaves_box_in_sync (stateOf dragAfterRatio) clickUndo env0).
  - exists dragAfterRatio. vm_compute. reflexivity.
  - reflexivity.
  - vm_compute. reflexivity.
Defined.

(** X11: a click on a ratio button ([updateCropBox], [pushCropHistory])
    keeps the history up to the current index, appends the new box, moves
    the index to it, and leaves nothing to redo. *)
Theorem ratio_change_discards_redo_tail c ratio env :
  reachable c -> enabled (st c) (clickRatio ratio) = true ->
  let s' := after (handle (clickRatio ratio) env) (st c) in
  cropHistory s'
    = (take (Z.to_nat (cropHistoryIndex (st c) + 1)) (cropHistory (st c))
       ++ [liveRegion s'])%list
  /\ cropHistoryIndex s' = (cropHistoryIndex (st c) + 1)%Z
  /\ enabled s' clickRedo = false.
Proof.
  intros Hr He. pose proof (reachable_history_index_valid c Hr) as Hv.
  unfold historyIndexValid in Hv.
  destruct (slice0_length (cropHistory (st c)) (cropHistoryIndex (st c)) Hv)
    as [Hs Hl].
  cbv zeta. unfold after. cbn [handle]. unfold updateCropBox, pushCropHistory.
  cbn [exec st pending cropHistory cropHistoryIndex setCropHistory
       setCropHistoryIndex setCropRatio setCropSize setCropPos liveRegion
       cropPos cropSize cropRatio enabled cropModal mode].
  rewrite length_app, Hl, Hs. cbn [length].
  split; [reflexivity|split; [lia|]].
  apply andb_false_iff. right. apply negb_false_iff.
  apply Z.leb_le. lia.
Qed.

Lemma ratio_change_discards_redo_tail_witness :
  enabled (after (handle (clickRatio R9_16) env0) (st (stateOf dragAfterRatio)))
    clickRedo = false.
Proof.
  refine (proj2 (proj2 (ratio_change_discards_redo_tail (stateOf dragAfterRatio)
                          R9_16 env0 _ _))).
  - exists dragAfterRatio. vm_compute. reflexivity.
  - vm_compute. reflexivity.
Defined.

Lemma handlers_keep_handle_pressed e env s :
  Always wellAnswered (preserves handlePressed) (handle e env s).
Proof.
  destruct e; cbn [handle];
    try (apply batchLoop_always || apply handleFileUpload_always);
    unfold_handlers.
  all: repeat first
         [ always_step
         | apply batchLoop_always
         | intros c Hc; exact Hc
         | intros; intros c Hc; exact Hc
         | intros c Hc; discriminate ].
Qed.

(** X12: once a handle of the crop box has been pressed, no sequence of
    events sets [activeHandle] back to [null]: [handleHandleUp], the only
    code that does, is bound to no element, and [startCrop] does not reset
    it.  The box goes on following the pointer after the button is
    released, also in later crop sessions. *)
Theorem pressed_handle_is_never_released c evs c' :
  reachable c -> activeHandle (st c) <> None ->
  steps evs c = Some c' ->
  activeHandle (st c') <> None.
Proof.
  intros Hr Hc Hs.
  eapply (steps_invariant handlePressed) in Hs.
  - exact (proj1 Hs).
  - intros e env s _ _. apply handlers_keep_handle_pressed.
  - exact Hc.
  - apply reachable_pending; [|exact Hr]. apply handlers_keep_handle_pressed.
Qed.

Lemma pressed_handle_is_never_released_witness :
  exists c',
    steps [UI mouseUp env0; UI clickDiscardCrop env0; UI clickAdvancedCrop env0]
      (stateOf dragAfterRatio) = Some c'
    /\ activeHandle (st c') <> None.
Proof.
  eexists. split; [vm_compute; reflexivity|].
  eapply (pressed_handle_is_never_released (stateOf dragAfterRatio)
            [UI mouseUp env0; UI clickDiscardCrop env0; UI clickAdvancedCrop env0]).
  - exists dragAfterRatio. vm_compute. reflexivity.
  - vm_compute. discriminate.
  - vm_compute. reflexivity.
Defined.

Lemma handlers_keep_history_capped e env s :
  Always wellAnswered (preserves historyCapped) (handle e env s).
Proof.
  destruct e; cbn [handle];
    try (apply batchLoop_always || apply handleFileUpload_always);
    unfold_handlers.
  all: repeat first
         [ always_step
         | apply batchLoop_always
         | intros c Hc; exact Hc
         | intros; intros c Hc; exact Hc
         | intros c Hc; unfold historyCapped; cbn [history setHistory];
           first [ rewrite length_take; lia | cbn; lia ] ].
Qed.

(** X13: the session history never holds more than 20 entries
    ([addToHistory] keeps the 20 latest). *)
Theorem session_history_capped c :
  reachable c -> (length (history (st c)) <= 20)%nat.
Proof.
  intros [evs Hs].
  eapply (steps_invariant historyCapped) in Hs.
  - exact (proj1 Hs).
  - intros e env s _ _. apply handlers_keep_history_capped.
  - unfold historyCapped. cbn. lia.
  - constructor.
Qed.

Lemma session_history_capped_witness :
  (length (history (st (stateOf failedErase))) <= 20)%nat.
Proof.
  apply (session_history_capped (stateOf failedErase)).
  exists failedErase. vm_compute. reflexivity.
Defined.

Lemma or_else_text a b : b <> ""%string -> or_else a b <> ""%string.
Proof.
  intros Hb. destruct a as [x|]; cbn; [|exact Hb].
  destruct (String.eqb_spec x ""); [exact Hb|assumption].
Qed.

Lemma handlers_keep_error_text e env s :
  Always wellAnswered (preserves errorHasText) (handle e env s).
Proof.
  destruct e; cbn [handle];
    try (apply batchLoop_always || apply handleFileUpload_always);
    unfold_handlers.
  all: repeat first
         [ always_step
         | apply batchLoop_always
         | intros c Hc; exact Hc
         | intros; intros c Hc; exact Hc
         | intros c Hc; unfold errorHasText; cbn [error setError];
           first [ discriminate
                 | intros [= Hx]; revert Hx; apply or_else_text; discriminate ] ].
Qed.

(** X14: in every reachable state the error is [null] or a message that is
    not empty: each [catch] block records [err.message] or, when that is
    missing or empty, its own text. *)
Theorem recorded_error_has_text c :
  reachable c -> error (st c) <> Some ""%string.
Proof.
  intros [evs Hs].
  eapply (steps_invariant errorHasText) in Hs.
  - exact (proj1 Hs).
  - intros e env s _ _. apply handlers_keep_error_text.
  - unfold errorHasText. cbn. discriminate.
  - constructor.
Qed.

Lemma recorded_error_has_text_witness :
  reachable (stateOf failedErase)
  /\ error (st (stateOf failedErase)) <> Some "".
Proof.
  assert (Hr : reachable (stateOf failedErase)).
  { exists failedErase. vm_compute. reflexivity. }
  split; [exact Hr|].
  exact (recorded_error_has_text (stateOf failedErase) Hr).
Defined.

(* ================================================================== *)
(** * Properties: the operations on the current image                  *)
(* ================================================================== *)



(** X16: when the service returns an image, [handleEdit],
    [handleRemoveWatermark] and [castMagicHand] show it, keep the image
    shown before as the 'before' image, switch comparison on and return to
    [IDLE]; the queue and the result library are unchanged, and only
    [handleRemoveWatermark] clears the error. *)
Theorem edit_success_keeps_before_image op env env' s result :
  editReady op s = true ->
  let out := fst (runAlone (runEdit op env s) [(Fulfilled result, env')] s) in
  ImageState.url (currentImage (st out)) = Some result
  /\ ImageState.base64 (currentImage (st out)) = Some result
  /\ ImageState.beforeUrl (currentImage (st out)) = ImageState.url (currentImage s)
  /\ ImageState.upscaleType (currentImage (st out))
     = ImageState.upscaleType (currentImage s)
  /\ isComparing (st out) = true
  /\ mode (st out) = IDLE
  /\ error (st out) = match op with editWatermark => None | _ => error s end
  /\ batchQueue (st out) = batchQueue s /\ results (st out) = results s
  /\ pending out = [].
Proof.
  intros Hr out. subst out. unfold editReady, truthy in Hr.
  destruct (ImageState.base64 (currentImage s)) as [b|] eqn:Hb; [|discriminate].
  apply andb_prop in Hr. destruct Hr as [Hne Hop].
  apply negb_true_iff in Hne.
  destruct op; cbn [runEdit]; unfold runAlone, handleEdit, handleRemoveWatermark, castMagicHand;
    rewrite Hb, Hne.
  - apply negb_true_iff in Hop. rewrite Hop. repeat split; reflexivity.
  - repeat split; reflexivity.
  - rewrite Hop. repeat split; reflexivity.
Qed.

Lemma edit_success_keeps_before_image_witness :
  ImageState.beforeUrl
    (currentImage
       (st (fst (runAlone (runEdit editPrompt env0 prompted)
                   [(Fulfilled "data:image/png;base64,SKY", env0)] prompted))))
  = ImageState.url (currentImage prompted).
Proof.
  refine (proj1 (proj2 (proj2 (edit_success_keeps_before_image editPrompt env0 env0
                                 prompted "data:image/png;base64,SKY" _)))).
  vm_compute. reflexivity.
Defined.

(** X17: when the service returns an image ([window.aistudio] being
    absent), [handleUpscale4K] shows it as a 4K image with the former image
    as 'before', puts it first in the result library and returns to
    [IDLE]; the button 'Upgrade Pro 4K' is then disabled, and the 'Crop'
    button of the new library entry is enabled. *)
Theorem upscale_success_disables_upscale env env' s base64 result :
  ImageState.base64 (currentImage s) = Some base64 ->
  String.eqb base64 "" = false ->
  aistudio env = false ->
  let out := fst (runAlone (handleUpscale4K env s) [(Fulfilled result, env')] s) in
  currentImage (st out)
    = ImageState.mk (Some result) (Some result) (ImageState.url (currentImage s))
        "4K" true (Some Pro_4K)
  /\ results (st out)
     = ResultItem.mk (random_id env') result result "4K" "Pro 4K" (now env')
       :: results s
  /\ mode (st out) = IDLE /\ isComparing (st out) = true
  /\ enabled (st out) clickUpscale4K = false
  /\ enabled (st out) (clickCropResult 0) = true.
Proof.
  intros Hb Hne Ha out.
  assert (H : currentImage (st out)
              = ImageState.mk (Some result) (Some result)
                  (ImageState.url (currentImage s)) "4K" true (Some Pro_4K)
              /\ results (st out)
                 = ResultItem.mk (random_id env') result result "4K" "Pro 4K"
                     (now env') :: results s
              /\ mode (st out) = IDLE /\ isComparing (st out) = true).
  { subst out. unfold runAlone, handleUpscale4K, upscale4K_call.
    rewrite Hb, Hne, Ha. repeat split; reflexivity. }
  clearbody out. destruct H as (Hcur & Hres & Hmode & Hcmp).
  split; [exact Hcur|]. split; [exact Hres|]. split; [exact Hmode|].
  split; [exact Hcmp|]. split.
  - cbn [enabled]. rewrite Hcur. cbn [ImageState.resolution].
    rewrite andb_false_r. reflexivity.
  - cbn [enabled]. unfold page, cropModal, zoomModal. rewrite Hres, Hmode.
    reflexivity.
Qed.

Lemma upscale_success_disables_upscale_witness :
  enabled
    (st (fst (runAlone (handleUpscale4K env0 prompted)
                [(Fulfilled "data:image/png;base64,UHD", env0)] prompted)))
    clickUpscale4K = false.
Proof.
  refine (proj1 (proj2 (proj2 (proj2 (proj2
            (upscale_success_disables_upscale env0 env0 prompted
               "data:image/png;base64,AAAA" "data:image/png;base64,UHD" _ _ _)))))).
  - reflexivity.
  - reflexivity.
  - reflexivity.
Defined.

(** X18: a handler whose guard fails changes nothing and makes no call:
    generate and edit without a prompt, every operation on the current
    image without an image, the erase without its canvas, the batch run on
    an empty queue, and the crop commit outside a crop session. *)
Theorem handlers_without_input_do_nothing env s c :
  (blank (prompt s) = true -> exec (handleGenerate env s) c = c)
  /\ (blank (prompt s) = true \/ truthy (ImageState.base64 (currentImage s)) = false ->
      exec (handleEdit env s) c = c)
  /\ (truthy (ImageState.base64 (currentImage s)) = false ->
      exec (handleRemoveWatermark env s) c = c
      /\ exec (handleUpscale4K env s) c = c
      /\ (forall maskData, exec (castMagicHand maskData env s) c = c)
      /\ exec (startCrop None (ImageState.base64 (currentImage s)) env s) c = c)
  /\ (truthy (ImageState.url (currentImage s)) = false ->
      exec (startZoom env s) c = c /\ exec (startMagicHand env s) c = c)
  /\ (magicCanvasRef_current s = false ->
      forall maskData, exec (castMagicHand maskData env s) c = c)
  /\ (batchQueue s = [] -> exec (handleBatchUpscale env s) c = c)
  /\ (cropData s = None \/ mode s <> CROPPING -> exec (executeCrop env s) c = c).
Proof.
  split; [|split; [|split; [|split; [|split; [|split]]]]].
  - unfold handleGenerate. intros ->. reflexivity.
  - unfold handleEdit, truthy.
    intros [H|H]; destruct (ImageState.base64 _) as [b|]; try reflexivity.
    + rewrite H. reflexivity.
    + apply negb_false_iff in H. rewrite H, orb_true_r. reflexivity.
  - intros H. unfold truthy in H.
    unfold handleRemoveWatermark, handleUpscale4K, castMagicHand, startCrop.
    destruct (ImageState.base64 _) as [b|].
    + apply negb_false_iff in H. rewrite H.
      split; [reflexivity|]. split; [reflexivity|]. split; reflexivity.
    + split; [reflexivity|]. split; [reflexivity|]. split; reflexivity.
  - unfold startZoom, startMagicHand. intros ->. split; reflexivity.
  - intros H maskData. unfold castMagicHand.
    destruct (ImageState.base64 _) as [b|]; [|reflexivity].
    rewrite H, orb_true_r. reflexivity.
  - unfold handleBatchUpscale. intros ->. reflexivity.
  - unfold executeCrop, canvasRef_current.
    intros [->|H]; [reflexivity|]. destruct (cropData s); [|reflexivity].
    rewrite (bool_decide_eq_false_2 _ H). reflexivity.
Qed.

Lemma handlers_without_input_do_nothing_witness :
  exec (handleGenerate env0 initialState) initialConfig = initialConfig.
Proof.
  refine (proj1 (handlers_without_input_do_nothing env0 initialState
                   initialConfig) _).
  reflexivity.
Defined.

(* ================================================================== *)
(** * Properties: uploads and the batch run                            *)
(* ================================================================== *)

Lemma handleFileUpload_exec files env s :
  forall c,
    exec (handleFileUpload files env s) c
    = mkConfig (st c)
        (pending c ++ map (fun f => (readAsDataURL f, onloadend s)) files).
Proof.
  induction files as [|f files IH]; intros c; cbn.
  - rewrite app_nil_r. destruct c; reflexivity.
  - rewrite IH. cbn. rewrite <- app_assoc. reflexivity.
Qed.

Lemma settle_uploads s loads :
  forall files s1 log,
    length files = length loads ->
    let out := settleAll (map readAnswer loads)
                 (mkConfig s1 (map (fun f => (readAsDataURL f, onloadend s)) files))
                 log in
    batchQueue (st (fst out)) = (batchQueue s1 ++ map uploadedItem loads)%list
    /\ currentImage (st (fst out))
       = (if truthy (ImageState.url (currentImage s)) then currentImage s1
          else match last loads with
               | Some l => uploadedImage (fst l)
               | None => currentImage s1
               end)
    /\ snd out = (log ++ map readAsDataURL files)%list
    /\ pending (fst out) = []
    /\ mode (st (fst out)) = mode s1
    /\ results (st (fst out)) = results s1.
Proof.
  induction loads as [|[d e] loads IH]; intros files s1 log Hlen; cbn.
  - destruct files; [|discriminate]. cbn. rewrite !app_nil_r.
    destruct (truthy _); repeat split; reflexivity.
  - destruct files as [|f files]; [discriminate|]. cbn.
    injection Hlen as Hlen.
    unfold when. destruct (truthy (ImageState.url (currentImage s))) eqn:Ht; cbn.
    + specialize (IH files (setBatchQueue (batchQueue s1 ++ [uploadedItem (d, e)]) s1)
                    (log ++ [readAsDataURL f])%list Hlen).
      cbv zeta in IH. try rewrite Ht in IH. destruct IH as (H1 & H2 & H3 & H4 & H5 & H6).
      unfold uploadedItem in *. cbn in *.
      rewrite H1, H2, H3, H4, H5, H6, <- !app_assoc. repeat split; reflexivity.
    + specialize (IH files
                    (setCurrentImage (uploadedImage d)
                       (setBatchQueue (batchQueue s1 ++ [uploadedItem (d, e)]) s1))
                    (log ++ [readAsDataURL f])%list Hlen).
      cbv zeta in IH. try rewrite Ht in IH. destruct IH as (H1 & H2 & H3 & H4 & H5 & H6).
      unfold uploadedItem, uploadedImage in *. cbn in *.
      rewrite H1, H2, H3, H4, H5, H6, <- !app_assoc, last_cons.
      repeat split; try reflexivity.
      destruct (last loads); reflexivity.
Qed.

(** X19: [handleFileUpload] starts one read per file, in order; when the
    reads have completed the queue has gained one entry per file, in that
    order, after the entries it had.  The current image is kept when there
    was one as the files were chosen; otherwise every file read replaces
    it, and the one read last stays.  The mode is not changed. *)
Theorem files_are_queued_in_load_order env s files loads :
  length files = length loads ->
  let out := runAlone (handleFileUpload files env s) (map readAnswer loads) s in
  batchQueue (st (fst out)) = (batchQueue s ++ map uploadedItem loads)%list
  /\ currentImage (st (fst out))
     = (if truthy (ImageState.url (currentImage s)) then currentImage s
        else match last loads with
             | Some l => uploadedImage (fst l)
             | None => currentImage s
             end)
  /\ snd out = map readAsDataURL files
  /\ pending (fst out) = []
  /\ mode (st (fst out)) = mode s.
Proof.
  intros Hlen out. subst out. unfold runAlone.
  rewrite handleFileUpload_exec. cbn [st pending app].
  destruct (settle_uploads s loads files s [] Hlen) as (H1 & H2 & H3 & H4 & H5 & _).
  repeat split; assumption.
Qed.

Lemma files_are_queued_in_load_order_witness :
  batchQueue
    (st (fst (runAlone (handleFileUpload ["a.png"; "b.png"] env0 threeQueued)
                (map readAnswer [("data:A", env0); ("data:B", env0)])
                threeQueued)))
  = (batchQueue threeQueued
     ++ map uploadedItem [("data:A", env0); ("data:B", env0)])%list.
Proof.
  refine (proj1 (files_are_queued_in_load_order env0 threeQueued
                   ["a.png"; "b.png"] [("data:A", env0); ("data:B", env0)] _)).
  reflexivity.
Defined.

Lemma batchLoop_run n :
  forall i q answers_ c log,
    length q = (n + i)%nat ->
    pending c = [] ->
    batchQueue (st c) = q ->
    length answers_ = length (List.filter notDone (drop i q)) ->
    Forall settled answers_ ->
    let out := settleAll answers_ (exec (batchLoop n i q) c) log in
    batchQueue (st (fst out)) = (take i q ++ batchOutcome answers_ (drop i q))%list
    /\ snd out = (log ++ batchRequests (drop i q))%list
    /\ mode (st (fst out)) = IDLE
    /\ pending (fst out) = []
    /\ results (st (fst out)) = batchResults answers_ (results (st c))
    /\ currentImage (st (fst out)) = currentImage (st c).
Proof.
  induction n as [|n IH]; intros i q answers_ c log Hlen Hp Hq Hans Hset.
  - assert (Hd : drop i q = []) by (apply drop_ge; lia).
    rewrite Hd in *. destruct answers_; [|discriminate]. cbn.
    rewrite take_ge by lia. unfold batchRequests. cbn. rewrite !app_nil_r.
    repeat split; auto.
  - assert (Hi : (i < length q)%nat) by lia.
    destruct (lookup_lt_is_Some_2 q i Hi) as [item Hitem].
    assert (Hd : drop i q = item :: drop (S i) q).
    { apply drop_S. exact Hitem. }
    rewrite Hd in *. cbn [batchLoop]. rewrite Hitem.
    cbn [batchOutcome List.filter] in *. unfold batchRequests in *. cbn [List.filter].
    assert (Hnd : notDone item = negb (bool_decide (BatchImage.status item = st_done)))
      by reflexivity.
    rewrite Hnd in *. clear Hnd.
    destruct (bool_decide (BatchImage.status item = st_done)) eqn:Hdone; cbn [negb] in *.
    + specialize (IH (S i) q answers_ c log ltac:(lia) Hp Hq Hans Hset).
      cbv zeta in IH. destruct IH as (H1 & H2 & H3 & H4 & H5 & H6).
      cbv zeta. rewrite H1, H2, H3, H4, H5, H6.
      rewrite (take_S_r q i item Hitem), <- app_assoc. repeat split; reflexivity.
    + destruct answers_ as [|[a e] answers']; [discriminate|].
      cbn [length] in Hans. injection Hans as Hans.
      pose proof (proj1 (Forall_cons _ _ _) Hset) as [Ha Hset'].
      set (q1 := <[i:=markProcessing item]> q).
      assert (Hdrop : forall x, drop (S i) (<[i:=x]> q1) = drop (S i) q).
      { intros x. subst q1. rewrite !drop_insert_lt by lia. reflexivity. }
      assert (Htake : forall x, take (S i) (<[i:=x]> q1) = (take i q ++ [x])%list).
      { intros x. subst q1. rewrite list_insert_insert_eq.
        rewrite (take_S_r _ i x).
        - rewrite take_insert_ge by lia. reflexivity.
        - apply list_lookup_insert_eq. exact Hi. }
      assert (Hl : forall x, length (<[i:=x]> q1) = (n + S i)%nat).
      { intros x. subst q1. rewrite !length_insert. lia. }
      destruct c as [s0 pd]. cbn in Hp, Hq. subst pd.
      match goal with
      | |- context [settleAll ?l ?cc ?ll] => set (out := settleAll l cc ll)
      end.
      destruct a as [result| | | |err]; cbn in Ha; try contradiction.
      * set (q2 := <[i:=markDone result (markProcessing item)]> q1).
        set (c2 := mkConfig
                     (setBatchQueue q2
                        (setResults
                           (ResultItem.mk (random_id e) result result
                              "Enhanced HD" "Free Batch" (now e)
                            :: results s0) (setBatchQueue q1 s0))) []).
        assert (Hout : out = settleAll answers' (exec (batchLoop n (S i) q2) c2)
                               (log ++ [upscaleFree (BatchImage.base64 item)])%list)
          by reflexivity.
        clearbody out. subst out.
        specialize (IH (S i) q2 answers' c2
                      (log ++ [upscaleFree (BatchImage.base64 item)])%list
                      (Hl _) eq_refl eq_refl).
        subst q2. rewrite Hdrop, Htake in IH. specialize (IH Hans Hset').
        cbv zeta in IH. destruct IH as (H1 & H2 & H3 & H4 & H5 & H6).
        rewrite H1, H2, H3, H4, H5, H6. cbn. rewrite <- !app_assoc.
        repeat split; reflexivity.
      * set (q2 := <[i:=markError err (markProcessing item)]> q1).
        set (c2 := mkConfig (setBatchQueue q2 (setBatchQueue q1 s0)) []).
        assert (Hout : out = settleAll answers' (exec (batchLoop n (S i) q2) c2)
                               (log ++ [upscaleFree (BatchImage.base64 item)])%list)
          by reflexivity.
        clearbody out. subst out.
        specialize (IH (S i) q2 answers' c2
                      (log ++ [upscaleFree (BatchImage.base64 item)])%list
                      (Hl _) eq_refl eq_refl).
        subst q2. rewrite Hdrop, Htake in IH. specialize (IH Hans Hset').
        cbv zeta in IH. destruct IH as (H1 & H2 & H3 & H4 & H5 & H6).
        rewrite H1, H2, H3, H4, H5, H6. cbn. rewrite <- !app_assoc.
        repeat split; reflexivity.
Qed.

(** X20: a run of [handleBatchUpscale] on any queue, with every call
    answered: one call is made for each item that is not done, in queue
    order; an item whose call returned an image is done and shows it, an
    item whose call was rejected has the status 'error' and the message,
    the items that were done are untouched; the result library gains one
    entry per image returned; the current image is unchanged, and the mode
    is [IDLE] at the end (unchanged when the queue is empty). *)
Theorem batch_upscale_processes_unfinished_items env s answers_ :
  length answers_ = length (List.filter notDone (batchQueue s)) ->
  Forall settled answers_ ->
  let out := runAlone (handleBatchUpscale env s) answers_ s in
  batchQueue (st (fst out)) = batchOutcome answers_ (batchQueue s)
  /\ snd out = batchRequests (batchQueue s)
  /\ pending (fst out) = []
  /\ results (st (fst out)) = batchResults answers_ (results s)
  /\ currentImage (st (fst out)) = currentImage s
  /\ mode (st (fst out)) = match batchQueue s with [] => mode s | _ => IDLE end.
Proof.
  intros Hans Hset. unfold runAlone, handleBatchUpscale.
  destruct (batchQueue s) as [|item q] eqn:Hq.
  - destruct answers_; [|discriminate]. cbn. rewrite Hq. repeat split; reflexivity.
  - cbn [exec]. cbn [st pending].
    pose proof (batchLoop_run (length (item :: q)) 0 (item :: q) answers_
                  (mkConfig (setMode BATCH_PROCESSING s) []) []
                  ltac:(lia) eq_refl Hq Hans Hset) as H.
    cbv zeta in H. rewrite drop_0 in H.
    destruct H as (H1 & H2 & H3 & H4 & H5 & H6).
    cbv zeta. rewrite H1, H2, H3, H4, H5, H6. repeat split; reflexivity.
Qed.

Lemma batch_upscale_processes_unfinished_items_witness :
  let out := runAlone (handleBatchUpscale env0 threeQueued)
               [(Fulfilled "data:a4k", env0); (Rejected serviceDown, env0); (Fulfilled "data:c4k", env0)] threeQueued in
  batchQueue (st (fst out))
    = batchOutcome [(Fulfilled "data:a4k", env0); (Rejected serviceDown, env0); (Fulfilled "data:c4k", env0)]
        (batchQueue threeQueued).
Proof.
  apply (batch_upscale_processes_unfinished_items env0 threeQueued
           [(Fulfilled "data:a4k", env0); (Rejected serviceDown, env0); (Fulfilled "data:c4k", env0)]).
  - vm_compute. reflexivity.
  - repeat constructor.
Defined.

Lemma batchLoop_queue n :
  forall i q c c',
    batchQueue (st c) = batchQueue (st c') ->
    batchQueue (st (exec (batchLoop n i q) c))
    = batchQueue (st (exec (batchLoop n i q) c')).
Proof.
  induction n as [|n IH]; intros i q c c' Hc; cbn [batchLoop].
  - cbn. exact Hc.
  - destruct (q !! i) as [item|]; [|cbn; exact Hc].
    destruct (bool_decide _); [apply IH; exact Hc|].
    reflexivity.
Qed.

Lemma batchLoop_oneBatchCall n :
  forall i q c, pending c = [] -> oneBatchCall (exec (batchLoop n i q) c).
Proof.
  induction n as [|n IH]; intros i q c Hc; cbn [batchLoop].
  - left. exact Hc.
  - destruct (q !! i) as [item|]; [|left; exact Hc].
    destruct (bool_decide _); [apply IH; exact Hc|].
    right. exists n, i, (<[i:=markProcessing item]> q), item.
    cbn. rewrite Hc. reflexivity.
Qed.

Lemma batchResume_queue n i q1 item env a s1 s2 :
  settled (a, env) ->
  batchQueue (st (exec (batchResume n i q1 item env a) (mkConfig s1 [])))
  = batchQueue (st (exec (batchResume n i q1 item env a) (mkConfig s2 []))).
Proof.
  intros Ha. destruct a as [result| | | |err]; cbn in Ha; try contradiction;
    cbn [batchResume exec addResult]; apply batchLoop_queue; reflexivity.
Qed.

Lemma batchResume_oneBatchCall n i q1 item env a s :
  oneBatchCall (exec (batchResume n i q1 item env a) (mkConfig s [])).
Proof.
  destruct a; cbn [batchResume exec addResult]; try (left; reflexivity);
    apply batchLoop_oneBatchCall; reflexivity.
Qed.

Lemma answered_oneBatchCall a c c' :
  oneBatchCall c -> step (answered a) c = Some c' -> oneBatchCall c'.
Proof.
  intros [Hc|(n & i & q1 & item & Hc)] Hs; cbn in Hs; rewrite Hc in Hs;
    [discriminate|].
  destruct a as [a e]. cbn in Hs.
  destruct a as [v| | | |err]; try discriminate; injection Hs as <-.
  - exact (batchResume_oneBatchCall n i q1 item e (Fulfilled v) (st c)).
  - exact (batchResume_oneBatchCall n i q1 item e (Rejected err) (st c)).
Qed.

Lemma run_oneBatchCall env s before :
  forall c, steps (UI clickBatchUpscale env :: map answered before) (mkConfig s []) = Some c ->
    oneBatchCall c.
Proof.
  intros c Hs. cbn [steps] in Hs.
  destruct (step (UI clickBatchUpscale env) (mkConfig s [])) as [c0|] eqn:H0;
    [|discriminate].
  assert (Hc0 : oneBatchCall c0).
  { cbn [step st] in H0. destruct (enabled s clickBatchUpscale); [|discriminate].
    injection H0 as <-. cbn [handle]. unfold handleBatchUpscale.
    destruct (batchQueue s); [left; reflexivity|].
    cbn [exec]. apply batchLoop_oneBatchCall. reflexivity. }
  clear H0. revert c0 Hc0 Hs.
  induction before as [|a before IH]; intros c0 H0 Hs; cbn [map steps] in Hs.
  - injection Hs as <-. exact H0.
  - destruct (step (answered a) c0) as [c1|] eqn:H1; [|discriminate].
    apply (IH c1); [|exact Hs]. eapply answered_oneBatchCall; eauto.
Qed.

Lemma exec_pending_any_state p :
  forall c c', pending c = pending c' -> pending (exec p c) = pending (exec p c').
Proof.
  induction p as [|f k IH|r k _ rest IH]; intros c c' Hc; cbn [exec].
  - exact Hc.
  - apply IH. exact Hc.
  - apply IH. cbn. rewrite Hc. reflexivity.
Qed.

Lemma edits_keep_pending env edits :
  forall c c', steps (map (editEvent env) edits) c = Some c' -> pending c' = pending c.
Proof.
  induction edits as [|e edits IH]; intros c c' Hs; cbn [map steps] in Hs.
  - injection Hs as <-. reflexivity.
  - destruct (step (editEvent env e) c) as [c1|] eqn:H1; [|discriminate].
    rewrite (IH c1 c' Hs).
    destruct e; cbn in H1.
    + destruct (page (st c) && _); [|discriminate]. injection H1 as <-.
      destruct (batchQueue (st c) !! i); reflexivity.
    + destruct (page (st c) && _); [|discriminate]. injection H1 as <-.
      reflexivity.
Qed.

(** X21: a batch run is started with nothing in flight, and some of its
    calls have been answered.  Items are then removed from the queue, or
    the queue is cleared, while the next call is in flight.  When that call
    is answered the queue is what it would be had nothing been removed: the
    loop writes back its own copy. *)
Theorem queue_edits_during_batch_call_are_undone
    env s before edits a c1 c2 c3 :
  steps (UI clickBatchUpscale env :: map answered before) (mkConfig s []) = Some c1 ->
  steps (map (editEvent env) edits) c1 = Some c2 ->
  step (answered a) c2 = Some c3 ->
  exists c3',
    step (answered a) c1 = Some c3'
    /\ batchQueue (st c3) = batchQueue (st c3')
    /\ inFlight c3 = inFlight c3'.
Proof.
  intros H1 H2 H3.
  pose proof (run_oneBatchCall env s before c1 H1) as Hone.
  pose proof (edits_keep_pending env edits c1 c2 H2) as Hp.
  destruct Hone as [Hc|(n & i & q1 & item & Hc)].
  - cbn in H3. rewrite Hp, Hc in H3. discriminate.
  - cbn in H3. rewrite Hp, Hc in H3. cbn in H3.
    cbn. rewrite Hc. cbn.
    destruct a as [a e]. cbn [fst snd] in *.
    assert (Hset : settled (a, e)) by (destruct a; cbn in *; auto; discriminate).
    assert (Ha : match a with Fulfilled _ | Rejected _ => true | _ => false end = true)
      by (destruct a; cbn in *; auto; contradiction).
    rewrite Ha in *. clear Ha.
    injection H3 as <-. eexists. split; [reflexivity|].
    split.
    + apply batchResume_queue. exact Hset.
    + unfold inFlight. f_equal. apply exec_pending_any_state. reflexivity.
Qed.

Lemma queue_edits_during_batch_call_are_undone_witness :
  let c1 := runFrom (UI clickBatchUpscale env0
                       :: map answered [(Fulfilled "data:image/png;base64,AAHD", envId "r1")])
              (mkConfig threeQueued []) in
  let c2 := runFrom (map (editEvent env0) [removeAt 2; clearQueue]) c1 in
  let c3 := runFrom [answered (Rejected quotaExceeded, env0)] c2 in
  exists c3',
    step (answered (Rejected quotaExceeded, env0)) c1 = Some c3'
    /\ batchQueue (st c3) = batchQueue (st c3')
    /\ inFlight c3 = inFlight c3'.
Proof.
  refine (queue_edits_during_batch_call_are_undone env0 threeQueued
            [(Fulfilled "data:image/png;base64,AAHD", envId "r1")]
            [removeAt 2; clearQueue] (Rejected quotaExceeded, env0) _ _ _ _ _ _).
  - vm_compute. reflexivity.
  - vm_compute. reflexivity.
  - vm_compute. reflexivity.
Defined.

(* ================================================================== *)
(** * Properties: [GeminiService]                                      *)
(* ================================================================== *)

Lemma split_commaFree s : commaFree s = true -> GeminiService.split "," s = [s].
Proof.
  induction s as [|c s IH]; cbn [commaFree GeminiService.split]; [reflexivity|].
  intros [Hc Hs]%andb_true_iff. apply negb_true_iff in Hc. rewrite Hc.
  rewrite (IH Hs). reflexivity.
Qed.

Lemma split_at_comma p rest :
  commaFree p = true ->
  GeminiService.split "," (p ++ String "," rest) = p :: GeminiService.split "," rest.
Proof.
  induction p as [|c p IH]; cbn [commaFree GeminiService.split String.append].
  - intros _. reflexivity.
  - intros [Hc Hs]%andb_true_iff. apply negb_true_iff in Hc.
    change (String c p ++ String "," rest) with (String c (p ++ String "," rest)).
    cbn [GeminiService.split]. rewrite Hc, (IH Hs). reflexivity.
Qed.

Lemma split_pieces s :
  Forall (fun piece => commaFree piece = true) (GeminiService.split "," s).
Proof.
  induction s as [|c s IH]; cbn [GeminiService.split].
  - repeat constructor.
  - destruct (Ascii.eqb c ",") eqn:Hc.
    + constructor; [reflexivity|exact IH].
    + destruct (GeminiService.split "," s) as [|piece pieces].
      * repeat constructor. cbn. rewrite Hc. reflexivity.
      * apply Forall_cons in IH as [Hp Hps]. constructor; [|exact Hps].
        cbn. rewrite Hc. exact Hp.
Qed.

(** X22: the data sent for an image, [base64Image.split(',')[1] ||
    base64Image]: a string without a comma is sent whole; of a data URL
    'header,data' the data is sent; a URL that ends in its comma is sent
    whole; and what is sent is always the whole string or a piece of it
    that is not empty and holds no comma. *)
Theorem inline_data_of_a_data_url :
  (forall s, commaFree s = true -> GeminiService.inlineDataOf s = s)
  /\ (forall p d,
        commaFree p = true -> commaFree d = true -> d <> "" ->
        GeminiService.inlineDataOf (p ++ "," ++ d) = d)
  /\ (forall p, commaFree p = true ->
        GeminiService.inlineDataOf (p ++ ",") = p ++ ",")
  /\ (forall s, GeminiService.inlineDataOf s = s
                \/ (commaFree (GeminiService.inlineDataOf s) = true
                    /\ GeminiService.inlineDataOf s <> "")).
Proof.
  unfold GeminiService.inlineDataOf. repeat split.
  - intros s Hs. rewrite (split_commaFree s Hs). reflexivity.
  - intros p d Hp Hd Hne. change ("," ++ d) with (String "," d).
    rewrite (split_at_comma p d Hp), (split_commaFree d Hd). cbn.
    destruct (String.eqb_spec d ""); [contradiction|reflexivity].
  - intros p Hp. change (p ++ ",") with (p ++ String "," "").
    rewrite (split_at_comma p "" Hp). reflexivity.
  - intros s. pose proof (split_pieces s) as Hall.
    destruct (GeminiService.split "," s) as [|piece [|second rest]];
      [left; reflexivity|left; reflexivity|].
    apply Forall_cons in Hall as [_ [Hsecond _]%Forall_cons].
    cbn [lookup list_lookup or_else].
    destruct (String.eqb_spec second ""); [left; reflexivity|right].
    split; assumption.
Qed.

Lemma inline_data_of_a_data_url_witness :
  GeminiService.inlineDataOf ("data:image/jpeg;base64" ++ "," ++ "AAAA") = "AAAA".
Proof.
  refine (proj1 (proj2 inline_data_of_a_data_url) "data:image/jpeg;base64" "AAAA"
            _ _ _).
  - reflexivity.
  - reflexivity.
  - discriminate.
Defined.

Lemma find_textOnly before rest :
  textOnly before ->
  List.find (fun part => bool_decide (is_Some (GeminiService.inlineData part)))
    (before ++ rest)
  = List.find (fun part => bool_decide (is_Some (GeminiService.inlineData part))) rest.
Proof.
  induction 1 as [|part before Hpart _ IH]; [reflexivity|].
  cbn [app List.find]. rewrite Hpart.
  rewrite bool_decide_eq_false_2 by (intros [? ?]; discriminate).
  exact IH.
Qed.

(** X23: [extractImageUrlFromResponse] returns the first part of the first
    candidate that has inline data, as a PNG data URL, whatever parts
    follow it and whatever the other candidates are. *)
Theorem extract_returns_first_image_part before t blob after others :
  textOnly before ->
  GeminiService.extractImageUrlFromResponse
    (firstCandidate (before ++ GeminiService.mkPart t (Some blob) :: after) others)
  = inl ("data:image/png;base64,"
           ++ GeminiService.interpolate (GeminiService.data blob)).
Proof.
  intros Hb. unfold GeminiService.extractImageUrlFromResponse, firstCandidate.
  cbn [GeminiService.candidates GeminiService.content GeminiService.parts].
  rewrite (find_textOnly _ _ Hb). cbn [List.find GeminiService.inlineData].
  rewrite bool_decide_eq_true_2 by (eexists; reflexivity).
  reflexivity.
Qed.

Lemma extract_returns_first_image_part_witness :
  GeminiService.extractImageUrlFromResponse imageAnswer
  = inl "data:image/png;base64,iVBORw0KGgo".
Proof.
  refine (extract_returns_first_image_part
            [GeminiService.textPart "Here is your image."] None
            (GeminiService.mkBlob (Some "iVBORw0KGgo") (Some "image/png")) [] [] _).
  repeat constructor.
Defined.

(** X24: when no part of the first candidate has inline data,
    [extractImageUrlFromResponse] throws 'No image data found in response',
    also when another candidate holds an image. *)
Theorem extract_fails_without_image_in_first_candidate ps others :
  textOnly ps ->
  GeminiService.extractImageUrlFromResponse (firstCandidate ps others)
  = inr (GeminiService.Error "No image data found in response").
Proof.
  intros Hb. unfold GeminiService.extractImageUrlFromResponse, firstCandidate.
  cbn [GeminiService.candidates GeminiService.content GeminiService.parts].
  rewrite <- (app_nil_r ps), (find_textOnly _ _ Hb). reflexivity.
Qed.

Lemma extract_fails_without_image_in_first_candidate_witness :
  GeminiService.extractImageUrlFromResponse
    (firstCandidate [GeminiService.textPart "I cannot do that."]
       [GeminiService.mkCandidate
          (Some (GeminiService.mkContent
                   (Some [GeminiService.mkPart None
                            (Some (GeminiService.mkBlob (Some "AAAA") None))])))])
  = inr (GeminiService.Error "No image data found in response").
Proof.
  apply extract_fails_without_image_in_first_candidate.
  repeat constructor.
Defined.

(** X25: every URL that [extractImageUrlFromResponse] returns starts with
    'data:image/png;base64,': it is never empty, and its piece before the
    first comma is that header, whatever the MIME type of the part was. *)
Theorem extracted_url_is_a_png_data_url response url :
  GeminiService.extractImageUrlFromResponse response = inl url ->
  (exists d, url = "data:image/png;base64," ++ d)
  /\ truthy (Some url) = true
  /\ GeminiService.split "," url !! 0%nat = Some "data:image/png;base64".
Proof.
  unfold GeminiService.extractImageUrlFromResponse.
  destruct (GeminiService.candidates response) as [[|candidate ?]|]; try discriminate.
  destruct (GeminiService.content candidate) as [c|]; try discriminate.
  destruct (GeminiService.parts c) as [ps|]; try discriminate.
  destruct (List.find _ ps) as [part|]; try discriminate.
  intros [= <-].
  set (d := GeminiService.interpolate _). clearbody d.
  split; [exists d; reflexivity|split; [reflexivity|]].
  change ("data:image/png;base64," ++ ?x)
    with ("data:image/png;base64" ++ String "," x).
  rewrite split_at_comma by reflexivity. reflexivity.
Qed.

Lemma extracted_url_is_a_png_data_url_witness :
  truthy (Some "data:image/png;base64,iVBORw0KGgo") = true.
Proof.
  refine (proj1 (proj2 (extracted_url_is_a_png_data_url imageAnswer
                          "data:image/png;base64,iVBORw0KGgo" _))).
  reflexivity.
Defined.

(** X26: an image returned by the service and passed to [editImage] is sent
    with the very data the service returned, when that data is not empty
    and holds no comma (as base64 does): the header that
    [extractImageUrlFromResponse] puts in front is the one the request
    strips. *)
Theorem returned_image_is_sent_back_unchanged before t d mime after others r :
  textOnly before ->
  commaFree d = true -> d <> "" ->
  GeminiService.extractImageUrlFromResponse
    (firstCandidate
       (before ++ GeminiService.mkPart t (Some (GeminiService.mkBlob (Some d) mime)) :: after)
       others) = inl r ->
  forall prompt,
       GeminiService.contents <$> GeminiService.parameters (editImage r prompt)
       = Some [GeminiService.mkPart None
                 (Some (GeminiService.mkBlob (Some d) (Some "image/png")));
               GeminiService.textPart prompt].
Proof.
  intros Hb Hd Hne.
  rewrite (extract_returns_first_image_part before t _ after others Hb).
  injection 1 as <-. intros prompt.
  cbn [GeminiService.parameters fmap option_fmap option_map GeminiService.contents
       GeminiService.imagePart GeminiService.interpolate GeminiService.data].
  unfold GeminiService.imagePart, GeminiService.inlineDataOf.
  change ("data:image/png;base64," ++ d)
    with ("data:image/png;base64" ++ String "," d).
  rewrite split_at_comma, (split_commaFree d Hd) by reflexivity.
  cbn [lookup list_lookup or_else].
  destruct (String.eqb_spec d ""); [contradiction|reflexivity].
Qed.

Lemma returned_image_is_sent_back_unchanged_witness :
  GeminiService.contents
    <$> GeminiService.parameters
          (editImage "data:image/png;base64,iVBORw0KGgo" "make the sky blue")
  = Some [GeminiService.mkPart None
            (Some (GeminiService.mkBlob (Some "iVBORw0KGgo") (Some "image/png")));
          GeminiService.textPart "make the sky blue"].
Proof.
  refine (returned_image_is_sent_back_unchanged
            [GeminiService.textPart "Here is your image."] None "iVBORw0KGgo"
            (Some "image/png") [] [] "data:image/png;base64,iVBORw0KGgo"
            _ _ _ _ "make the sky blue").
  - repeat constructor.
  - reflexivity.
  - discriminate.
  - reflexivity.
Defined.

(* ================================================================== *)
(** * Properties: the loading message                                  *)
(* ================================================================== *)

Lemma distinct_NoDup l : distinct l = true -> NoDup l.
Proof.
  induction l as [|x l IH]; cbn [distinct]; [constructor|].
  intros [Hx Hl]%andb_true_iff. constructor; [|exact (IH Hl)].
  intros Hin. apply negb_true_iff in Hx.
  assert (existsb (String.eqb x) l = true); [|congruence].
  apply existsb_exists. exists x. split; [|apply String.eqb_refl].
  apply list_elem_of_In. exact Hin.
Qed.

Lemma indexOf_absent x l : x ∉ l -> indexOf x l = (-1)%Z.
Proof.
  induction l as [|y l IH]; [reflexivity|].
  intros Hx. apply not_elem_of_cons in Hx as [Hne Hx]. cbn [indexOf].
  destruct (String.eqb_spec y x); [congruence|].
  rewrite (IH Hx). reflexivity.
Qed.

Lemma indexOf_lookup l : NoDup l ->
  forall i x, l !! i = Some x -> indexOf x l = Z.of_nat i.
Proof.
  induction 1 as [|y l Hy Hnd IH]; intros i x Hi; [discriminate|].
  cbn [indexOf]. destruct i as [|i]; cbn in Hi.
  - injection Hi as ->. rewrite String.eqb_refl. reflexivity.
  - destruct (String.eqb_spec y x) as [->|Hne].
    + exfalso. apply Hy. eapply list_elem_of_lookup_2. exact Hi.
    + rewrite (IH i x Hi).
      destruct (Z.ltb_spec (Z.of_nat i) 0); lia.
Qed.

Lemma Zrem_succ_nat i n :
  (0 < n)%nat -> Z.to_nat (Z.rem (Z.of_nat i + 1) (Z.of_nat n)) = (S i mod n)%nat.
Proof.
  intros Hn. rewrite Z.rem_mod_nonneg by lia.
  replace (Z.of_nat i + 1)%Z with (Z.of_nat (S i)) by lia.
  rewrite <- Nat2Z.inj_mod, Nat2Z.id. reflexivity.
Qed.

Lemma messageAfter_cycle messages k :
  NoDup messages -> messages <> [] ->
  messageAfter k messages = messages !! (k mod length messages)%nat.
Proof.
  intros Hnd Hne.
  assert (Hn : (0 < length messages)%nat) by (destruct messages; [congruence|cbn; lia]).
  induction k as [|k IH]; cbn [messageAfter].
  - rewrite Nat.Div0.mod_0_l. reflexivity.
  - rewrite IH.
    destruct (lookup_lt_is_Some_2 messages (k mod length messages)) as [x Hx].
    { apply Nat.mod_upper_bound. lia. }
    rewrite Hx. cbn [mbind option_bind]. unfold nextMessage.
    rewrite (indexOf_lookup _ Hnd _ _ Hx), Zrem_succ_nat by exact Hn.
    f_equal.
    replace (S (k mod length messages)) with (k mod length messages + 1)%nat by lia.
    replace (S k) with (k + 1)%nat by lia.
    apply Nat.Div0.add_mod_idemp_l.
Qed.

(** X27: the loading message of a mode goes round the messages of that
    mode: [k] ticks after the effect has set the first one, the message is
    the one at position [k] modulo their number, and it is never
    [undefined]; a message that is not one of them is followed by the
    first one; and no mode in which the interval runs uses
    [magicHandMessages]. *)
Theorem loading_messages_cycle (m : AppMode) (k : nat) :
  messageAfter k (messagesOf m)
  = messagesOf m !! (k mod length (messagesOf m))%nat
  /\ is_Some (messageAfter k (messagesOf m))
  /\ (forall foreign, foreign ∉ messagesOf m ->
        nextMessage (messagesOf m) foreign = messagesOf m !! 0%nat)
  /\ (tickerRuns m = true -> messagesOf m <> magicHandMessages).
Proof.
  assert (Hnd : NoDup (messagesOf m) /\ messagesOf m <> []).
  { destruct m; (split; [|discriminate]);
      apply distinct_NoDup; vm_compute; reflexivity. }
  destruct Hnd as [Hnd Hne].
  pose proof (messageAfter_cycle _ k Hnd Hne) as Hk.
  split; [exact Hk|split; [|split]].
  - rewrite Hk. apply lookup_lt_is_Some_2, Nat.mod_upper_bound.
    destruct (messagesOf m); [congruence|cbn; lia].
  - intros foreign Hf. unfold nextMessage. rewrite (indexOf_absent _ _ Hf).
    cbn. destruct (messagesOf m); [congruence|]. reflexivity.
  - destruct m; cbn; try discriminate; intros _; discriminate.
Qed.

Lemma loading_messages_cycle_witness :
  tickerRuns REMOVING_WATERMARK = true
  /\ messagesOf REMOVING_WATERMARK <> magicHandMessages.
Proof.
  split; [reflexivity|].
  refine (proj2 (proj2 (proj2 (loading_messages_cycle REMOVING_WATERMARK 0))) _).
  reflexivity.
Defined.
